(** * The compute-job worker (src/worker.py): model and properties

    The worker loads its parameters, in production mode asks the query
    engine to run the query, reads the [results] table of the local
    SQLite file and writes one projection of it as a JSON artifact.

    Python values are modelled as follows.
    - [str] is a list of code points ([text]); files hold text.
    - SQLite cells arrive as [None], [int], [str] or [bytes] ([sqlval]).
      REAL cells (Python floats) are left out of the model: binary
      floating point and its shortest-repr printing are not covered.
    - a [dict] is an insertion-ordered association list with [dict_set]
      for [d[k] = v]; [json.dump] walks it in that order.
    - effects (stdout, the query engine, SQLite, the file system) are
      threaded through a state-and-exception monad [M] over [world]. *)

From Stdlib Require Import ZArith NArith List String Ascii Bool Lia.
From Stdlib Require Import Decimal DecimalFacts DecimalPos DecimalN DecimalZ.
From stdpp Require Import base decidable option list gmap.

Import ListNotations.
Local Open Scope N_scope.

(** ** Text *)

Abbreviation text := (list N).

(** A Python string literal of the source. *)
Definition py (s : string) : text := map N_of_ascii (list_ascii_of_string s).

(** [needle in haystack] on Python strings. *)
Definition contains (needle haystack : text) : Prop :=
  exists before after, haystack = before ++ needle ++ after.

(** Text as SQLite hands it over: decoded UTF-8, hence Unicode scalar
    values only (no surrogate code points, nothing above U+10FFFF). *)
Definition scalar_value (c : N) : bool :=
  (c <? 0xD800) || ((0xE000 <=? c) && (c <? 0x110000)).

Definition well_formed_text (s : text) : bool := forallb scalar_value s.

(** ** [str(int)] *)

Fixpoint uint_digits (d : Decimal.uint) : text :=
  match d with
  | Nil => []
  | D0 d => 48 :: uint_digits d
  | D1 d => 49 :: uint_digits d
  | D2 d => 50 :: uint_digits d
  | D3 d => 51 :: uint_digits d
  | D4 d => 52 :: uint_digits d
  | D5 d => 53 :: uint_digits d
  | D6 d => 54 :: uint_digits d
  | D7 d => 55 :: uint_digits d
  | D8 d => 56 :: uint_digits d
  | D9 d => 57 :: uint_digits d
  end.

Definition str_int (z : Z) : text :=
  match Z.to_int z with
  | Pos d => uint_digits d
  | Neg d => 45 :: uint_digits d
  end.

(** ** Python dictionaries *)

Section Dict.
Context {K V : Type} `{EqDecision K}.

Fixpoint dict_get (k : K) (d : list (K * V)) : option V :=
  match d with
  | [] => None
  | (k', v) :: d' => if decide (k = k') then Some v else dict_get k d'
  end.

(** [d[k] = v]: an existing key keeps its place, a new one goes last. *)
Fixpoint dict_set (k : K) (v : V) (d : list (K * V)) : list (K * V) :=
  match d with
  | [] => [(k, v)]
  | (k', v') :: d' =>
      if decide (k = k') then (k', v) :: d' else (k', v') :: dict_set k v d'
  end.

(** [dict(pairs)] *)
Definition dict_of_items (items : list (K * V)) : list (K * V) :=
  fold_left (fun d kv => dict_set (fst kv) (snd kv) d) items [].

Definition dict_keys (d : list (K * V)) : list K := map fst d.
End Dict.

(** ** SQLite values and the [results] table *)

Inductive sqlval :=
  | VNull
  | VInt (z : Z)
  | VText (s : text)
  | VBlob (b : list N).

#[global] Instance sqlval_eq_dec : EqDecision sqlval.
Proof. solve_decision. Defined.

(** [dict(row)] of a [sqlite3.Row]: column name to cell. *)
Abbreviation row := (list (text * sqlval)).

(** What an extraction returns: key to row dictionary. *)
Abbreviation dataset := (list (sqlval * row)).

Record table := {
  columns : list text;
  records : list (list sqlval)
}.

(** SQLite compares identifiers without regard to the case of the ASCII
    letters ([sqlite3StrICmp]); so does [sqlite3.Row] when it is indexed
    by a name. *)
Definition lower (c : N) : N :=
  if (65 <=? c) && (c <=? 90) then c + 32 else c.

Definition same_name (a b : text) : bool :=
  bool_decide (map lower a = map lower b).

(** The first column that answers to the name [c]. *)
Fixpoint column_index (c : text) (cols : list text) : option nat :=
  match cols with
  | [] => None
  | c' :: cols' =>
      if same_name c c' then Some 0%nat
      else option_map S (column_index c cols')
  end.

(** The table declares a column under exactly the name [c]: the name
    under which [dict(row)] then holds the cell. *)
Definition has_column (t : table) (c : text) : bool :=
  bool_decide (c ∈ columns t).

(** A column of the table answers to the name [c], in some case. *)
Definition knows_column (t : table) (c : text) : bool :=
  match column_index c (columns t) with Some _ => true | None => false end.

(** The name the table declares for the column that answers to [c];
    it is the name of the result column ([cursor.description]). *)
Definition declared_name (t : table) (c : text) : text :=
  match column_index c (columns t) with
  | Some i => nth i (columns t) c
  | None => c
  end.

(** As in every SQLite table, no two columns share a name up to case. *)
Definition distinct_columns (t : table) : Prop :=
  NoDup (map (map lower) (columns t)).

Definition cell (t : table) (r : list sqlval) (c : text) : sqlval :=
  match column_index c (columns t) with
  | Some i => nth i r VNull
  | None => VNull
  end.

(** [SELECT cols FROM results [LIMIT n]]; [None] for the column list is [*]. *)
Record select := {
  sel_columns : option (list text);
  sel_limit : option nat
}.

Definition selected (t : table) (q : select) : list text :=
  match sel_columns q with
  | Some cols => cols
  | None => columns t
  end.

Definition limited (q : select) (rs : list (list sqlval)) : list (list sqlval) :=
  match sel_limit q with
  | Some n => firstn n rs
  | None => rs
  end.

(** The name of the result column for the selected name [c]: the name
    the table declares. *)
Definition result_name (t : table) (q : select) (c : text) : text :=
  match sel_columns q with
  | Some _ => declared_name t c
  | None => c
  end.

(** The rows [cursor.fetchall()] yields, each as the item list of a
    [sqlite3.Row], its columns under the names the table declares;
    [None] when no column answers to a selected name. *)
Definition fetchall (t : table) (q : select) : option (list row) :=
  if forallb (knows_column t) (selected t q) then
    Some (map (fun r => map (fun c => (result_name t q c, cell t r c))
                            (selected t q))
              (limited q (records t)))
  else None.

(** ** JSON text as [json.dump(data, f, indent=4)] produces it *)

Definition hex_digit (n : N) : N := if n <? 10 then 48 + n else 87 + n.

(** ['{0:04x}'.format(n)] for [n < 0x10000] *)
Definition hex4 (n : N) : text :=
  [ hex_digit (N.land (N.shiftr n 12) 15);
    hex_digit (N.land (N.shiftr n 8) 15);
    hex_digit (N.land (N.shiftr n 4) 15);
    hex_digit (N.land n 15) ].

(** One character under [py_encode_basestring_ascii]: the short escapes
    of [ESCAPE_DCT], printable ASCII unchanged, [\uXXXX] otherwise, as a
    surrogate pair above the basic plane. *)
Definition escape_char (c : N) : text :=
  if c =? 92 then [92; 92]
  else if c =? 34 then [92; 34]
  else if c =? 8 then [92; 98]
  else if c =? 12 then [92; 102]
  else if c =? 10 then [92; 110]
  else if c =? 13 then [92; 114]
  else if c =? 9 then [92; 116]
  else if (32 <=? c) && (c <=? 126) then [c]
  else if c <? 0x10000 then 92 :: 117 :: hex4 c
  else
    let n := c - 0x10000 in
    let s1 := N.lor 0xd800 (N.land (N.shiftr n 10) 0x3ff) in
    let s2 := N.lor 0xdc00 (N.land n 0x3ff) in
    (92 :: 117 :: hex4 s1) ++ (92 :: 117 :: hex4 s2).

Definition encode_str (s : text) : text :=
  34 :: flat_map escape_char s ++ [34].

(** ['\n' + ' ' * 4 * level] *)
Definition newline_indent (level : nat) : text :=
  10 :: repeat 32 (4 * level).

(** Exceptions of the run. [SystemExit] is the only one that is not an
    [Exception]. *)
Inductive exn :=
  | SqliteError (msg : text)
  | KeyError (key : text)
  | TypeError (msg : text)
  | OSError (msg : text)
  | ContainerParamError (msg : text)
  | SystemExit (code : Z).

Definition is_exception (e : exn) : bool :=
  match e with SystemExit _ => false | _ => true end.

Definition is_sqlite_error (e : exn) : bool :=
  match e with SqliteError _ => true | _ => false end.

Definition is_param_error (e : exn) : bool :=
  match e with ContainerParamError _ => true | _ => false end.

(** A generator's output: the chunks it yields, then the exception it
    raises, if any. *)
Abbreviation chunks := (list text * option exn)%type.

Definition iterencode_scalar (v : sqlval) : chunks :=
  match v with
  | VText s => ([encode_str s], None)
  | VNull => ([py "null"], None)
  | VInt z => ([str_int z], None)
  | VBlob _ =>
      ([], Some (TypeError (py "Object of type bytes is not JSON serializable")))
  end.

(** The key coercion of [_iterencode_dict]; [None] is its [TypeError]. *)
Definition key_text (k : sqlval) : option text :=
  match k with
  | VText s => Some s
  | VNull => Some (py "null")
  | VInt z => Some (str_int z)
  | VBlob _ => None
  end.

Section Encoder.
Context {K V : Type}.
Variable key_of : K -> option text.
Variable encode_value : nat -> V -> chunks.

(** The [for key, value in items] loop of [_iterencode_dict]. *)
Fixpoint iterencode_items (level : nat) (first : bool) (items : list (K * V))
  : chunks :=
  match items with
  | [] => ([], None)
  | (key, value) :: items' =>
      match key_of key with
      | None =>
          ([], Some (TypeError
             (py "keys must be str, int, float, bool or None, not bytes")))
      | Some k =>
          let head :=
            (if first then [] else [44 :: newline_indent level])
            ++ [encode_str k; py ": "] in
          match encode_value level value with
          | (cs, Some e) => (head ++ cs, Some e)
          | (cs, None) =>
              let '(cs', e) := iterencode_items level false items' in
              (head ++ cs ++ cs', e)
          end
      end
  end.

Definition iterencode_dict (level : nat) (dct : list (K * V)) : chunks :=
  match dct with
  | [] => ([py "{}"], None)
  | _ =>
      match iterencode_items (S level) true dct with
      | (cs, Some e) => (py "{" :: newline_indent (S level) :: cs, Some e)
      | (cs, None) =>
          (py "{" :: newline_indent (S level) :: cs
             ++ [newline_indent level; py "}"], None)
      end
  end.
End Encoder.

Definition iterencode_row (level : nat) (r : row) : chunks :=
  iterencode_dict Some (fun _ => iterencode_scalar) level r.

(** [JSONEncoder(indent=4).iterencode(data)] on an extracted dataset. *)
Definition iterencode (data : dataset) : chunks :=
  iterencode_dict key_text iterencode_row 0 data.

(** ** The world of a run *)

(** Parameters as [worker.py] reads them off [ContainerParams]. *)
Record ContainerParams := {
  dev_mode : bool;
  db_path : text;
  stats_path : text;
  query : option text;
  query_signature : option text;
  compute_job_id : option Z;
  data_refiner_id : option Z;
  query_params : list text
}.

(** The arguments the query engine client is built and called with. *)
Record engine_request := {
  req_query : option text;
  req_query_signature : option text;
  req_db_path : text;
  req_compute_job_id : option Z;
  req_data_refiner_id : option Z;
  req_query_params : list text
}.

(** The outcome of a query execution; the response payload is whatever
    the engine client decodes. *)
Record QueryResult (payload : Type) := {
  success : bool;
  error : option text;
  status_code : option Z;
  data : option payload
}.
Arguments success {payload} _.
Arguments error {payload} _.
Arguments status_code {payload} _.
Arguments data {payload} _.

(** What [print] is called with, one constructor per call site. *)
Inductive message :=
  | MsgParams (p : ContainerParams)
  | MsgParamError (e : exn)
  | MsgDevMode
  | MsgProcessing (db : text)
  | MsgExecuting (q : option text)
  | MsgQueryError (error_msg : text)
  | MsgQueryDone (db : text)
  | MsgFound (n : nat)
  | MsgNoneFound
  | MsgSaved (path : text)
  | MsgErrorSaving (e : exn)
  | MsgSqliteError (e : exn)
  | MsgErrorQuerying (e : exn)
  | MsgWorkerError (e : exn).

(** What a run does, in order. [Select db q] is the access of an
    extraction to the database at [db] for the query [q]: the
    connection, and the query when the connection is made. *)
Inductive event :=
  | Print (m : message)
  | EngineCall (req : engine_request)
  | Select (db : text) (q : select)
  | MkdirParents (target : text)
  | OpenWrite (path : text)
  | Write (path : text) (chunk : text)
  | CloseFile (path : text).

(** The one file-system failure a run may meet.
    - [CreateFault]: a database file that is missing cannot be created
      (its directory is missing or read-only).
    - [MkdirFault], [OpenFault]: directory creation, or the opening of
      the artifact, fails.
    - [WriteFault room delay]: the device takes [room] more characters
      and refuses the rest. The file object is buffered, so the refusal
      is raised by a later [write] or when the file is closed: by the
      first [write] numbered [delay] or later that finds data refused,
      and at the latest by the closing.
    - [Refused delay]: data has been refused and the error is still to
      be raised. *)
Inductive fs_fault :=
  | NoFault
  | MkdirFault
  | OpenFault
  | WriteFault (room : nat) (delay : nat)
  | Refused (delay : nat)
  | CreateFault.

#[global] Instance fs_fault_eq_dec : EqDecision fs_fault.
Proof. solve_decision. Defined.

(** The world of a run: the text files by path, the fault the file
    system holds in store, the database files that have a [results]
    table by path, and the events so far. *)
Record world := {
  files : gmap text text;
  fault : fs_fault;
  dbs : gmap text table;
  trace : list event
}.

Definition log (e : event) (w : world) : world :=
  {| files := files w; fault := fault w; dbs := dbs w;
     trace := trace w ++ [e] |}.

Definition set_files (f : gmap text text) (w : world) : world :=
  {| files := f; fault := fault w; dbs := dbs w; trace := trace w |}.

Definition set_fault (x : fs_fault) (w : world) : world :=
  {| files := files w; fault := x; dbs := dbs w; trace := trace w |}.

Definition set_dbs (d : gmap text table) (w : world) : world :=
  {| files := files w; fault := fault w; dbs := d; trace := trace w |}.

(** ** State and exceptions *)

Inductive result (A : Type) :=
  | Ok (a : A)
  | Raise (e : exn).
Arguments Ok {A} _.
Arguments Raise {A} _.

Definition M (A : Type) : Type := world -> result A * world.

Definition ret {A} (a : A) : M A := fun w => (Ok a, w).

Definition raise {A} (e : exn) : M A := fun w => (Raise e, w).

Definition bind {A B} (m : M A) (k : A -> M B) : M B :=
  fun w =>
    match m w with
    | (Ok a, w') => k a w'
    | (Raise e, w') => (Raise e, w')
    end.

Declare Scope worker_scope.
Delimit Scope worker_scope with worker.
Notation "x <- m ;; k" := (bind m (fun x => k))
  (at level 100, m at next level, right associativity) : worker_scope.
Notation "m ;; k" := (bind m (fun _ => k))
  (at level 100, right associativity) : worker_scope.
Local Open Scope worker_scope.

(** [try: body  except C1 as e: h1  except C2 as e: h2 ...] *)
Fixpoint dispatch {A} (clauses : list ((exn -> bool) * (exn -> M A)))
    (e : exn) : M A :=
  match clauses with
  | [] => raise e
  | (catches, handler) :: rest =>
      if catches e then handler e else dispatch rest e
  end.

Definition try_except {A} (body : M A)
    (clauses : list ((exn -> bool) * (exn -> M A))) : M A :=
  fun w =>
    match body w with
    | (Ok a, w') => (Ok a, w')
    | (Raise e, w') => dispatch clauses e w'
    end.

Fixpoint for_each {A S} (l : list A) (body : S -> A -> M S) (s : S) : M S :=
  match l with
  | [] => ret s
  | x :: l' => s' <- body s x ;; for_each l' body s'
  end.

Definition print (m : message) : M unit := fun w => (Ok tt, log (Print m) w).

(** ** SQLite and the file system *)

(** [sqlite3.connect(db_path)]: when nothing exists at the path, SQLite
    creates the database file, empty. ([dbs] holds the database files
    that have a [results] table, [files] every other file.) *)
Definition connect (db : text) (w : world) : world :=
  match dbs w !! db, files w !! db, fault w with
  | None, None, CreateFault => w
  | None, None, _ => set_files (<[db := []]> (files w)) w
  | _, _, _ => w
  end.

(** [sqlite3.connect(db_path)], [cursor.execute(q)], [cursor.fetchall()].
    A file without a [results] table and a missing column are both
    [sqlite3.OperationalError]s. *)
Definition sql_fetchall (db : text) (q : select) : M (list row) :=
  fun w =>
    let w' := log (Select db q) (connect db w) in
    match dbs w !! db with
    | None => (Raise (SqliteError (py "no such table: results")), w')
    | Some t =>
        match fetchall t q with
        | None => (Raise (SqliteError (py "no such column")), w')
        | Some rows => (Ok rows, w')
        end
    end.

(** [row_dict[k]] *)
Definition getitem (d : row) (k : text) : M sqlval :=
  match dict_get k d with
  | Some v => ret v
  | None => raise (KeyError k)
  end.

(** [output_path.parent.mkdir(parents=True, exist_ok=True)] *)
Definition mkdir_parents (path : text) : M unit :=
  fun w =>
    let w' := log (MkdirParents path) w in
    match fault w with
    | MkdirFault => (Raise (OSError (py "mkdir")), w')
    | _ => (Ok tt, w')
    end.

(** [open(path, "w")]: the file is created or truncated at once. *)
Definition open_write (path : text) : M unit :=
  fun w =>
    let w' := log (OpenWrite path) w in
    match fault w with
    | OpenFault => (Raise (OSError (py "open")), w')
    | _ => (Ok tt, set_files (<[path := []]> (files w')) w')
    end.

(** The file at [path] with [s] appended. *)
Definition append (path : text) (s : text) (w : world) : world :=
  set_files (<[path := default [] (files w !! path) ++ s]> (files w)) w.

(** [f.write(chunk)] on the buffered file object. What the device takes
    is put in the file at once: nothing reads the file before it is
    closed, when the buffer has been flushed. The characters written
    are ASCII, one byte each. *)
Definition write (path : text) (chunk : text) : M unit :=
  fun w =>
    let w' := log (Write path chunk) w in
    match fault w with
    | WriteFault room delay =>
        if (length chunk <=? room)%nat then
          (Ok tt,
           set_fault (WriteFault (room - length chunk) (pred delay))
                     (append path chunk w'))
        else
          match delay with
          | O => (Raise (OSError (py "write")),
                  set_fault (Refused 0) (append path (take room chunk) w'))
          | S d => (Ok tt,
                    set_fault (Refused d) (append path (take room chunk) w'))
          end
    | Refused O => (Raise (OSError (py "write")), w')
    | Refused (S d) => (Ok tt, set_fault (Refused d) w')
    | _ => (Ok tt, append path chunk w')
    end.

(** [f.close()]: the flush of what is still buffered; it fails when
    data has been refused. *)
Definition close (path : text) : M unit :=
  fun w =>
    let w' := log (CloseFile path) w in
    match fault w with
    | Refused _ => (Raise (OSError (py "write")), w')
    | _ => (Ok tt, w')
    end.

(** [with open(path, "w") as f: body]: the file is closed however the
    body ends, and an exception of the closing replaces the body's. *)
Definition with_open_write {A} (path : text) (body : M A) : M A :=
  open_write path ;;
  fun w =>
    let '(r, w1) := body w in
    match close path w1 with
    | (Ok _, w2) => (r, w2)
    | (Raise e, w2) => (Raise e, w2)
    end.

(** [json.dump(data, f, indent=4)]: [for chunk in iterable: fp.write(chunk)],
    where the generator may raise after the chunks it has yielded. *)
Definition json_dump (data : dataset) (path : text) : M unit :=
  let '(cs, raised) := iterencode data in
  for_each cs (fun _ chunk => write path chunk) tt ;;
  match raised with
  | Some e => raise e
  | None => ret tt
  end.

(** ** Extraction strategies *)

(** The two [except] clauses every [get_*] function ends with. *)
Definition reporting {A} (body : M A) : M A :=
  try_except body
    [ (is_sqlite_error, fun e => print (MsgSqliteError e) ;; raise e);
      (is_exception, fun e => print (MsgErrorQuerying e) ;; raise e) ].

(** The loop shared by the strategies keyed by a column:
    [row_dict = dict(row); key = row_dict[key_column]; d[key] = row_dict]. *)
Definition collect_by (key_column : text) (rows : list row) : M dataset :=
  for_each rows
    (fun d r =>
       let row_dict := dict_of_items r in
       key <- getitem row_dict key_column ;;
       ret (dict_set key row_dict d))
    [].

(** [SELECT SenderID FROM results LIMIT 10] *)
Definition messages_query : select :=
  {| sel_columns := Some [py "SenderID"]; sel_limit := Some 10%nat |}.

(** [SELECT FirstMessageDate, LastMessageDate, ParticipantCount FROM results] *)
Definition chats_query : select :=
  {| sel_columns :=
       Some [py "FirstMessageDate"; py "LastMessageDate"; py "ParticipantCount"];
     sel_limit := None |}.

(** [SELECT SubmissionID, UserID, SubmissionDate, SubmissionReference
    FROM results] *)
Definition submissions_query : select :=
  {| sel_columns :=
       Some [py "SubmissionID"; py "UserID"; py "SubmissionDate";
             py "SubmissionReference"];
     sel_limit := None |}.

(** [SELECT * FROM results] *)
Definition users_query : select :=
  {| sel_columns := None; sel_limit := None |}.

(** One turn of the loop of [get_chat_messages]:
    [messages[str(index_counter)] = row_dict; index_counter += 1]. *)
Definition number_row (state : dataset * Z) (r : row) : M (dataset * Z) :=
  let '(messages, index_counter) := state in
  let row_dict := dict_of_items r in
  ret (dict_set (VText (str_int index_counter)) row_dict messages,
       (index_counter + 1)%Z).

Definition get_chat_messages (db : text) : M dataset :=
  reporting (
    rows <- sql_fetchall db messages_query ;;
    state <- for_each rows number_row ([], 0%Z) ;;
    ret (fst state)).

Definition get_submission_chats (db : text) : M dataset :=
  reporting (
    rows <- sql_fetchall db chats_query ;;
    collect_by (py "SubmissionChatID") rows).

Definition get_submissions (db : text) : M dataset :=
  reporting (
    rows <- sql_fetchall db submissions_query ;;
    collect_by (py "SubmissionID") rows).

Definition get_users (db : text) : M dataset :=
  reporting (
    rows <- sql_fetchall db users_query ;;
    collect_by (py "UserID") rows).

(** ** The artifact writer *)

Definition save_stats_to_json (data : dataset) (output_path : text) : M unit :=
  try_except
    (mkdir_parents output_path ;;
     with_open_write output_path (json_dump data output_path) ;;
     print (MsgSaved output_path))
    [ (is_exception, fun e => print (MsgErrorSaving e) ;; raise e) ].

(** The active [process_results]: the chat strategy. *)
Definition process_results (params : ContainerParams) : M unit :=
  chats <- get_submission_chats (db_path params) ;;
  match chats with
  | _ :: _ =>
      print (MsgFound (length chats)) ;;
      save_stats_to_json chats (stats_path params)
  | [] =>
      print MsgNoneFound ;;
      save_stats_to_json [] (stats_path params)
  end.

(** ** Parameters *)

Definition present (field : option text) : bool :=
  match field with
  | Some (_ :: _) => true
  | _ => false
  end.

Definition given {A} (field : option A) : bool :=
  match field with
  | Some _ => true
  | None => false
  end.

(** Modelled from the spec: [ContainerParams.validate_production_mode]
    lives in [container_params.py], which is not among the sources. The
    spec has it accept a configuration when all query fields are
    present (and, for the texts, non-empty). *)
Definition validate_production_mode (params : ContainerParams) : bool :=
  present (query params) && present (query_signature params)
  && given (compute_job_id params) && given (data_refiner_id params).

(** Modelled from the spec: [ContainerParams.from_env] lives in
    [container_params.py], which is not among the sources. The spec has
    the parameter source validate itself and fail fast: in production
    mode all query fields must be present and non-empty, otherwise the
    configuration is invalid before any I/O is attempted. [raw] stands
    for the externally supplied values. *)
Definition from_env (raw : ContainerParams) : M ContainerParams :=
  if dev_mode raw then ret raw
  else if validate_production_mode raw then ret raw
  else raise (ContainerParamError (py "missing query parameters")).

(** ** Query execution and the driver *)

(** [f"{x}"] of an [Optional[str]] *)
Definition format_optional (o : option text) : text :=
  match o with
  | Some s => s
  | None => py "None"
  end.

(** The arguments of [QueryEngineClient(...)] and of its
    [execute_query(...)] for [params]. *)
Definition request_of (params : ContainerParams) : engine_request :=
  {| req_query := query params;
     req_query_signature := query_signature params;
     req_db_path := db_path params;
     req_compute_job_id := compute_job_id params;
     req_data_refiner_id := data_refiner_id params;
     req_query_params := query_params params |}.

Section Worker.
Context {payload : Type}.
(** [bool(data)] and [json.dumps(data, indent=2)] of a response payload. *)
Variable payload_truthy : payload -> bool.
Variable payload_dumps : payload -> text.
(** The query engine: answers one request and leaves the query's rows
    in the local databases. *)
Variable engine :
  engine_request -> gmap text table -> QueryResult payload * gmap text table.

Definition engine_execute (req : engine_request) : M (QueryResult payload) :=
  fun w =>
    let '(outcome, dbs') := engine req (dbs w) in
    (Ok outcome, set_dbs dbs' (log (EngineCall req) w)).

Definition error_message (query_result : QueryResult payload) : text :=
  let error_msg :=
    py "Error executing query: " ++ format_optional (error query_result) in
  let error_msg :=
    match status_code query_result with
    | Some c =>
        if (c =? 0)%Z then error_msg
        else error_msg ++ py " (Status code: " ++ str_int c ++ py ")"
    | None => error_msg
    end in
  match data query_result with
  | Some d =>
      if payload_truthy d
      then error_msg ++ 10 :: py "Response data: " ++ payload_dumps d
      else error_msg
  | None => error_msg
  end.

Definition execute_query (params : ContainerParams) : M bool :=
  if negb (validate_production_mode params) then ret false
  else
    print (MsgExecuting (query params)) ;;
    query_result <- engine_execute (request_of params) ;;
    if negb (success query_result) then
      print (MsgQueryError (error_message query_result)) ;;
      ret false
    else
      print (MsgQueryDone (db_path params)) ;;
      ret true.

Definition main (raw : ContainerParams) : M unit :=
  try_except
    (params <- try_except
                 (params <- from_env raw ;;
                  print (MsgParams params) ;;
                  ret params)
                 [ (is_param_error,
                    fun e => print (MsgParamError e) ;; raise (SystemExit 1)) ] ;;
     (if dev_mode params then
        print MsgDevMode ;;
        print (MsgProcessing (db_path params))
      else
        ok <- execute_query params ;;
        if negb ok then raise (SystemExit 2) else ret tt) ;;
     process_results params)
    [ (is_exception,
       fun e => print (MsgWorkerError e) ;; raise (SystemExit 3)) ].

(** The status the process ends with. *)
Definition exit_code (r : result unit) : Z :=
  match r with
  | Ok _ => 0
  | Raise (SystemExit code) => code
  | Raise _ => 1
  end.

Definition run (raw : ContainerParams) (w : world) : Z * world :=
  let '(r, w') := main raw w in (exit_code r, w').
End Worker.

(** ** Reading the artifact back: [json.loads] *)

(** What [json.loads] builds: [None], [bool], [int], [str], [list] and
    [dict] with text keys. Number literals with a fraction or an exponent
    (floats) are outside the model and are refused. *)
#[local] Unset Elimination Schemes.
Inductive json :=
  | JNull
  | JBool (b : bool)
  | JInt (z : Z)
  | JStr (s : text)
  | JArr (items : list json)
  | JObj (members : list (text * json)).
#[local] Set Elimination Schemes.

Definition is_ws (c : N) : bool :=
  (c =? 32) || (c =? 9) || (c =? 10) || (c =? 13).

Fixpoint skip_ws (s : text) : text :=
  match s with
  | c :: s' => if is_ws c then skip_ws s' else s
  | [] => []
  end.

Definition unhex (c : N) : option N :=
  if (48 <=? c) && (c <=? 57) then Some (c - 48)
  else if (97 <=? c) && (c <=? 102) then Some (c - 87)
  else if (65 <=? c) && (c <=? 70) then Some (c - 55)
  else None.

(** [int(esc, 16)] of the four characters after a backslash-u. *)
Definition unhex4 (a b c d : N) : option N :=
  match unhex a, unhex b, unhex c, unhex d with
  | Some x, Some y, Some z, Some t =>
      Some (N.lor (N.shiftl x 12) (N.lor (N.shiftl y 8) (N.lor (N.shiftl z 4) t)))
  | _, _, _, _ => None
  end.

Definition push (c : N) (r : option (text * text)) : option (text * text) :=
  match r with
  | Some (t, rest) => Some (c :: t, rest)
  | None => None
  end.

(** The backslash escapes of one character. *)
Definition unescape (e : N) : option N :=
  if e =? 34 then Some 34
  else if e =? 92 then Some 92
  else if e =? 47 then Some 47
  else if e =? 98 then Some 8
  else if e =? 102 then Some 12
  else if e =? 110 then Some 10
  else if e =? 114 then Some 13
  else if e =? 116 then Some 9
  else None.

(** [scanstring] (strict): the text up to the closing quote, decoded, and
    what follows it. The input starts after the opening quote. *)
Fixpoint scanstring (s : text) : option (text * text) :=
  match s with
  | [] => None
  | c :: s1 =>
      if c =? 34 then Some ([], s1)
      else if c <? 32 then None
      else if negb (c =? 92) then push c (scanstring s1)
      else
        match s1 with
        | [] => None
        | e :: s2 =>
            if negb (e =? 117) then
              match unescape e with
              | Some x => push x (scanstring s2)
              | None => None
              end
            else
              match s2 with
              | h1 :: h2 :: h3 :: h4 :: s3 =>
                  match unhex4 h1 h2 h3 h4 with
                  | None => None
                  | Some uni =>
                      match s3 with
                      | b :: u :: s4 =>
                          if (0xd800 <=? uni) && (uni <=? 0xdbff)
                             && (b =? 92) && (u =? 117) then
                            match s4 with
                            | l1 :: l2 :: l3 :: l4 :: s5 =>
                                match unhex4 l1 l2 l3 l4 with
                                | None => None
                                | Some uni2 =>
                                    if (0xdc00 <=? uni2) && (uni2 <=? 0xdfff) then
                                      push (0x10000 +
                                              N.lor (N.shiftl (uni - 0xd800) 10)
                                                    (uni2 - 0xdc00))
                                           (scanstring s5)
                                    else push uni (scanstring s3)
                                end
                            | _ => None
                            end
                          else push uni (scanstring s3)
                      | _ => push uni (scanstring s3)
                      end
                  end
              | _ => None
              end
        end
  end.

Definition digit (c : N) : option (Decimal.uint -> Decimal.uint) :=
  if c =? 48 then Some D0
  else if c =? 49 then Some D1
  else if c =? 50 then Some D2
  else if c =? 51 then Some D3
  else if c =? 52 then Some D4
  else if c =? 53 then Some D5
  else if c =? 54 then Some D6
  else if c =? 55 then Some D7
  else if c =? 56 then Some D8
  else if c =? 57 then Some D9
  else None.

(** The longest run of digits at the head of the input. *)
Fixpoint scan_digits (s : text) : Decimal.uint * text :=
  match s with
  | c :: s' =>
      match digit c with
      | Some d => let '(ds, rest) := scan_digits s' in (d ds, rest)
      | None => (Nil, s)
      end
  | [] => (Nil, [])
  end.

(** The integer part of [NUMBER_RE]: a lone [0], or a run of digits that
    does not start with [0]. *)
Definition scan_integer (s : text) : option (Decimal.uint * text) :=
  match s with
  | c :: s' =>
      if c =? 48 then Some (D0 Nil, s')
      else
        match scan_digits s with
        | (Nil, _) => None
        | (ds, rest) => Some (ds, rest)
        end
  | [] => None
  end.

(** A fraction or an exponent follows: the literal is a float. *)
Definition float_follows (s : text) : bool :=
  match s with
  | c :: _ => (c =? 46) || (c =? 101) || (c =? 69)
  | [] => false
  end.

Definition scan_number (s : text) : option (json * text) :=
  match s with
  | c :: s' =>
      if c =? 45 then
        match scan_integer s' with
        | Some (ds, rest) =>
            if float_follows rest then None
            else Some (JInt (Z.of_int (Neg ds)), rest)
        | None => None
        end
      else
        match scan_integer s with
        | Some (ds, rest) =>
            if float_follows rest then None
            else Some (JInt (Z.of_int (Pos ds)), rest)
        | None => None
        end
  | [] => None
  end.

(** [expect lit s]: the input after the literal [lit]. *)
Fixpoint expect (lit s : text) : option text :=
  match lit, s with
  | [], _ => Some s
  | a :: lit', b :: s' => if a =? b then expect lit' s' else None
  | _ :: _, [] => None
  end.

(** The scanner: one value at the head of the input and the rest. The
    members and elements loops start after the opening bracket and the
    whitespace behind it. [fuel] bounds the nesting and the number of
    members met on the way. *)
Fixpoint scan_once (fuel : nat) (s : text) : option (json * text) :=
  match fuel with
  | O => None
  | S fuel' =>
      match s with
      | [] => None
      | c :: s' =>
          if c =? 34 then
            match scanstring s' with
            | Some (t, rest) => Some (JStr t, rest)
            | None => None
            end
          else if c =? 123 then
            match skip_ws s' with
            | [] => None
            | c1 :: s1 =>
                if c1 =? 125 then Some (JObj [], s1)
                else
                  match scan_members fuel' (c1 :: s1) with
                  | Some (pairs, rest) => Some (JObj (dict_of_items pairs), rest)
                  | None => None
                  end
            end
          else if c =? 91 then
            match skip_ws s' with
            | [] => None
            | c1 :: s1 =>
                if c1 =? 93 then Some (JArr [], s1)
                else
                  match scan_elements fuel' (c1 :: s1) with
                  | Some (values, rest) => Some (JArr values, rest)
                  | None => None
                  end
            end
          else if c =? 110 then
            match expect (py "ull") s' with
            | Some rest => Some (JNull, rest)
            | None => None
            end
          else if c =? 116 then
            match expect (py "rue") s' with
            | Some rest => Some (JBool true, rest)
            | None => None
            end
          else if c =? 102 then
            match expect (py "alse") s' with
            | Some rest => Some (JBool false, rest)
            | None => None
            end
          else scan_number s
      end
  end
with scan_members (fuel : nat) (s : text) : option (list (text * json) * text) :=
  match fuel with
  | O => None
  | S fuel' =>
      match s with
      | [] => None
      | q :: s' =>
          if negb (q =? 34) then None
          else
            match scanstring s' with
            | None => None
            | Some (key, s1) =>
                match skip_ws s1 with
                | [] => None
                | colon :: s2 =>
                    if negb (colon =? 58) then None
                    else
                      match scan_once fuel' (skip_ws s2) with
                      | None => None
                      | Some (value, s3) =>
                          match skip_ws s3 with
                          | [] => None
                          | c :: s4 =>
                              if c =? 125 then Some ([(key, value)], s4)
                              else if c =? 44 then
                                match scan_members fuel' (skip_ws s4) with
                                | Some (pairs, rest) =>
                                    Some ((key, value) :: pairs, rest)
                                | None => None
                                end
                              else None
                          end
                      end
                end
            end
      end
  end
with scan_elements (fuel : nat) (s : text) : option (list json * text) :=
  match fuel with
  | O => None
  | S fuel' =>
      match scan_once fuel' s with
      | None => None
      | Some (value, s1) =>
          match skip_ws s1 with
          | [] => None
          | c :: s2 =>
              if c =? 93 then Some ([value], s2)
              else if c =? 44 then
                match scan_elements fuel' (skip_ws s2) with
                | Some (values, rest) => Some (value :: values, rest)
                | None => None
                end
              else None
          end
      end
  end.

(** [json.loads(s)]: leading whitespace, one value, trailing whitespace,
    and nothing else. *)
Definition loads (s : text) : option json :=
  match scan_once (S (length s)) (skip_ws s) with
  | Some (value, rest) =>
      match skip_ws rest with
      | [] => Some value
      | _ :: _ => None
      end
  | None => None
  end.

(** The dataset as it reads back: keys in their JSON text form. *)
Definition json_of_sqlval (v : sqlval) : json :=
  match v with
  | VNull => JNull
  | VInt z => JInt z
  | VText s => JStr s
  | VBlob _ => JNull
  end.

Definition json_of_row (r : row) : json :=
  JObj (map (fun cv => (fst cv, json_of_sqlval (snd cv))) r).

Definition json_of_dataset (data : dataset) : json :=
  JObj (map (fun kr => (default [] (key_text (fst kr)), json_of_row (snd kr)))
            data).

(** ** Vocabulary of the statements *)

(** The strategies keyed by a column of the rows. *)
Inductive keyed_strategy := ByUser | BySubmission | ByChat.

Definition key_column (s : keyed_strategy) : text :=
  match s with
  | ByUser => py "UserID"
  | BySubmission => py "SubmissionID"
  | ByChat => py "SubmissionChatID"
  end.

Definition strategy_query (s : keyed_strategy) : select :=
  match s with
  | ByUser => users_query
  | BySubmission => submissions_query
  | ByChat => chats_query
  end.

Definition extract (s : keyed_strategy) : text -> M dataset :=
  match s with
  | ByUser => get_users
  | BySubmission => get_submissions
  | ByChat => get_submission_chats
  end.

(** The dictionary of the last row, in return order, whose key column
    holds [k]. *)
Fixpoint last_with_key (key_column : text) (k : sqlval) (rows : list row)
  : option row :=
  match rows with
  | [] => None
  | r :: rows' =>
      match last_with_key key_column k rows' with
      | Some found => Some found
      | None =>
          if decide (dict_get key_column (dict_of_items r) = Some k)
          then Some (dict_of_items r)
          else None
      end
  end.

(** Rows keyed by their position, counted from [start]. *)
Fixpoint numbered (start : Z) (rows : list row) : dataset :=
  match rows with
  | [] => []
  | r :: rows' =>
      (VText (str_int start), dict_of_items r) :: numbered (start + 1) rows'
  end.

Definition is_engine_call (e : event) : bool :=
  match e with EngineCall _ => true | _ => false end.

Definition is_select (e : event) : bool :=
  match e with Select _ _ => true | _ => false end.

(** Events that touch the artifact or its directory. *)
Definition is_file_event (e : event) : bool :=
  match e with
  | MkdirParents _ | OpenWrite _ | Write _ _ | CloseFile _ => true
  | _ => false
  end.

(** The last [except] of [main], around the stages it guards. *)
Definition top_level (m : M unit) : M unit :=
  try_except m
    [ (is_exception,
       fun e => print (MsgWorkerError e) ;; raise (SystemExit 3)) ].

(** ** Sample inputs *)

Definition sample_production : ContainerParams :=
  {| dev_mode := false;
     db_path := py "/mnt/input/query_results.db";
     stats_path := py "/mnt/output/stats.json";
     query := Some (py "SELECT * FROM chats");
     query_signature := Some (py "0x5167");
     compute_job_id := Some 7%Z;
     data_refiner_id := Some 12%Z;
     query_params := [] |}.

Definition sample_missing_query : ContainerParams :=
  {| dev_mode := false;
     db_path := py "/mnt/input/query_results.db";
     stats_path := py "/mnt/output/stats.json";
     query := None;
     query_signature := Some (py "0x5167");
     compute_job_id := Some 7%Z;
     data_refiner_id := Some 12%Z;
     query_params := [] |}.

Definition sample_development : ContainerParams :=
  {| dev_mode := true;
     db_path := py "/mnt/input/query_results.db";
     stats_path := py "/mnt/output/stats.json";
     query := None;
     query_signature := None;
     compute_job_id := None;
     data_refiner_id := None;
     query_params := [] |}.

(** An engine that answers every request with a timeout and the given
    status code, and writes nothing. *)
Definition timeout_engine (code : option Z) (req : engine_request)
    (d : gmap text table) : QueryResult unit * gmap text table :=
  ({| success := false; error := Some (py "timeout");
      status_code := code; data := None |}, d).

(** A [results] table with the columns of the chat query and the chat
    identifier. *)
Definition chats_table (rs : list (list sqlval)) : table :=
  {| columns := [py "FirstMessageDate"; py "LastMessageDate";
                 py "ParticipantCount"; py "SubmissionChatID"];
     records := rs |}.

Definition submissions_table (rs : list (list sqlval)) : table :=
  {| columns := [py "SubmissionID"; py "UserID"; py "SubmissionDate";
                 py "SubmissionReference"];
     records := rs |}.

Definition messages_table (rs : list (list sqlval)) : table :=
  {| columns := [py "SenderID"]; records := rs |}.

(** A world whose database file holds [t], with the artifact path
    holding [old], and the given file-system fault. *)
Definition sample_world (t : table) (old : option text) (f : fs_fault) : world :=
  {| files := match old with
              | Some content => {[ py "/mnt/output/stats.json" := content ]}
              | None => ∅
              end;
     fault := f;
     dbs := {[ py "/mnt/input/query_results.db" := t ]};
     trace := [] |}.

(** ** Vocabulary of the round trip *)

(** The text a complete [json.dump(data, f, indent=4)] leaves in the file. *)
Definition dumps (data : dataset) : text := concat (fst (iterencode data)).

(** Values [json.dump] accepts: no [bytes], and text as SQLite decodes it. *)
Definition jsonable_value (v : sqlval) : bool :=
  match v with
  | VBlob _ => false
  | VText s => well_formed_text s
  | VNull | VInt _ => true
  end.

Definition jsonable_row (r : row) : bool :=
  forallb (fun cv => well_formed_text (fst cv) && jsonable_value (snd cv)) r.

Definition jsonable (data : dataset) : bool :=
  forallb (fun kr => jsonable_value (fst kr) && jsonable_row (snd kr)) data.

(** The member name a key is written under. *)
Definition key_name (k : sqlval) : text := default [] (key_text k).

(** What may follow an integer literal: nothing, or a character that is
    neither a digit nor the start of a fraction or an exponent. *)
Definition ends_number (rest : text) : Prop :=
  match rest with
  | [] => True
  | c :: _ => digit c = None /\ float_follows rest = false
  end.

(** ** Vocabulary of the effects *)

(** [steady R m]: every run of [m] takes a world to one [R]-related to it. *)
Definition steady (R : world -> world -> Prop) {A} (m : M A) : Prop :=
  forall w, R w (snd (m w)).

(** Relations that printing and querying the database preserve. *)
Class Observing (R : world -> world -> Prop) := {
  observing_print : forall m w, R w (log (Print m) w);
  observing_select : forall db q w, R w (log (Select db q) w)
}.

(** The trace only grows, without engine calls, and the databases stay. *)
Definition engine_idle (w w' : world) : Prop :=
  exists more,
    trace w' = trace w ++ more
    /\ forallb (fun e => negb (is_engine_call e)) more = true
    /\ dbs w' = dbs w.

(** What the device takes of the text [s] under the fault [f]. *)
Definition accepted (f : fs_fault) (s : text) : text :=
  match f with
  | WriteFault room _ => take room s
  | Refused _ => []
  | _ => s
  end.

(** How the encoder ends on [data]. *)
Definition encoded (data : dataset) : result unit :=
  match snd (iterencode data) with
  | Some e => Raise e
  | None => Ok tt
  end.

Section ReadBack.
Context {K V : Type}.
Variable key_of : K -> option text.
Variable encode_value : nat -> V -> chunks.
Variable to_json : V -> json.

(** The value encodes without an exception and its text scans back. *)
Definition reads_back (level : nat) (v : V) : Prop :=
  snd (encode_value level v) = None
  /\ forall rest fuel,
       ends_number rest ->
       (length (concat (fst (encode_value level v))) <= fuel)%nat ->
       scan_once fuel (concat (fst (encode_value level v)) ++ rest)
       = Some (to_json v, rest).

Definition good_item (level : nat) (kv : K * V) : Prop :=
  (exists kt, key_of (fst kv) = Some kt /\ well_formed_text kt = true)
  /\ reads_back level (snd kv).

Definition member_of (kv : K * V) : text * json :=
  (default [] (key_of (fst kv)), to_json (snd kv)).
End ReadBack.

(** No two keys are written under the same member name, and every row
    is a dictionary (its column names are distinct). *)
Definition distinct_keys (data : dataset) : Prop :=
  NoDup (map (fun kr => key_name (fst kr)) data)
  /\ Forall (fun kr => NoDup (map fst (snd kr))) data.

(** ** More sample inputs *)

Definition unit_truthy (d : unit) : bool := false.
Definition unit_dumps (d : unit) : text := py "null".

(** An engine that reports success and leaves the databases alone. *)
Definition idle_engine (req : engine_request) (d : gmap text table)
  : QueryResult unit * gmap text table :=
  ({| success := true; error := None; status_code := Some 200%Z;
      data := None |}, d).

Definition one_chat : list (list sqlval) :=
  [ [VText (py "2024-05-01T10:00:00"); VText (py "2024-05-02T18:30:00");
     VInt 3; VText (py "chat-1")] ].

(** Two chats stored under one chat identifier. *)
Definition two_chats_one_id : list (list sqlval) :=
  [ [VText (py "2024-05-01T10:00:00"); VText (py "2024-05-02T18:30:00");
     VInt 3; VText (py "chat-1")];
    [VText (py "2024-06-11T08:15:00"); VText (py "2024-06-11T09:00:00");
     VInt 2; VText (py "chat-1")] ].

Definition two_submissions_one_id : list (list sqlval) :=
  [ [VInt 41; VInt 7; VText (py "2024-05-01"); VText (py "ref-a")];
    [VInt 41; VInt 8; VText (py "2024-05-03"); VText (py "ref-b")] ].

Definition two_senders : list (list sqlval) :=
  [ [VInt 1001]; [VText (py "u-17")] ].

(** A dataset with a [bytes] cell, as a BLOB column yields it. *)
Definition dataset_with_blob : dataset :=
  [ (VText (py "chat-1"),
     [ (py "ParticipantCount", VInt 3); (py "Avatar", VBlob [137; 80; 78; 71]) ]) ].

(** A dataset of integers, text beyond ASCII and a null. *)
Definition dataset_plain : dataset :=
  [ (VInt 41,
     [ (py "UserID", VInt (-7)); (py "Note", VText [233; 34; 128512; 10]);
       (py "Ref", VNull) ]);
    (VText (py "chat-1"), [ (py "ParticipantCount", VInt 3) ]) ].


(** ** The full-row dump *)

(** [get_data]: [SELECT * FROM results], every row as its dictionary, in
    return order. *)
Definition get_data (db : text) : M (list row) :=
  reporting (
    rows <- sql_fetchall db users_query ;;
    ret (map dict_of_items rows)).

(** ** More vocabulary *)


Definition is_blob (v : sqlval) : bool :=
  match v with VBlob _ => true | _ => false end.

(** Some key or some cell of the dataset is a [bytes] value. *)
Definition holds_bytes (data : dataset) : bool :=
  existsb (fun kr => is_blob (fst kr) || existsb (fun cv => is_blob (snd cv)) (snd kr))
          data.

(** A newline or a printable ASCII character. *)
Definition ascii_char (c : N) : bool :=
  (c =? 10) || ((32 <=? c) && (c <=? 126)).

(** Every file but the one at [path] is as it was, except that the
    database file at [db] may have been created, empty. *)
Definition files_elsewhere_kept (db path : text) (w w' : world) : Prop :=
  forall p, p <> path ->
    files w' !! p = files w !! p
    \/ (p = db /\ files w !! p = None /\ files w' !! p = Some []).

(** [m] raises nothing but [Exception]s: never a [SystemExit]. *)
Definition raises_exceptions {A} (m : M A) : Prop :=
  forall w e w', m w = (Raise e, w') -> is_exception e = true.


Definition ascii_text (s : text) : bool := forallb ascii_char s.

(** ** More sample inputs *)



(** The submission columns, declared in lower case. *)
Definition lowercase_submissions_table (rs : list (list sqlval)) : table :=
  {| columns := [py "submissionid"; py "userid"; py "submissiondate";
                 py "submissionreference"];
     records := rs |}.

(** A world without the database file. *)
Definition no_database : world :=
  {| files := {[ py "/mnt/output/stats.json" := py "previous" ]};
     fault := NoFault;
     dbs := ∅;
     trace := [] |}.

(** Two keys, an integer and a text, that are written under the same
    member name. *)
Definition dataset_colliding : dataset :=
  [ (VInt 1, [ (py "Source", VText (py "a")) ]);
    (VText (py "1"), [ (py "Source", VText (py "b")) ]) ].

(** * Properties *)

(** ** Dictionaries *)

Section DictFacts.
Context {K V : Type} `{EqDecision K}.
Implicit Types (k : K) (v : V) (d : list (K * V)).

Lemma dict_get_set_eq k v d : dict_get k (dict_set k v d) = Some v.
Proof.
  induction d as [|[k' v'] d IH]; simpl.
  - destruct (decide (k = k)); congruence.
  - destruct (decide (k = k')) as [->|Hne]; simpl.
    + destruct (decide (k' = k')); congruence.
    + destruct (decide (k = k')); [contradiction | exact IH].
Qed.

Lemma dict_get_set_ne k k' v d :
  k <> k' -> dict_get k' (dict_set k v d) = dict_get k' d.
Proof.
  intros Hne. induction d as [|[k0 v0] d IH]; simpl.
  - destruct (decide (k' = k)); congruence.
  - destruct (decide (k = k0)) as [->|Hk]; simpl.
    + destruct (decide (k' = k0)); congruence.
    + destruct (decide (k' = k0)); [reflexivity | exact IH].
Qed.

Lemma dict_get_None k d : dict_get k d = None <-> ~ In k (map fst d).
Proof.
  induction d as [|[k' v'] d IH]; simpl.
  - tauto.
  - destruct (decide (k = k')) as [->|Hne].
    + split; [discriminate | intros Hn; exfalso; apply Hn; now left].
    + rewrite IH. split.
      * intros Hn [Heq|Hin]; [congruence | tauto].
      * intros Hn Hin. apply Hn. now right.
Qed.

Lemma dict_set_fresh k v d :
  dict_get k d = None -> dict_set k v d = d ++ [(k, v)].
Proof.
  induction d as [|[k' v'] d IH]; simpl; [reflexivity|].
  destruct (decide (k = k')); [discriminate|].
  intros Hd. now rewrite IH.
Qed.

Lemma dict_set_keys k v d :
  forall k', In k' (map fst (dict_set k v d)) <-> k' = k \/ In k' (map fst d).
Proof.
  intros k'. induction d as [|[k0 v0] d IH]; simpl.
  - intuition.
  - destruct (decide (k = k0)) as [->|Hne]; simpl; intuition.
Qed.

Lemma fold_dict_set_app items d :
  NoDup (map fst d ++ map fst items) ->
  fold_left (fun d kv => dict_set (fst kv) (snd kv) d) items d = d ++ items.
Proof.
  revert d. induction items as [|[k v] items IH]; intros d Hnd; simpl.
  - now rewrite app_nil_r.
  - assert (Hfresh : dict_get k d = None).
    { apply dict_get_None. intros Hin.
      apply NoDup_app in Hnd as (_ & Hdis & _).
      apply (Hdis k); [apply list_elem_of_In; exact Hin | simpl; left]. }
    rewrite (dict_set_fresh _ _ _ Hfresh), IH.
    + now rewrite <- app_assoc.
    + rewrite map_app, <- app_assoc. exact Hnd.
Qed.

(** [dict(items)] of items with distinct keys is the list itself. *)
Lemma dict_of_items_NoDup (items : list (K * V)) :
  NoDup (map fst items) -> dict_of_items items = items.
Proof.
  intros Hnd. unfold dict_of_items.
  now rewrite (fold_dict_set_app items []).
Qed.

Lemma fold_dict_set_keys items d k :
  In k (map fst (fold_left (fun d kv => dict_set (fst kv) (snd kv) d) items d))
  <-> In k (map fst d) \/ In k (map fst items).
Proof.
  revert d. induction items as [|[k0 v0] items IH]; intros d; simpl.
  - tauto.
  - rewrite IH, dict_set_keys. intuition congruence.
Qed.

Lemma dict_of_items_keys (items : list (K * V)) k :
  In k (map fst (dict_of_items items)) <-> In k (map fst items).
Proof.
  unfold dict_of_items. rewrite fold_dict_set_keys. simpl. tauto.
Qed.

Lemma dict_get_is_Some k d : is_Some (dict_get k d) <-> In k (map fst d).
Proof.
  destruct (dict_get k d) eqn:E.
  - split; [|eauto]. intros _.
    destruct (in_dec (fun a b => decide (a = b)) k (map fst d)) as [Hin|Hn];
      [exact Hin|]. apply dict_get_None in Hn. congruence.
  - split; [intros [? ?]; discriminate|].
    intros Hin. apply dict_get_None in E. contradiction.
Qed.
End DictFacts.


(** ** [str(int)] is injective *)

Lemma uint_digits_head_digit d c rest :
  uint_digits d = c :: rest -> 48 <= c <= 57.
Proof. destruct d; simpl; intros [= <- _]; lia. Qed.

Lemma uint_digits_inj d d' : uint_digits d = uint_digits d' -> d = d'.
Proof.
  revert d'. induction d; intros d'; destruct d'; simpl; intros E;
    try discriminate; try reflexivity; injection E as E; f_equal; auto.
Qed.

Lemma str_int_inj z z' : str_int z = str_int z' -> z = z'.
Proof.
  unfold str_int. intros E. apply DecimalZ.to_int_inj.
  destruct (Z.to_int z) as [d|d], (Z.to_int z') as [d'|d'].
  - f_equal. now apply uint_digits_inj.
  - apply uint_digits_head_digit in E. lia.
  - symmetry in E. apply uint_digits_head_digit in E. lia.
  - injection E as E. f_equal. now apply uint_digits_inj.
Qed.

(** ** Running the monad *)

Lemma bind_ok {A B} (m : M A) (k : A -> M B) w a w' :
  m w = (Ok a, w') -> bind m k w = k a w'.
Proof. unfold bind. now intros ->. Qed.

Lemma bind_raise {A B} (m : M A) (k : A -> M B) w e w' :
  m w = (Raise e, w') -> bind m k w = (Raise e, w').
Proof. unfold bind. now intros ->. Qed.

Lemma reporting_ok {A} (body : M A) w a w' :
  body w = (Ok a, w') -> reporting body w = (Ok a, w').
Proof. unfold reporting, try_except. now intros ->. Qed.

Lemma reporting_sqlite {A} (body : M A) w msg w' :
  body w = (Raise (SqliteError msg), w') ->
  reporting body w
  = (Raise (SqliteError msg), log (Print (MsgSqliteError (SqliteError msg))) w').
Proof. unfold reporting, try_except. now intros ->. Qed.

Lemma reporting_key_error {A} (body : M A) w key w' :
  body w = (Raise (KeyError key), w') ->
  reporting body w
  = (Raise (KeyError key), log (Print (MsgErrorQuerying (KeyError key))) w').
Proof. unfold reporting, try_except. now intros ->. Qed.

Lemma connect_known db w t : dbs w !! db = Some t -> connect db w = w.
Proof. unfold connect. now intros ->. Qed.

Lemma sql_fetchall_rows db q w t rows :
  dbs w !! db = Some t -> fetchall t q = Some rows ->
  sql_fetchall db q w = (Ok rows, log (Select db q) w).
Proof.
  intros Hdb Hf. unfold sql_fetchall.
  now rewrite (connect_known db w t Hdb), Hdb, Hf.
Qed.

Lemma fetchall_row_columns t q rows r :
  fetchall t q = Some rows -> In r rows ->
  map fst r = map (result_name t q) (selected t q).
Proof.
  unfold fetchall. destruct (forallb _ _); [|discriminate].
  intros [= <-] Hin. apply in_map_iff in Hin as (rec & <- & _).
  now rewrite map_map.
Qed.

Lemma fetchall_known t q rows :
  fetchall t q = Some rows -> forallb (knows_column t) (selected t q) = true.
Proof. unfold fetchall. now destruct (forallb _ _). Qed.

Lemma column_index_same_name c cols i :
  column_index c cols = Some i -> same_name c (nth i cols c) = true.
Proof.
  revert i. induction cols as [|c' cols IH]; intros i; simpl; [discriminate|].
  destruct (same_name c c') eqn:E; [now intros [= <-]|].
  destruct (column_index c cols) as [j|]; [|discriminate].
  intros [= <-]. now apply IH.
Qed.

(** A column answers to a name only if it is that name up to case. *)
Lemma declared_name_same_name t c :
  knows_column t c = true -> same_name c (declared_name t c) = true.
Proof.
  unfold knows_column, declared_name.
  destruct (column_index c (columns t)) as [i|] eqn:E; [|discriminate].
  intros _. now apply column_index_same_name.
Qed.

Lemma fetchall_length_limit t q rows n :
  fetchall t q = Some rows -> sel_limit q = Some n -> (length rows <= n)%nat.
Proof.
  unfold fetchall, limited. destruct (forallb _ _); [|discriminate].
  intros [= <-] ->. rewrite length_map. apply firstn_le_length.
Qed.

(** ** The chat strategy cannot key its rows *)

Lemma chat_row_has_no_key t rows r :
  fetchall t chats_query = Some rows -> In r rows ->
  dict_get (py "SubmissionChatID") (dict_of_items r) = None.
Proof.
  intros Hf Hin. apply dict_get_None. rewrite dict_of_items_keys.
  rewrite (fetchall_row_columns _ _ _ _ Hf Hin).
  apply fetchall_known in Hf. cbn [selected sel_columns chats_query] in Hf.
  cbn [forallb] in Hf.
  apply andb_prop in Hf as [H1 Hf]. apply andb_prop in Hf as [H2 Hf].
  apply andb_prop in Hf as [H3 _].
  apply declared_name_same_name in H1, H2, H3.
  cbn [selected sel_columns chats_query map result_name].
  intros [E|[E|[E|[]]]]; rewrite E in *; vm_compute in H1, H2, H3;
    discriminate.
Qed.

Lemma collect_by_missing_key key r rows w :
  dict_get key (dict_of_items r) = None ->
  collect_by key (r :: rows) w = (Raise (KeyError key), w).
Proof.
  intros Hk. unfold collect_by. simpl. unfold bind at 1.
  unfold bind, getitem. rewrite Hk. reflexivity.
Qed.

Lemma get_submission_chats_rows db w t r rows :
  dbs w !! db = Some t -> fetchall t chats_query = Some (r :: rows) ->
  get_submission_chats db w
  = (Raise (KeyError (py "SubmissionChatID")),
     log (Print (MsgErrorQuerying (KeyError (py "SubmissionChatID"))))
         (log (Select db chats_query) w)).
Proof.
  intros Hdb Hf. unfold get_submission_chats.
  apply reporting_key_error.
  rewrite (bind_ok _ _ _ _ _ (sql_fetchall_rows _ _ _ _ _ Hdb Hf)).
  apply collect_by_missing_key.
  apply (chat_row_has_no_key t (r :: rows)); [exact Hf | now left].
Qed.

Lemma get_submission_chats_empty db w t :
  dbs w !! db = Some t -> fetchall t chats_query = Some [] ->
  get_submission_chats db w = (Ok [], log (Select db chats_query) w).
Proof.
  intros Hdb Hf. unfold get_submission_chats.
  apply reporting_ok.
  now rewrite (bind_ok _ _ _ _ _ (sql_fetchall_rows _ _ _ _ _ Hdb Hf)).
Qed.


(** C1 (as the code behaves): on every non-empty result set the chat
    extraction raises [KeyError('SubmissionChatID')], because the query
    does not select the column the loop indexes the row with; no mapping
    is returned. *)
Theorem chat_extraction_fails_on_rows db w t rows :
  dbs w !! db = Some t ->
  fetchall t chats_query = Some rows ->
  rows <> [] ->
  get_submission_chats db w
  = (Raise (KeyError (py "SubmissionChatID")),
     log (Print (MsgErrorQuerying (KeyError (py "SubmissionChatID"))))
         (log (Select db chats_query) w)).
Proof.
  intros Hdb Hf Hne. destruct rows as [|r rows]; [contradiction|].
  eapply get_submission_chats_rows; eassumption.
Qed.

(** ** Strategies keyed by a column: the last row wins *)

Lemma collect_by_from key rows d0 w :
  (forall r, In r rows -> is_Some (dict_get key (dict_of_items r))) ->
  exists d,
    for_each rows
      (fun d r =>
         let row_dict := dict_of_items r in
         key <- getitem row_dict key ;;
         ret (dict_set key row_dict d)) d0 w = (Ok d, w)
    /\ forall k,
         dict_get k d
         = match last_with_key key k rows with
           | Some found => Some found
           | None => dict_get k d0
           end.
Proof.
  revert d0. induction rows as [|r rows IH]; intros d0 Hkeys; simpl.
  - exists d0. split; [reflexivity | reflexivity].
  - destruct (Hkeys r (or_introl eq_refl)) as [kv Hkv].
    destruct (IH (dict_set kv (dict_of_items r) d0)) as (d & Hrun & Hget).
    { intros r' Hin. apply Hkeys. now right. }
    exists d. split.
    + unfold bind at 1. unfold bind at 1. unfold getitem. rewrite Hkv.
      simpl. exact Hrun.
    + intros k. rewrite Hget.
      destruct (last_with_key key k rows); [reflexivity|].
      rewrite Hkv.
      destruct (decide (Some kv = Some k)) as [[= ->]|Hne].
      * apply dict_get_set_eq.
      * apply dict_get_set_ne. congruence.
Qed.

Lemma collect_by_last_wins key rows w :
  (forall r, In r rows -> is_Some (dict_get key (dict_of_items r))) ->
  exists d,
    collect_by key rows w = (Ok d, w)
    /\ forall k, dict_get k d = last_with_key key k rows.
Proof.
  intros Hkeys. destruct (collect_by_from key rows [] w Hkeys) as (d & Hrun & Hget).
  exists d. split; [exact Hrun|].
  intros k. rewrite Hget. now destruct (last_with_key key k rows).
Qed.

Lemma extract_unfold s db :
  extract s db
  = reporting (rows <- sql_fetchall db (strategy_query s) ;;
               collect_by (key_column s) rows).
Proof. now destruct s. Qed.

Lemma same_name_refl c : same_name c c = true.
Proof. unfold same_name. now apply bool_decide_eq_true. Qed.

Lemma same_name_lower a b : same_name a b = true -> map lower a = map lower b.
Proof. unfold same_name. now intros H%bool_decide_eq_true. Qed.

(** In a table whose columns are distinct up to case, a declared name
    answers for itself. *)
Lemma column_index_declared c cols :
  NoDup (map (map lower) cols) -> c ∈ cols ->
  exists i, column_index c cols = Some i /\ nth i cols c = c.
Proof.
  induction cols as [|c' cols IH]; intros Hnd Hin; [now apply elem_of_nil in Hin|].
  simpl in Hnd. apply NoDup_cons in Hnd as [Hfresh Hnd].
  simpl. destruct (same_name c c') eqn:E.
  - exists 0%nat. split; [reflexivity|]. simpl.
    apply elem_of_cons in Hin as [->|Hin]; [reflexivity|].
    exfalso. apply Hfresh. rewrite <- (same_name_lower _ _ E).
    apply list_elem_of_In, in_map. now apply list_elem_of_In.
  - apply elem_of_cons in Hin as [->|Hin]; [now rewrite same_name_refl in E|].
    destruct (IH Hnd Hin) as (i & -> & Hi). exists (S i). now split.
Qed.

Lemma declared_name_exact t c :
  distinct_columns t -> has_column t c = true ->
  knows_column t c = true /\ declared_name t c = c.
Proof.
  unfold has_column, knows_column, declared_name.
  intros Hnd Hin%bool_decide_eq_true.
  now destruct (column_index_declared c (columns t) Hnd Hin) as (i & -> & Hi).
Qed.

(** On a table that declares the key column, every row of the user and
    of the submission strategy carries it. *)
Lemma rows_carry_declared_key s t rows r :
  s <> ByChat ->
  distinct_columns t ->
  has_column t (key_column s) = true ->
  fetchall t (strategy_query s) = Some rows ->
  In r rows ->
  is_Some (dict_get (key_column s) (dict_of_items r)).
Proof.
  intros Hs Hnd Hcol Hf Hin. apply dict_get_is_Some. rewrite dict_of_items_keys.
  rewrite (fetchall_row_columns _ _ _ _ Hf Hin).
  destruct s; [| |contradiction].
  - cbn [strategy_query key_column selected sel_columns users_query] in *.
    unfold result_name. cbn [sel_columns users_query]. rewrite map_id.
    apply list_elem_of_In. now apply bool_decide_eq_true in Hcol.
  - cbn [strategy_query key_column selected sel_columns submissions_query map].
    unfold result_name. cbn [sel_columns submissions_query].
    cbn [key_column] in Hcol.
    destruct (declared_name_exact t (py "SubmissionID") Hnd Hcol) as [_ ->].
    now left.
Qed.

(** C10 (as the code behaves): on a table that declares the key
    column, the user and the submission strategy do not fail when rows
    share a key: each key holds the dictionary of the last row, in
    return order, with that key. The chat strategy does fail: its query
    does not select the chat identifier, so on every non-empty result,
    and so whenever rows share a chat identifier, it raises
    [KeyError('SubmissionChatID')] and returns no mapping. *)
Theorem shared_keys_last_row_wins_except_chat db w t :
  dbs w !! db = Some t ->
  (forall s rows,
     s <> ByChat ->
     distinct_columns t ->
     has_column t (key_column s) = true ->
     fetchall t (strategy_query s) = Some rows ->
     exists d,
       extract s db w = (Ok d, log (Select db (strategy_query s)) w)
       /\ forall k, dict_get k d = last_with_key (key_column s) k rows)
  /\ (forall rows,
        fetchall t chats_query = Some rows ->
        rows <> [] ->
        extract ByChat db w
        = (Raise (KeyError (py "SubmissionChatID")),
           log (Print (MsgErrorQuerying (KeyError (py "SubmissionChatID"))))
             (log (Select db chats_query) w))).
Proof.
  intros Hdb. split.
  - intros s rows Hs Hnd Hcol Hf. rewrite extract_unfold.
    destruct (collect_by_last_wins (key_column s) rows
                (log (Select db (strategy_query s)) w)
                (fun r => rows_carry_declared_key s t rows r Hs Hnd Hcol Hf))
      as (d & Hrun & Hget).
    exists d. split; [|exact Hget].
    apply reporting_ok.
    now rewrite (bind_ok _ _ _ _ _ (sql_fetchall_rows _ _ _ _ _ Hdb Hf)).
  - intros rows Hf Hrows. destruct rows as [|r rows]; [contradiction|].
    exact (get_submission_chats_rows db w t r rows Hdb Hf).
Qed.

(** ** The synthetic index *)

Lemma dict_get_app_None {V} (k : sqlval) (d d' : list (sqlval * V)) :
  dict_get k d = None -> dict_get k (d ++ d') = dict_get k d'.
Proof.
  induction d as [|[k0 v0] d IH]; simpl; [reflexivity|].
  destruct (decide (k = k0)); [discriminate | exact IH].
Qed.

Lemma numbered_get_below (start j : Z) rows :
  (j < start)%Z -> dict_get (VText (str_int j)) (numbered start rows) = None.
Proof.
  revert start. induction rows as [|r rows IH]; intros start Hlt; simpl.
  - reflexivity.
  - destruct (decide (VText (str_int j) = VText (str_int start))) as [[= E]|_].
    + apply str_int_inj in E. lia.
    + apply IH. lia.
Qed.

Lemma numbered_get (start : Z) rows (i : nat) r :
  rows !! i = Some r ->
  dict_get (VText (str_int (start + Z.of_nat i))) (numbered start rows)
  = Some (dict_of_items r).
Proof.
  revert start i. induction rows as [|r0 rows IH]; intros start i Hi.
  - destruct i; discriminate.
  - destruct i as [|i]; cbn [numbered dict_get]; cbn in Hi.
    + injection Hi as ->. rewrite Z.add_0_r.
      destruct (decide _); congruence.
    + destruct (decide _) as [[= E]|_].
      * apply str_int_inj in E. lia.
      * replace (start + Z.of_nat (S i))%Z
          with (start + 1 + Z.of_nat i)%Z by lia.
        now apply IH.
Qed.

Lemma numbered_keys (start : Z) rows k :
  In k (map fst (numbered start rows))
  <-> exists i, (i < length rows)%nat /\ k = VText (str_int (start + Z.of_nat i)).
Proof.
  revert start. induction rows as [|r rows IH]; intros start; simpl.
  - split; [tauto | intros (i & Hi & _); lia].
  - rewrite IH. split.
    + intros [<-|(i & Hi & ->)].
      * exists 0%nat. split; [lia|]. now rewrite Z.add_0_r.
      * exists (S i). split; [lia|]. do 2 f_equal. lia.
    + intros (i & Hi & ->). destruct i as [|i].
      * left. now rewrite Z.add_0_r.
      * right. exists i. split; [lia|]. do 2 f_equal. lia.
Qed.

Lemma number_rows_from rows d0 (n : Z) w :
  (forall j, (n <= j)%Z -> dict_get (VText (str_int j)) d0 = None) ->
  for_each rows number_row (d0, n) w
  = (Ok (d0 ++ numbered n rows, (n + Z.of_nat (length rows))%Z), w).
Proof.
  revert d0 n. induction rows as [|r rows IH]; intros d0 n Hfree.
  - simpl. unfold ret. now rewrite app_nil_r, Z.add_0_r.
  - cbn [for_each]. unfold bind, number_row at 1, ret at 1.
    rewrite (dict_set_fresh _ _ _ (Hfree n (Z.le_refl n))).
    rewrite IH.
    + cbn [numbered length]. rewrite <- app_assoc. simpl.
      do 3 f_equal. lia.
    + intros j Hj. rewrite dict_get_app_None by (apply Hfree; lia).
      simpl. destruct (decide (VText (str_int j) = VText (str_int n))) as [[= E]|_];
        [|reflexivity].
      apply str_int_inj in E. lia.
Qed.

(** C8: the synthetic-index strategy, on the rows [r0 .. r(N-1)] its
    query returns (at most the limit of 10), yields exactly the keys
    ["0"] to ["N-1"], key ["i"] holding row [ri]. *)
Theorem messages_keyed_by_position db w t rows :
  dbs w !! db = Some t ->
  fetchall t messages_query = Some rows ->
  get_chat_messages db w
  = (Ok (numbered 0 rows), log (Select db messages_query) w)
  /\ (length rows <= 10)%nat
  /\ (forall i r, rows !! i = Some r ->
        dict_get (VText (str_int (Z.of_nat i))) (numbered 0 rows) = Some r)
  /\ (forall k, is_Some (dict_get k (numbered 0 rows))
        <-> exists i, (i < length rows)%nat /\ k = VText (str_int (Z.of_nat i))).
Proof.
  intros Hdb Hf. repeat split.
  - unfold get_chat_messages. apply reporting_ok.
    rewrite (bind_ok _ _ _ _ _ (sql_fetchall_rows _ _ _ _ _ Hdb Hf)).
    unfold bind. rewrite number_rows_from by reflexivity. reflexivity.
  - now apply (fetchall_length_limit t messages_query).
  - intros i r Hi. pose proof (numbered_get 0 rows i r Hi) as Hg.
    rewrite Z.add_0_l in Hg. rewrite Hg. f_equal. apply dict_of_items_NoDup.
    rewrite (fetchall_row_columns t messages_query rows r Hf).
    + simpl. repeat constructor. apply not_elem_of_nil.
    + apply list_elem_of_In. eapply list_elem_of_lookup_2. exact Hi.
  - intros Hs. apply dict_get_is_Some, numbered_keys in Hs.
    destruct Hs as (i & Hi & ->). exists i. now rewrite Z.add_0_l.
  - intros (i & Hi & ->). apply dict_get_is_Some, numbered_keys.
    exists i. now rewrite Z.add_0_l.
Qed.


(** ** What a computation may do to the world *)

#[local] Instance engine_idle_preorder : PreOrder engine_idle.
Proof.
  split.
  - intros w. exists []. now rewrite app_nil_r.
  - intros w1 w2 w3 (m1 & Ht1 & Hq1 & Hd1) (m2 & Ht2 & Hq2 & Hd2).
    exists (m1 ++ m2). rewrite Ht2, Ht1, Hd2, Hd1, forallb_app, Hq1, Hq2.
    now rewrite app_assoc.
Qed.

#[local] Instance engine_idle_observing : Observing engine_idle.
Proof. split; intros; eexists [_]; now simpl. Qed.

Section Steady.
Context (R : world -> world -> Prop) `{!PreOrder R} `{!Observing R}.

Lemma steady_ret {A} (a : A) : steady R (ret a).
Proof. intros w. reflexivity. Qed.

Lemma steady_raise {A} e : steady R (@raise A e).
Proof. intros w. reflexivity. Qed.

Lemma steady_print m : steady R (print m).
Proof. intros w. apply observing_print. Qed.

Lemma steady_bind {A B} (m : M A) (k : A -> M B) :
  steady R m -> (forall a, steady R (k a)) -> steady R (bind m k).
Proof.
  intros Hm Hk w. unfold bind. specialize (Hm w).
  destruct (m w) as [[a|e] w1]; simpl in *; [|exact Hm].
  etransitivity; [exact Hm | apply Hk].
Qed.

Lemma steady_dispatch {A} (clauses : list ((exn -> bool) * (exn -> M A))) e :
  Forall (fun c => forall e, steady R (snd c e)) clauses ->
  steady R (dispatch clauses e).
Proof.
  induction 1 as [|[catches handler] clauses Hh _ IH]; simpl.
  - apply steady_raise.
  - destruct (catches e); [apply Hh | exact IH].
Qed.

Lemma steady_try_except {A} (body : M A) clauses :
  steady R body -> Forall (fun c => forall e, steady R (snd c e)) clauses ->
  steady R (try_except body clauses).
Proof.
  intros Hb Hc w. unfold try_except. specialize (Hb w).
  destruct (body w) as [[a|e] w1]; simpl in *; [exact Hb|].
  etransitivity; [exact Hb | apply steady_dispatch, Hc].
Qed.

Lemma steady_for_each {A S} (l : list A) (body : S -> A -> M S) s :
  (forall s x, steady R (body s x)) -> steady R (for_each l body s).
Proof.
  intros Hb. revert s. induction l as [|x l IH]; intros s; simpl.
  - apply steady_ret.
  - apply steady_bind; [apply Hb | exact IH].
Qed.

Lemma steady_reporting {A} (body : M A) : steady R body -> steady R (reporting body).
Proof.
  intros Hb. apply steady_try_except; [exact Hb|].
  repeat constructor; intros e; simpl;
    (apply steady_bind; [apply steady_print | intros _; apply steady_raise]).
Qed.

Lemma steady_sql_fetchall db q :
  (forall w, R w (connect db w)) -> steady R (sql_fetchall db q).
Proof.
  intros Hc w. unfold sql_fetchall.
  assert (Hw : R w (log (Select db q) (connect db w))).
  { etransitivity; [apply Hc | apply observing_select]. }
  destruct (dbs w !! db) as [t|]; [destruct (fetchall t q)|]; exact Hw.
Qed.

Lemma steady_getitem d k : steady R (getitem d k).
Proof.
  unfold getitem. destruct (dict_get k d); [apply steady_ret | apply steady_raise].
Qed.

Lemma steady_collect_by key rows : steady R (collect_by key rows).
Proof.
  apply steady_for_each. intros d r.
  apply steady_bind; [apply steady_getitem | intros k; apply steady_ret].
Qed.


Lemma steady_get_chat_messages db :
  (forall w, R w (connect db w)) -> steady R (get_chat_messages db).
Proof.
  intros Hc.
  apply steady_reporting, steady_bind;
    [now apply steady_sql_fetchall | intros rows].
  apply steady_bind; [|intros state; apply steady_ret].
  apply steady_for_each. intros [d n] r. apply steady_ret.
Qed.
End Steady.

Lemma connect_cases db w :
  connect db w = w
  \/ (dbs w !! db = None /\ files w !! db = None /\ fault w <> CreateFault
      /\ connect db w = set_files (<[db := []]> (files w)) w).
Proof.
  unfold connect.
  destruct (dbs w !! db); [now left|].
  destruct (files w !! db); [now left|].
  destruct (fault w); try (right; repeat split; congruence). now left.
Qed.

Lemma idle_connect db w : engine_idle w (connect db w).
Proof.
  destruct (connect_cases db w) as [-> | (_ & _ & _ & ->)];
    exists []; now rewrite app_nil_r.
Qed.

Lemma idle_mkdir_parents path : steady engine_idle (mkdir_parents path).
Proof.
  intros w. exists [MkdirParents path]. unfold mkdir_parents.
  now destruct (fault w).
Qed.

Lemma idle_open_write path : steady engine_idle (open_write path).
Proof.
  intros w. exists [OpenWrite path]. unfold open_write.
  now destruct (fault w).
Qed.

Lemma idle_write path chunk : steady engine_idle (write path chunk).
Proof.
  intros w. exists [Write path chunk]. unfold write.
  destruct (fault w) as [| | |room [|d]|[|d]|];
    try destruct (length chunk <=? room)%nat; now simpl.
Qed.

Lemma idle_close path : steady engine_idle (close path).
Proof.
  intros w. exists [CloseFile path]. unfold close.
  now destruct (fault w).
Qed.

Lemma idle_with_open_write {A} path (body : M A) :
  steady engine_idle body -> steady engine_idle (with_open_write path body).
Proof.
  intros Hb. unfold with_open_write.
  apply steady_bind; [apply _ | apply idle_open_write | intros _].
  intros w. specialize (Hb w). pose proof (idle_close path (snd (body w))) as Hc.
  destruct (body w) as [r w1]. simpl in *.
  destruct (close path w1) as [[[]|e] w2]; simpl in *; now transitivity w1.
Qed.

Lemma idle_json_dump data path : steady engine_idle (json_dump data path).
Proof.
  unfold json_dump. destruct (iterencode data) as [cs raised].
  apply steady_bind; [apply _ | |].
  - apply steady_for_each; [apply _|]. intros _ chunk. apply idle_write.
  - intros _. destruct raised; [apply steady_raise | apply steady_ret]; apply _.
Qed.

Lemma idle_save_stats_to_json data path :
  steady engine_idle (save_stats_to_json data path).
Proof.
  apply steady_try_except; [apply _ | |].
  - apply steady_bind; [apply _ | apply idle_mkdir_parents | intros _].
    apply steady_bind;
      [apply _ | apply idle_with_open_write, idle_json_dump | intros _].
    apply steady_print; apply _.
  - repeat constructor; intros e; simpl.
    apply steady_bind; [apply _ | | intros _; apply steady_raise; apply _].
    apply steady_print; apply _.
Qed.

Lemma idle_after_extraction params (chats : dataset) :
  steady engine_idle
    (match chats with
     | [] => print MsgNoneFound ;; save_stats_to_json [] (stats_path params)
     | _ :: _ => print (MsgFound (length chats)) ;;
                 save_stats_to_json chats (stats_path params)
     end).
Proof.
  destruct chats;
    (apply steady_bind; [apply _ | apply steady_print; apply _ | intros _];
     apply idle_save_stats_to_json).
Qed.

(** Extraction begins with its query. *)
Lemma try_except_bind_first {A B} (m : M A) (k : A -> M B) clauses w :
  try_except (bind m k) clauses w
  = match m w with
    | (Ok a, w1) => try_except (k a) clauses w1
    | (Raise e, w1) => dispatch clauses e w1
    end.
Proof. unfold try_except, bind. now destruct (m w) as [[a|e] w1]. Qed.

Lemma sql_fetchall_world db q w :
  snd (sql_fetchall db q w) = log (Select db q) (connect db w).
Proof.
  unfold sql_fetchall.
  destruct (dbs w !! db) as [t|]; [destruct (fetchall t q)|]; reflexivity.
Qed.

Lemma idle_select_connect db q w :
  engine_idle (log (Select db q) w) (log (Select db q) (connect db w)).
Proof.
  destruct (connect_cases db w) as [-> | (_ & _ & _ & ->)];
    exists []; now rewrite app_nil_r.
Qed.

Lemma engine_idle_after_select db q w w' :
  engine_idle (log (Select db q) w) w' ->
  exists more,
    trace w' = trace w ++ Select db q :: more
    /\ forallb (fun e => negb (is_engine_call e)) more = true
    /\ dbs w' = dbs w.
Proof.
  intros (more & Ht & Hq & Hd). exists more. rewrite Ht, Hd. simpl.
  now rewrite <- app_assoc.
Qed.

Lemma get_submission_chats_starts db w :
  engine_idle (log (Select db chats_query) w) (snd (get_submission_chats db w)).
Proof.
  unfold get_submission_chats, reporting. rewrite try_except_bind_first.
  pose proof (sql_fetchall_world db chats_query w) as Hw.
  destruct (sql_fetchall db chats_query w) as [[rows|e] w1]; simpl in Hw; subst w1;
    (etransitivity; [apply idle_select_connect|]).
  - apply (steady_reporting engine_idle
             (collect_by (py "SubmissionChatID") rows)).
    apply steady_collect_by; apply _.
  - apply steady_dispatch; [apply _|].
    repeat constructor; intros e'; simpl;
      (apply steady_bind; [apply _ | apply steady_print; apply _
                          | intros _; apply steady_raise; apply _]).
Qed.

Lemma process_results_starts params w :
  engine_idle (log (Select (db_path params) chats_query) w)
              (snd (process_results params w)).
Proof.
  unfold process_results.
  pose proof (get_submission_chats_starts (db_path params) w) as H1.
  destruct (get_submission_chats (db_path params) w) as [[chats|e] w1] eqn:E;
    simpl in H1.
  - rewrite (bind_ok _ _ _ _ _ E).
    etransitivity; [exact H1 | apply idle_after_extraction].
  - now rewrite (bind_raise _ _ _ _ _ E).
Qed.


(** ** Writing the artifact *)

Lemma append_files path chunk w old :
  files w !! path = Some old ->
  files (append path chunk w) = <[path := old ++ chunk]> (files w).
Proof. unfold append. now intros ->. Qed.

(** The chunks of a dump, written one after the other: the file grows
    by what the device takes of them, and a refusal is raised at once or
    left pending. *)
Lemma write_chunks_outcome path cs w old :
  files w !! path = Some old ->
  exists r w',
    for_each cs (fun _ chunk => write path chunk) tt w = (r, w')
    /\ files w' = <[path := old ++ accepted (fault w) (concat cs)]> (files w)
    /\ match fault w with
       | WriteFault room _ =>
           if (length (concat cs) <=? room)%nat
           then r = Ok tt /\ exists room' d, fault w' = WriteFault room' d
           else exists d, fault w' = Refused d
       | Refused _ => exists d, fault w' = Refused d
       | f => r = Ok tt /\ fault w' = f
       end.
Proof.
  revert w old. induction cs as [|c cs IH]; intros w old Hold.
  - exists (Ok tt), w. split; [reflexivity|]. split.
    + destruct (fault w); simpl; rewrite ?take_nil, app_nil_r;
        now rewrite insert_id.
    + destruct (fault w); simpl; eauto.
  - cbn [for_each concat]. unfold bind at 1. unfold write at 1.
    set (w0 := log (Write path c) w).
    assert (Hold0 : files w0 !! path = Some old) by exact Hold.
    destruct (fault w) as [| | |room delay|delay|] eqn:Hfault.
    1,2,3,6:
      (destruct (IH (append path c w0) (old ++ c)) as (r & w' & Hrun & Hf & Hr);
       [rewrite (append_files _ _ _ _ Hold0); apply lookup_insert_eq|];
       exists r, w'; split; [exact Hrun|];
       rewrite (append_files _ _ _ _ Hold0) in Hf;
       change (fault (append path c w0)) with (fault w) in Hf, Hr;
       rewrite Hfault in Hf, Hr; simpl in Hf;
       split; [now rewrite Hf, insert_insert_eq, <- app_assoc | exact Hr]).
    + (* the device takes [room] more characters *)
      destruct (Nat.leb_spec (length c) room) as [Hfit|Hover].
      * set (w1 := set_fault (WriteFault (room - length c) (pred delay))
                             (append path c w0)).
        destruct (IH w1 (old ++ c)) as (r & w' & Hrun & Hf & Hr).
        { subst w1. simpl. rewrite Hold. apply lookup_insert_eq. }
        exists r, w'. split; [exact Hrun|].
        change (fault w1) with (WriteFault (room - length c) (pred delay)) in Hf, Hr.
        change (files w1) with (files (append path c w0)) in Hf.
        rewrite (append_files _ _ _ _ Hold0) in Hf. simpl in Hf.
        split.
        -- rewrite Hf, insert_insert_eq, <- app_assoc. simpl.
           rewrite take_app, (take_ge c) by lia. reflexivity.
        -- rewrite length_app. cbv iota beta in Hr.
           destruct (Nat.leb_spec (length (concat cs)) (room - length c)) as [H1|H1];
             destruct (Nat.leb_spec (length c + length (concat cs)) room) as [H2|H2];
             try lia; exact Hr.
      * simpl. rewrite length_app.
        destruct (Nat.leb_spec (length c + length (concat cs)) room) as [H2|H2];
          [lia|].
        assert (Htake : take room (c ++ concat cs) = take room c).
        { rewrite take_app. replace (room - length c)%nat with 0%nat by lia.
          now rewrite take_0, app_nil_r. }
        destruct delay as [|d].
        -- eexists _, _. split; [reflexivity|]. split.
           ++ simpl. rewrite Hold, Htake. reflexivity.
           ++ now exists 0%nat.
        -- set (w1 := set_fault (Refused d) (append path (take room c) w0)).
           destruct (IH w1 (old ++ take room c)) as (r & w' & Hrun & Hf & Hr).
           { subst w1. simpl. rewrite Hold. apply lookup_insert_eq. }
           exists r, w'. split; [exact Hrun|].
           change (fault w1) with (Refused d) in Hf, Hr.
           change (files w1) with (files (append path (take room c) w0)) in Hf.
           rewrite (append_files _ _ _ _ Hold0) in Hf. simpl in Hf.
           split; [|exact Hr].
           now rewrite Hf, insert_insert_eq, app_nil_r, Htake.
    + (* data has been refused already *)
      destruct delay as [|d].
      * eexists _, _. split; [reflexivity|]. split.
        -- simpl. now rewrite app_nil_r, insert_id.
        -- exists 0%nat. exact Hfault.
      * set (w1 := set_fault (Refused d) w0).
        destruct (IH w1 old) as (r & w' & Hrun & Hf & Hr); [exact Hold|].
        exists r, w'. split; [exact Hrun|].
        change (fault w1) with (Refused d) in Hf, Hr. split; [exact Hf | exact Hr].
Qed.

Lemma json_dump_outcome data path w old :
  files w !! path = Some old ->
  exists r w',
    json_dump data path w = (r, w')
    /\ files w'
       = <[path := old ++ accepted (fault w) (concat (fst (iterencode data)))]>
           (files w)
    /\ match fault w with
       | WriteFault room _ =>
           if (length (concat (fst (iterencode data))) <=? room)%nat
           then r = encoded data /\ exists room' d, fault w' = WriteFault room' d
           else exists d, fault w' = Refused d
       | Refused _ => exists d, fault w' = Refused d
       | f => r = encoded data /\ fault w' = f
       end.
Proof.
  intros Hold. unfold json_dump, encoded.
  destruct (iterencode data) as [cs raised]. cbn [fst snd].
  destruct (write_chunks_outcome path cs w old Hold) as (r & w1 & Hrun & Hf & Hr).
  unfold bind. rewrite Hrun.
  exists (match r with
          | Ok _ => match raised with Some e => Raise e | None => Ok tt end
          | Raise e => Raise e
          end), w1.
  split; [destruct r as [[]|e]; now destruct raised|].
  split; [exact Hf|].
  destruct (fault w) as [| | |room delay|delay|]; try exact Hr;
    try (destruct Hr as [-> Hfl]; now split).
  destruct (length (concat cs) <=? room)%nat; [|exact Hr].
  destruct Hr as [-> Hfl]. now split.
Qed.

Lemma save_handler_outcome e w :
  exists w',
    dispatch [ (is_exception,
                fun e => print (MsgErrorSaving e) ;; @raise unit e) ] e w
    = (Raise e, w')
    /\ files w' = files w /\ dbs w' = dbs w.
Proof.
  simpl. destruct (is_exception e); eexists; (split; [reflexivity|]); now simpl.
Qed.

(** The opening, the dump and the closing: the file holds what the
    device took of the encoder's text, and a refusal is an [OSError] at
    the latest when the file is closed. *)
Lemma with_open_write_outcome data path w :
  fault w <> OpenFault ->
  exists r w',
    with_open_write path (json_dump data path) w = (r, w')
    /\ files w'
       = <[path := accepted (fault w) (concat (fst (iterencode data)))]> (files w)
    /\ match fault w with
       | WriteFault room _ =>
           r = if (length (concat (fst (iterencode data))) <=? room)%nat
               then encoded data
               else Raise (OSError (py "write"))
       | Refused _ => r = Raise (OSError (py "write"))
       | _ => r = encoded data
       end.
Proof.
  intros Hopen. unfold with_open_write.
  set (w2 := set_files (<[path := []]> (files (log (OpenWrite path) w)))
                       (log (OpenWrite path) w)).
  assert (Hop : open_write path w = (Ok tt, w2)).
  { unfold open_write. subst w2. now destruct (fault w). }
  rewrite (bind_ok _ _ _ _ _ Hop).
  destruct (json_dump_outcome data path w2 [])
    as (r & w3 & Hrun & Hfiles & Hr).
  { subst w2. simpl. apply lookup_insert_eq. }
  rewrite Hrun.
  change (fault w2) with (fault w) in Hfiles, Hr.
  assert (Hfiles' : files w3
            = <[path := accepted (fault w) (concat (fst (iterencode data)))]>
                (files w)).
  { rewrite Hfiles. subst w2. simpl. now rewrite insert_insert_eq. }
  unfold close.
  destruct (fault w) as [| | |room delay|delay|] eqn:Hfault;
    try (destruct Hr as [-> Hfl]; rewrite Hfl; eexists _, _;
         split; [reflexivity|]; split; [exact Hfiles' | reflexivity]).
  - destruct (length (concat (fst (iterencode data))) <=? room)%nat.
    + destruct Hr as [-> (room' & d & Hfl)]. rewrite Hfl. eexists _, _.
      split; [reflexivity|]. split; [exact Hfiles' | reflexivity].
    + destruct Hr as (d & Hfl). rewrite Hfl. eexists _, _.
      split; [reflexivity|]. split; [exact Hfiles' | reflexivity].
  - destruct Hr as (d & Hfl). rewrite Hfl. eexists _, _.
    split; [reflexivity|]. split; [exact Hfiles' | reflexivity].
Qed.

(** [save_stats_to_json], case by case of the fault. *)
Lemma save_stats_to_json_exact data path w :
  exists r w',
    save_stats_to_json data path w = (r, w')
    /\ match fault w with
       | MkdirFault => r = Raise (OSError (py "mkdir")) /\ files w' = files w
       | OpenFault => r = Raise (OSError (py "open")) /\ files w' = files w
       | WriteFault room _ =>
           r = (if (length (concat (fst (iterencode data))) <=? room)%nat
                then encoded data
                else Raise (OSError (py "write")))
           /\ files w'
              = <[path := take room (concat (fst (iterencode data)))]> (files w)
       | Refused _ =>
           r = Raise (OSError (py "write"))
           /\ files w' = <[path := []]> (files w)
       | _ =>
           r = encoded data
           /\ files w' = <[path := concat (fst (iterencode data))]> (files w)
       end.
Proof.
  unfold save_stats_to_json, try_except.
  destruct (decide (fault w = MkdirFault)) as [Hm|Hm].
  { assert (Hmk : mkdir_parents path w
                  = (Raise (OSError (py "mkdir")), log (MkdirParents path) w)).
    { unfold mkdir_parents. now rewrite Hm. }
    rewrite (bind_raise _ _ _ _ _ Hmk).
    destruct (save_handler_outcome (OSError (py "mkdir"))
                (log (MkdirParents path) w)) as (w' & -> & Hf & _).
    rewrite Hm. eexists _, w'. split; [reflexivity|]. now split. }
  assert (Hmk : mkdir_parents path w = (Ok tt, log (MkdirParents path) w)).
  { unfold mkdir_parents. now destruct (fault w). }
  rewrite (bind_ok _ _ _ _ _ Hmk).
  set (w1 := log (MkdirParents path) w).
  destruct (decide (fault w = OpenFault)) as [Ho|Ho].
  { assert (Hop : with_open_write path (json_dump data path) w1
                  = (Raise (OSError (py "open")), log (OpenWrite path) w1)).
    { unfold with_open_write, bind, open_write. subst w1. simpl. now rewrite Ho. }
    rewrite (bind_raise _ _ _ _ _ Hop).
    destruct (save_handler_outcome (OSError (py "open"))
                (log (OpenWrite path) w1)) as (w' & -> & Hf & _).
    rewrite Ho. eexists _, w'. split; [reflexivity|]. now split. }
  destruct (with_open_write_outcome data path w1 Ho) as (r & w3 & Hrun & Hfiles & Hr).
  change (fault w1) with (fault w) in Hfiles, Hr.
  change (files w1) with (files w) in Hfiles.
  assert (Hend : exists w',
            match
              bind (with_open_write path (json_dump data path))
                   (fun _ => print (MsgSaved path)) w1
            with
            | (Ok a, w') => (Ok a, w')
            | (Raise e, w') =>
                dispatch [ (is_exception,
                            fun e => print (MsgErrorSaving e) ;; @raise unit e) ]
                         e w'
            end = (r, w') /\ files w' = files w3).
  { unfold bind at 1. rewrite Hrun. destruct r as [[]|e].
    - eexists. split; reflexivity.
    - destruct (save_handler_outcome e w3) as (w' & -> & Hf & _). eauto. }
  destruct Hend as (w' & -> & Hfw). exists r, w'. split; [reflexivity|].
  rewrite Hfw, Hfiles.
  destruct (fault w) as [| | |room delay|delay|]; try contradiction;
    simpl; now split.
Qed.

(** The artifact after [save_stats_to_json]: complete on success,
    untouched when the directory or the opening fails, and otherwise a
    prefix of the encoder's text. *)
Lemma save_stats_to_json_outcome data path w :
  exists r w' k,
    save_stats_to_json data path w = (r, w')
    /\ ( (r = Ok tt /\ snd (iterencode data) = None
          /\ files w' = <[path := concat (fst (iterencode data))]> (files w))
       \/ (exists e, r = Raise e /\ files w' = files w
                     /\ (fault w = MkdirFault \/ fault w = OpenFault))
       \/ (exists e, r = Raise e
                     /\ files w'
                        = <[path := take k (concat (fst (iterencode data)))]>
                            (files w)
                     /\ (fault w = NoFault ->
                         snd (iterencode data) = Some e
                         /\ k = length (concat (fst (iterencode data))))) ).
Proof.
  destruct (save_stats_to_json_exact data path w) as (r & w' & Hrun & Hcase).
  assert (Hplain : r = encoded data ->
            files w' = <[path := concat (fst (iterencode data))]> (files w) ->
            (r = Ok tt /\ snd (iterencode data) = None
             /\ files w' = <[path := concat (fst (iterencode data))]> (files w))
            \/ (exists e, r = Raise e
                  /\ files w'
                     = <[path := take (length (concat (fst (iterencode data))))
                                   (concat (fst (iterencode data)))]> (files w)
                  /\ snd (iterencode data) = Some e)).
  { unfold encoded. intros -> Hf. destruct (snd (iterencode data)) as [e|].
    - right. exists e. now rewrite firstn_all.
    - now left. }
  destruct (fault w) as [| | |room delay|delay|] eqn:Hfault.
  - destruct Hcase as [Hr Hf]. destruct (Hplain Hr Hf) as [H|(e & -> & Hf' & He)].
    + exists r, w', 0%nat. split; [exact Hrun | now left].
    + eexists _, w', _. split; [exact Hrun|]. right. right.
      exists e. split; [reflexivity|]. split; [exact Hf' | now intros _].
  - destruct Hcase as [-> Hf]. eexists _, w', 0%nat. split; [exact Hrun|].
    right. left. eexists. split; [reflexivity|]. split; [exact Hf | now left].
  - destruct Hcase as [-> Hf]. eexists _, w', 0%nat. split; [exact Hrun|].
    right. left. eexists. split; [reflexivity|]. split; [exact Hf | now right].
  - destruct Hcase as [Hr Hf].
    destruct (Nat.leb_spec (length (concat (fst (iterencode data)))) room)
      as [Hfit|Hover].
    + rewrite take_ge in Hf by exact Hfit.
      destruct (Hplain Hr Hf) as [H|(e & -> & Hf' & He)].
      * exists r, w', 0%nat. split; [exact Hrun | now left].
      * eexists _, w', _. split; [exact Hrun|]. right. right.
        exists e. split; [reflexivity|]. split; [exact Hf' | discriminate].
    + subst r. eexists _, w', room. split; [exact Hrun|]. right. right.
      eexists. split; [reflexivity|]. split; [exact Hf | discriminate].
  - destruct Hcase as [-> Hf]. eexists _, w', 0%nat. split; [exact Hrun|].
    right. right. eexists. split; [reflexivity|].
    split; [now rewrite take_0 | discriminate].
  - destruct Hcase as [Hr Hf]. destruct (Hplain Hr Hf) as [H|(e & -> & Hf' & He)].
    + exists r, w', 0%nat. split; [exact Hrun | now left].
    + eexists _, w', _. split; [exact Hrun|]. right. right.
      exists e. split; [reflexivity|]. split; [exact Hf' | discriminate].
Qed.

Lemma save_stats_to_json_complete data path w :
  fault w = NoFault -> snd (iterencode data) = None ->
  exists w',
    save_stats_to_json data path w = (Ok tt, w')
    /\ files w' = <[path := concat (fst (iterencode data))]> (files w)
    /\ dbs w' = dbs w.
Proof.
  intros Hn Hnone.
  destruct (save_stats_to_json_outcome data path w) as (r & w' & k & Hrun & Hcases).
  destruct (idle_save_stats_to_json data path w) as (more & _ & _ & Hd).
  rewrite Hrun in Hd. simpl in Hd.
  destruct Hcases as [(-> & _ & Hf)|[(e & _ & _ & [Hx|Hx])|(e & _ & _ & Hx)]].
  - now exists w'.
  - congruence.
  - congruence.
  - destruct (Hx Hn) as [Hsome _]. congruence.
Qed.


(** ** The driver *)

Lemma contains_self_part (before needle after : text) :
  contains needle (before ++ needle ++ after).
Proof. now exists before, after. Qed.

Lemma contains_app_l needle (a b : text) : contains needle a -> contains needle (a ++ b).
Proof.
  intros (x & y & ->). exists x, (y ++ b). now rewrite <- !app_assoc.
Qed.

Lemma contains_In needle haystack c :
  contains needle haystack -> In c needle -> In c haystack.
Proof.
  intros (x & y & ->) Hin. apply in_or_app. right. apply in_or_app. now left.
Qed.

Lemma present_false_invalid params :
  present (query params) = false -> validate_production_mode params = false.
Proof. unfold validate_production_mode. now intros ->. Qed.

Section Driver.
Context {payload : Type}.
Variable payload_truthy : payload -> bool.
Variable payload_dumps : payload -> text.
Variable engine :
  engine_request -> gmap text table -> QueryResult payload * gmap text table.

Local Abbreviation execute := (execute_query payload_truthy payload_dumps engine).
Local Abbreviation worker := (main payload_truthy payload_dumps engine).
Local Abbreviation run_worker := (run payload_truthy payload_dumps engine).
Local Abbreviation message_of := (error_message payload_truthy payload_dumps).

Lemma from_env_loaded raw w :
  dev_mode raw = true \/ validate_production_mode raw = true ->
  from_env raw w = (Ok raw, w).
Proof.
  unfold from_env. intros [->| ->]; [reflexivity|].
  now destruct (dev_mode raw).
Qed.

Lemma load_ok raw w :
  dev_mode raw = true \/ validate_production_mode raw = true ->
  try_except
    (params <- from_env raw ;; print (MsgParams params) ;; ret params)
    [ (is_param_error,
       fun e => print (MsgParamError e) ;; raise (SystemExit 1)) ] w
  = (Ok raw, log (Print (MsgParams raw)) w).
Proof.
  intros H. unfold try_except, bind. now rewrite (from_env_loaded raw w H).
Qed.

Lemma execute_query_invalid params w :
  validate_production_mode params = false -> execute params w = (Ok false, w).
Proof. unfold execute_query. now intros ->. Qed.

Lemma execute_query_valid params w outcome dbs' :
  validate_production_mode params = true ->
  engine (request_of params) (dbs w) = (outcome, dbs') ->
  execute params w
  = (Ok (success outcome),
     log (Print (if success outcome then MsgQueryDone (db_path params)
                 else MsgQueryError (message_of outcome)))
       (set_dbs dbs'
          (log (EngineCall (request_of params))
             (log (Print (MsgExecuting (query params))) w)))).
Proof.
  intros Hv He. unfold execute_query. rewrite Hv. simpl.
  unfold bind, print, engine_execute. simpl. rewrite He.
  now destruct (success outcome).
Qed.

Lemma main_dev_mode raw w :
  dev_mode raw = true ->
  worker raw w
  = top_level (process_results raw)
      (log (Print (MsgProcessing (db_path raw)))
         (log (Print MsgDevMode) (log (Print (MsgParams raw)) w))).
Proof.
  intros Hd. unfold main, top_level.
  rewrite try_except_bind_first, (load_ok raw w (or_introl Hd)).
  rewrite try_except_bind_first. now rewrite Hd.
Qed.

Lemma main_production raw w outcome dbs' :
  dev_mode raw = false ->
  validate_production_mode raw = true ->
  engine (request_of raw) (dbs w) = (outcome, dbs') ->
  worker raw w
  = let w1 :=
      log (Print (if success outcome then MsgQueryDone (db_path raw)
                  else MsgQueryError (message_of outcome)))
        (set_dbs dbs'
           (log (EngineCall (request_of raw))
              (log (Print (MsgExecuting (query raw)))
                 (log (Print (MsgParams raw)) w)))) in
    if success outcome then top_level (process_results raw) w1
    else (Raise (SystemExit 2), w1).
Proof.
  intros Hd Hv He. unfold main, top_level.
  rewrite try_except_bind_first, (load_ok raw w (or_intror Hv)).
  rewrite try_except_bind_first. rewrite Hd.
  unfold bind at 1.
  rewrite (execute_query_valid raw (log (Print (MsgParams raw)) w) outcome dbs' Hv He).
  now destruct (success outcome).
Qed.

Lemma main_invalid raw w :
  dev_mode raw = false ->
  validate_production_mode raw = false ->
  worker raw w
  = (Raise (SystemExit 1),
     log (Print (MsgParamError
                   (ContainerParamError (py "missing query parameters")))) w).
Proof.
  intros Hd Hv. unfold main. rewrite try_except_bind_first.
  unfold try_except, bind, from_env. now rewrite Hd, Hv.
Qed.

Lemma run_main raw w :
  run_worker raw w = (exit_code (fst (worker raw w)), snd (worker raw w)).
Proof. unfold run. now destruct (main _ _ _ raw w). Qed.

Lemma top_level_ok m w w' :
  m w = (Ok tt, w') -> top_level m w = (Ok tt, w').
Proof. unfold top_level, try_except. now intros ->. Qed.

Lemma top_level_raise m w e w' :
  m w = (Raise e, w') -> is_exception e = true ->
  top_level m w = (Raise (SystemExit 3), log (Print (MsgWorkerError e)) w').
Proof. unfold top_level, try_except. intros -> He. simpl. now rewrite He. Qed.

Lemma top_level_process_results_starts params w :
  engine_idle (log (Select (db_path params) chats_query) w)
              (snd (top_level (process_results params) w)).
Proof.
  pose proof (process_results_starts params w) as H1.
  unfold top_level, try_except.
  destruct (process_results params w) as [[[]|e] w1]; simpl in *; [exact H1|].
  etransitivity; [exact H1|].
  destruct (is_exception e); simpl; [|reflexivity].
  eexists [_]. now simpl.
Qed.

(** C7: [execute_query] returns [true] exactly when the outcome's
    success flag is true; when validation fails it returns [false] and
    leaves the world untouched (the engine is not contacted); in both
    cases the result is a returned boolean, never a raised exception. *)
Theorem execute_query_returns_success_flag params w :
  (validate_production_mode params = false ->
     execute params w = (Ok false, w))
  /\ (validate_production_mode params = true ->
      exists shown,
        execute params w
        = (Ok (success (fst (engine (request_of params) (dbs w)))),
           log (Print shown)
             (set_dbs (snd (engine (request_of params) (dbs w)))
                (log (EngineCall (request_of params))
                   (log (Print (MsgExecuting (query params))) w))))).
Proof.
  split.
  - apply execute_query_invalid.
  - intros Hv. destruct (engine (request_of params) (dbs w)) as [outcome dbs'] eqn:He.
    eexists. now rewrite (execute_query_valid params w outcome dbs' Hv He).
Qed.

(** C2: a production-mode configuration whose query text is missing
    makes the worker exit with code 1; nothing but the diagnostic is
    added to the trace, so the engine is not called, and no file is
    written. *)
Theorem missing_query_exits_1 raw w :
  dev_mode raw = false ->
  present (query raw) = false ->
  run_worker raw w
  = (1%Z,
     log (Print (MsgParamError
                   (ContainerParamError (py "missing query parameters")))) w)
  /\ files (snd (run_worker raw w)) = files w
  /\ filter is_engine_call (trace (snd (run_worker raw w)))
     = filter is_engine_call (trace w).
Proof.
  intros Hd Hq. rewrite run_main.
  rewrite (main_invalid raw w Hd (present_false_invalid raw Hq)). simpl.
  split; [reflexivity|]. split; [reflexivity|].
  rewrite filter_app. simpl. apply app_nil_r.
Qed.

(** C4 (amended): for a valid production configuration whose query the
    engine reports as failed, extraction does not run, no file is
    written, the exit code is 2, and the diagnostic message contains
    the error text and the status code when it is present and not 0. *)
Theorem failed_query_exits_2 raw w outcome dbs' :
  dev_mode raw = false ->
  validate_production_mode raw = true ->
  engine (request_of raw) (dbs w) = (outcome, dbs') ->
  success outcome = false ->
  run_worker raw w
  = (2%Z,
     log (Print (MsgQueryError (message_of outcome)))
       (set_dbs dbs'
          (log (EngineCall (request_of raw))
             (log (Print (MsgExecuting (query raw)))
                (log (Print (MsgParams raw)) w)))))
  /\ files (snd (run_worker raw w)) = files w
  /\ filter is_select (trace (snd (run_worker raw w)))
     = filter is_select (trace w)
  /\ (forall reason, error outcome = Some reason ->
        contains reason (message_of outcome))
  /\ (forall code, status_code outcome = Some code -> code <> 0%Z ->
        contains (str_int code) (message_of outcome)).
Proof.
  intros Hd Hv He Hs. rewrite run_main.
  rewrite (main_production raw w outcome dbs' Hd Hv He). simpl.
  rewrite Hs. simpl. split; [reflexivity|]. split; [reflexivity|].
  split.
  { rewrite !filter_app. simpl. now rewrite !app_nil_r. }
  unfold error_message. split.
  - intros reason Hr. rewrite Hr. simpl format_optional.
    assert (H0 : contains reason (py "Error executing query: " ++ reason)).
    { exists (py "Error executing query: "), []. now rewrite app_nil_r. }
    destruct (status_code outcome) as [c|]; [destruct (c =? 0)%Z|];
      destruct (data outcome) as [d|]; try destruct (payload_truthy d);
      repeat (first [exact H0 | apply contains_app_l]).
  - intros code Hc Hne. rewrite Hc.
    destruct (Z.eqb_spec code 0) as [?|_]; [contradiction|].
    assert (H0 : contains (str_int code)
                   ((py "Error executing query: " ++ format_optional (error outcome))
                    ++ py " (Status code: " ++ str_int code ++ py ")")).
    { exists ((py "Error executing query: " ++ format_optional (error outcome))
              ++ py " (Status code: "), (py ")").
      now rewrite <- !app_assoc. }
    destruct (data outcome) as [d|]; try destruct (payload_truthy d);
      first [exact H0 | apply contains_app_l; exact H0].
Qed.

(** C5: when the [results] table has no rows and every stage completes
    (development mode, or a production query the engine reports as
    successful; the chat query is answered; no file-system fault), the
    artifact holds exactly [{}] and the exit code is 0. *)
Theorem empty_results_write_empty_object raw w outcome dbs0 t rows :
  (dev_mode raw = true /\ dbs0 = dbs w
   \/ dev_mode raw = false /\ validate_production_mode raw = true
      /\ engine (request_of raw) (dbs w) = (outcome, dbs0)
      /\ success outcome = true) ->
  dbs0 !! db_path raw = Some t ->
  records t = [] ->
  fetchall t chats_query = Some rows ->
  fault w = NoFault ->
  fst (run_worker raw w) = 0%Z
  /\ files (snd (run_worker raw w)) = <[stats_path raw := py "{}"]> (files w).
Proof.
  intros Hmode Hdb Hrec Hf Hn.
  assert (rows = []) as ->.
  { unfold fetchall, limited in Hf. rewrite Hrec in Hf.
    destruct (forallb _ _); [|discriminate]. simpl in Hf. congruence. }
  assert (Hstage : forall w1, dbs w1 = dbs0 -> fault w1 = NoFault ->
            files w1 = files w ->
            exists w2, top_level (process_results raw) w1 = (Ok tt, w2)
                       /\ files w2 = <[stats_path raw := py "{}"]> (files w)).
  { intros w1 Hd1 Hn1 Hf1.
    assert (Hdb1 : dbs w1 !! db_path raw = Some t) by now rewrite Hd1.
    destruct (save_stats_to_json_complete [] (stats_path raw)
                (log (Print MsgNoneFound)
                   (log (Select (db_path raw) chats_query) w1)))
      as (w2 & Hsave & Hfiles & _); [exact Hn1 | reflexivity |].
    exists w2. split.
    - apply top_level_ok. unfold process_results.
      rewrite (bind_ok _ _ _ _ _ (get_submission_chats_empty _ _ _ Hdb1 Hf)).
      unfold bind at 1, print at 1. exact Hsave.
    - rewrite Hfiles. simpl. now rewrite Hf1. }
  rewrite run_main.
  destruct Hmode as [[Hd ->]|(Hd & Hv & He & Hs)].
  - rewrite (main_dev_mode raw w Hd).
    edestruct Hstage as (w2 & -> & Hfiles); [| | |split; [reflexivity|exact Hfiles]];
      [reflexivity | exact Hn | reflexivity].
  - rewrite (main_production raw w outcome dbs0 Hd Hv He). cbv zeta. rewrite Hs.
    edestruct Hstage as (w2 & -> & Hfiles); [| | |split; [reflexivity|exact Hfiles]];
      [reflexivity | exact Hn | reflexivity].
Qed.

(** C6: in development mode the query-execution stage does not run,
    whatever the engine would answer: after the three start-up lines
    the next event is the extraction's query, no engine call is ever
    logged, and the databases are the ones the run started with. *)
Theorem dev_mode_skips_query raw w :
  dev_mode raw = true ->
  exists more,
    trace (snd (run_worker raw w))
    = trace w
      ++ [Print (MsgParams raw); Print MsgDevMode;
          Print (MsgProcessing (db_path raw));
          Select (db_path raw) chats_query]
      ++ more
    /\ forallb (fun e => negb (is_engine_call e)) more = true
    /\ dbs (snd (run_worker raw w)) = dbs w.
Proof.
  intros Hd. rewrite run_main. simpl snd. rewrite (main_dev_mode raw w Hd).
  destruct (engine_idle_after_select _ _ _ _
              (top_level_process_results_starts raw
                 (log (Print (MsgProcessing (db_path raw)))
                    (log (Print MsgDevMode) (log (Print (MsgParams raw)) w)))))
    as (more & Ht & Hq & Hdbs).
  exists more. rewrite Ht, Hdbs. simpl. split; [|now split].
  now rewrite <- !app_assoc.
Qed.
End Driver.


(** ** Reading back what the encoder wrote *)

(** *** Hexadecimal escapes *)

Lemma lor_shiftl_add a k b : b < 2 ^ k -> N.lor (N.shiftl a k) b = a * 2 ^ k + b.
Proof.
  intros Hb.
  assert (Hdisj : N.land (N.shiftl a k) b = 0).
  { apply N.bits_inj. intros m. rewrite N.land_spec, N.bits_0.
    destruct (N.lt_ge_cases m k) as [Hlt|Hge].
    - now rewrite N.shiftl_spec_low.
    - destruct (N.eq_dec b 0) as [->|Hnz].
      + now rewrite N.bits_0, andb_false_r.
      + rewrite (N.bits_above_log2 b m), andb_false_r; [reflexivity|].
        apply N.log2_lt_pow2; [lia|].
        eapply N.lt_le_trans; [exact Hb|]. apply N.pow_le_mono_r; lia. }
  rewrite <- N.lxor_lor, <- N.add_nocarry_lxor by exact Hdisj.
  now rewrite N.shiftl_mul_pow2.
Qed.

Lemma land_low a k : N.land a (N.ones k) = a mod 2 ^ k.
Proof. apply N.land_ones. Qed.

Lemma unhex_hex_digit k : k < 16 -> unhex (hex_digit k) = Some k.
Proof.
  intros Hk. unfold hex_digit, unhex.
  destruct (N.ltb_spec k 10).
  - replace ((48 <=? 48 + k) && (48 + k <=? 57)) with true.
    + f_equal. lia.
    + symmetry. apply andb_true_iff. split; apply N.leb_le; lia.
  - replace ((48 <=? 87 + k) && (87 + k <=? 57)) with false.
    + replace ((97 <=? 87 + k) && (87 + k <=? 102)) with true.
      * f_equal. lia.
      * symmetry. apply andb_true_iff. split; apply N.leb_le; lia.
    + symmetry. apply andb_false_iff. right. apply N.leb_gt. lia.
Qed.

Lemma nibble_lt a : N.land a 15 < 16.
Proof.
  change 15 with (N.ones 4). rewrite N.land_ones.
  apply N.mod_upper_bound. discriminate.
Qed.

Lemma nibbles_join n :
  n < 65536 ->
  N.lor (N.shiftl (N.land (N.shiftr n 12) 15) 12)
    (N.lor (N.shiftl (N.land (N.shiftr n 8) 15) 8)
       (N.lor (N.shiftl (N.land (N.shiftr n 4) 15) 4) (N.land n 15))) = n.
Proof.
  intros Hn.
  pose proof (nibble_lt n) as H0.
  pose proof (nibble_lt (N.shiftr n 4)) as H1.
  pose proof (nibble_lt (N.shiftr n 8)) as H2.
  rewrite (lor_shiftl_add _ 4) by (change (2 ^ 4) with 16; exact H0).
  rewrite (lor_shiftl_add _ 8) by (change (2 ^ 8) with 256; change (2 ^ 4) with 16; lia).
  rewrite (lor_shiftl_add _ 12)
    by (change (2 ^ 12) with 4096; change (2 ^ 8) with 256;
        change (2 ^ 4) with 16; lia).
  change 15 with (N.ones 4). rewrite !N.land_ones, !N.shiftr_div_pow2.
  change (2 ^ 4) with 16. change (2 ^ 8) with 256. change (2 ^ 12) with 4096.
  pose proof (N.div_mod n 16 ltac:(discriminate)).
  pose proof (N.div_mod (n / 16) 16 ltac:(discriminate)).
  pose proof (N.div_mod (n / 256) 16 ltac:(discriminate)).
  pose proof (N.div_mod (n / 4096) 16 ltac:(discriminate)).
  pose proof (N.mod_upper_bound n 16 ltac:(discriminate)).
  pose proof (N.mod_upper_bound (n / 16) 16 ltac:(discriminate)).
  pose proof (N.mod_upper_bound (n / 256) 16 ltac:(discriminate)).
  pose proof (N.mod_upper_bound (n / 4096) 16 ltac:(discriminate)).
  assert (E1 : n / 256 = n / 16 / 16) by (rewrite N.Div0.div_div; reflexivity).
  assert (E2 : n / 4096 = n / 256 / 16) by (rewrite N.Div0.div_div; reflexivity).
  assert (n / 4096 < 16) by (apply N.Div0.div_lt_upper_bound; lia).
  assert (Hsmall : (n / 4096) mod 16 = n / 4096) by (apply N.mod_small; lia).
  lia.
Qed.

Lemma unhex4_hex4 n tail :
  n < 65536 ->
  match hex4 n ++ tail with
  | h1 :: h2 :: h3 :: h4 :: rest => unhex4 h1 h2 h3 h4 = Some n /\ rest = tail
  | _ => False
  end.
Proof.
  intros Hn. unfold hex4. simpl. split; [|reflexivity].
  unfold unhex4. rewrite !unhex_hex_digit by apply nibble_lt.
  now rewrite nibbles_join.
Qed.


(** *** Strings *)

Lemma scanstring_plain c s1 :
  c <> 34 -> 32 <= c -> c <> 92 ->
  scanstring (c :: s1) = push c (scanstring s1).
Proof.
  intros H34 H32 H92. cbn [scanstring].
  destruct (N.eqb_spec c 34); [contradiction|].
  destruct (N.ltb_spec c 32); [lia|].
  destruct (N.eqb_spec c 92); [contradiction|]. reflexivity.
Qed.

Lemma scanstring_u_eq h1 h2 h3 h4 s3 :
  scanstring (92 :: 117 :: h1 :: h2 :: h3 :: h4 :: s3)
  = match unhex4 h1 h2 h3 h4 with
    | None => None
    | Some uni =>
        match s3 with
        | b :: u :: s4 =>
            if (0xd800 <=? uni) && (uni <=? 0xdbff) && (b =? 92) && (u =? 117) then
              match s4 with
              | l1 :: l2 :: l3 :: l4 :: s5 =>
                  match unhex4 l1 l2 l3 l4 with
                  | None => None
                  | Some uni2 =>
                      if (0xdc00 <=? uni2) && (uni2 <=? 0xdfff) then
                        push (0x10000 + N.lor (N.shiftl (uni - 0xd800) 10)
                                              (uni2 - 0xdc00))
                             (scanstring s5)
                      else push uni (scanstring s3)
                  end
              | _ => None
              end
            else push uni (scanstring s3)
        | _ => push uni (scanstring s3)
        end
    end.
Proof. reflexivity. Qed.

Lemma scanstring_u h1 h2 h3 h4 s3 uni :
  unhex4 h1 h2 h3 h4 = Some uni ->
  uni < 0xd800 \/ 0xdbff < uni ->
  scanstring (92 :: 117 :: h1 :: h2 :: h3 :: h4 :: s3) = push uni (scanstring s3).
Proof.
  intros Hu Hr. rewrite scanstring_u_eq, Hu.
  assert (Hc : (0xd800 <=? uni) && (uni <=? 0xdbff) = false).
  { apply andb_false_iff. destruct Hr; [left; apply N.leb_gt | right; apply N.leb_gt]; lia. }
  destruct s3 as [|b [|u s4]]; try reflexivity.
  now rewrite Hc.
Qed.

Lemma scanstring_pair h1 h2 h3 h4 l1 l2 l3 l4 s5 uni uni2 :
  unhex4 h1 h2 h3 h4 = Some uni -> 0xd800 <= uni <= 0xdbff ->
  unhex4 l1 l2 l3 l4 = Some uni2 -> 0xdc00 <= uni2 <= 0xdfff ->
  scanstring (92 :: 117 :: h1 :: h2 :: h3 :: h4
              :: 92 :: 117 :: l1 :: l2 :: l3 :: l4 :: s5)
  = push (0x10000 + N.lor (N.shiftl (uni - 0xd800) 10) (uni2 - 0xdc00))
         (scanstring s5).
Proof.
  intros Hu Hr Hu2 Hr2. rewrite scanstring_u_eq, Hu, Hu2.
  replace ((0xd800 <=? uni) && (uni <=? 0xdbff)) with true
    by (symmetry; apply andb_true_iff; split; apply N.leb_le; lia).
  replace ((0xdc00 <=? uni2) && (uni2 <=? 0xdfff)) with true
    by (symmetry; apply andb_true_iff; split; apply N.leb_le; lia).
  reflexivity.
Qed.

Lemma unhex4_of_hex4 n :
  n < 65536 ->
  unhex4 (hex_digit (N.land (N.shiftr n 12) 15))
         (hex_digit (N.land (N.shiftr n 8) 15))
         (hex_digit (N.land (N.shiftr n 4) 15))
         (hex_digit (N.land n 15)) = Some n.
Proof.
  intros Hn. unfold unhex4. rewrite !unhex_hex_digit by apply nibble_lt.
  now rewrite nibbles_join.
Qed.

(** The two halves of a surrogate pair and the code point they rebuild. *)
Lemma surrogates_of c :
  0x10000 <= c < 0x110000 ->
  let n := c - 0x10000 in
  let s1 := N.lor 0xd800 (N.land (N.shiftr n 10) 0x3ff) in
  let s2 := N.lor 0xdc00 (N.land n 0x3ff) in
  0xd800 <= s1 <= 0xdbff /\ 0xdc00 <= s2 <= 0xdfff
  /\ 0x10000 + N.lor (N.shiftl (s1 - 0xd800) 10) (s2 - 0xdc00) = c.
Proof.
  intros Hc n s1 s2.
  assert (Hn : n < 0x100000) by (subst n; lia).
  pose proof (N.div_mod n 1024 ltac:(discriminate)) as Hdm.
  pose proof (N.mod_upper_bound n 1024 ltac:(discriminate)) as Hlo.
  assert (Hhi : n / 1024 < 1024) by (apply N.Div0.div_lt_upper_bound; lia).
  assert (E1 : s1 = 0xd800 + n / 1024).
  { subst s1. change 0x3ff with (N.ones 10).
    rewrite N.land_ones, N.shiftr_div_pow2. change (2 ^ 10) with 1024.
    rewrite (N.mod_small (n / 1024)) by exact Hhi.
    change 0xd800 with (N.shiftl 54 10).
    rewrite lor_shiftl_add by (change (2 ^ 10) with 1024; exact Hhi).
    reflexivity. }
  assert (E2 : s2 = 0xdc00 + n mod 1024).
  { subst s2. change 0x3ff with (N.ones 10).
    rewrite N.land_ones. change (2 ^ 10) with 1024.
    change 0xdc00 with (N.shiftl 55 10).
    rewrite lor_shiftl_add by (change (2 ^ 10) with 1024; exact Hlo).
    reflexivity. }
  rewrite E1, E2. clear E1 E2. clearbody s1 s2. clear s1 s2.
  assert (Hdef : n = c - 0x10000) by reflexivity. clearbody n.
  set (lo := n mod 1024) in *. set (hi := n / 1024) in *.
  replace (0xd800 + hi - 0xd800) with hi by (clearbody lo hi; lia).
  replace (0xdc00 + lo - 0xdc00) with lo by (clearbody lo hi; lia).
  rewrite lor_shiftl_add by (change (2 ^ 10) with 1024; exact Hlo).
  change (2 ^ 10) with 1024. clearbody lo hi. lia.
Qed.

Lemma scalar_value_range c :
  scalar_value c = true -> (c < 0xd800 \/ 0xdfff < c) /\ c < 0x110000.
Proof.
  unfold scalar_value. intros H. apply orb_true_iff in H as [H|H].
  - apply N.ltb_lt in H. lia.
  - apply andb_true_iff in H as [H1 H2].
    apply N.leb_le in H1. apply N.ltb_lt in H2. lia.
Qed.

(** One escaped character reads back as the character. *)
Lemma scanstring_escape_char c tail :
  scalar_value c = true ->
  scanstring (escape_char c ++ tail) = push c (scanstring tail).
Proof.
  intros Hc. apply scalar_value_range in Hc as [Hsur Hmax].
  unfold escape_char.
  destruct (N.eqb_spec c 92) as [->|H92]; [reflexivity|].
  destruct (N.eqb_spec c 34) as [->|H34]; [reflexivity|].
  destruct (N.eqb_spec c 8) as [->|H8]; [reflexivity|].
  destruct (N.eqb_spec c 12) as [->|H12]; [reflexivity|].
  destruct (N.eqb_spec c 10) as [->|H10]; [reflexivity|].
  destruct (N.eqb_spec c 13) as [->|H13]; [reflexivity|].
  destruct (N.eqb_spec c 9) as [->|H9]; [reflexivity|].
  destruct ((32 <=? c) && (c <=? 126)) eqn:Hp.
  { apply andb_true_iff in Hp as [Hp _]. apply N.leb_le in Hp.
    now apply scanstring_plain. }
  destruct (N.ltb_spec c 0x10000) as [Hb|Hb].
  - unfold hex4. cbn [app].
    apply scanstring_u; [now apply unhex4_of_hex4 | lia].
  - destruct (surrogates_of c (conj Hb Hmax)) as (Hs1 & Hs2 & Hjoin).
    cbv zeta in *.
    set (s1 := N.lor 0xd800 (N.land (N.shiftr (c - 0x10000) 10) 0x3ff)) in *.
    set (s2 := N.lor 0xdc00 (N.land (c - 0x10000) 0x3ff)) in *.
    clearbody s1 s2. unfold hex4. cbn [app].
    transitivity (push (0x10000 + N.lor (N.shiftl (s1 - 0xd800) 10) (s2 - 0xdc00))
                       (scanstring tail)); [|now rewrite Hjoin].
    apply scanstring_pair; try assumption; apply unhex4_of_hex4; lia.
Qed.

Lemma scanstring_escaped s tail :
  well_formed_text s = true ->
  scanstring (flat_map escape_char s ++ 34 :: tail) = Some (s, tail).
Proof.
  unfold well_formed_text. induction s as [|c s IH]; intros Hs.
  - reflexivity.
  - simpl in Hs. apply andb_true_iff in Hs as [Hc Hs].
    cbn [flat_map]. rewrite <- app_assoc, scanstring_escape_char by exact Hc.
    now rewrite IH.
Qed.

Lemma encode_str_app s tail :
  encode_str s ++ tail = 34 :: flat_map escape_char s ++ 34 :: tail.
Proof. unfold encode_str. simpl. now rewrite <- app_assoc. Qed.


(** *** Integers *)

Lemma scan_digits_uint d rest :
  ends_number rest -> scan_digits (uint_digits d ++ rest) = (d, rest).
Proof.
  intros Hrest.
  induction d; cbn [uint_digits app]; [|simpl; rewrite IHd; reflexivity ..].
  destruct rest as [|c rest]; [reflexivity|].
  destruct Hrest as [Hd _]. simpl. now rewrite Hd.
Qed.

Lemma to_uint_head p :
  exists c tl, uint_digits (Pos.to_uint p) = c :: tl /\ 49 <= c <= 57.
Proof.
  assert (Hn : unorm (Pos.to_uint p) = Pos.to_uint p).
  { rewrite <- DecimalPos.Unsigned.to_of, DecimalPos.Unsigned.of_to. reflexivity. }
  pose proof (DecimalPos.Unsigned.to_uint_nonzero p) as Hz.
  pose proof (DecimalPos.Unsigned.to_uint_nonnil p) as Hnil.
  destruct (Pos.to_uint p) as [|d|d|d|d|d|d|d|d|d|d];
    try (eexists _, _; split; [reflexivity | lia]).
  - contradiction.
  - exfalso. unfold unorm in Hn. simpl in Hn.
    destruct (nzhead d) eqn:Hh; try discriminate.
    + injection Hn as <-. now apply Hz.
    + injection Hn as ->. now apply nzhead_nonzero in Hh.
Qed.

Lemma scan_integer_uint d c tl rest :
  uint_digits d = c :: tl -> c <> 48 -> ends_number rest ->
  scan_integer (uint_digits d ++ rest) = Some (d, rest).
Proof.
  intros Hd Hc Hrest. unfold scan_integer.
  rewrite (scan_digits_uint d rest Hrest). rewrite Hd. cbn [app].
  destruct (N.eqb_spec c 48); [contradiction|].
  destruct d; [discriminate Hd | reflexivity ..].
Qed.

Lemma scan_number_str_int z rest :
  ends_number rest ->
  scan_number (str_int z ++ rest) = Some (JInt z, rest).
Proof.
  intros Hrest.
  assert (Hff : float_follows rest = false).
  { destruct rest; [reflexivity | apply Hrest]. }
  rewrite <- (DecimalZ.of_to z) at 2.
  unfold str_int. destruct z as [|p|p]; cbn [Z.to_int].
  - change (uint_digits zero) with [48]. simpl. now rewrite Hff.
  - destruct (to_uint_head p) as (c & tl & Hd & Hc).
    unfold scan_number.
    rewrite (scan_integer_uint _ c tl rest Hd ltac:(lia) Hrest).
    rewrite Hd. cbn [app].
    destruct (N.eqb_spec c 45); [lia|]. now rewrite Hff.
  - destruct (to_uint_head p) as (c & tl & Hd & Hc).
    unfold scan_number. cbn [app]. rewrite N.eqb_refl.
    rewrite (scan_integer_uint _ c tl rest Hd ltac:(lia) Hrest).
    now rewrite Hff.
Qed.

Lemma str_int_head z :
  exists c tl, str_int z = c :: tl /\ (c = 45 \/ 48 <= c <= 57).
Proof.
  unfold str_int. destruct z as [|p|p]; cbn [Z.to_int].
  - exists 48, []. split; [reflexivity | lia].
  - destruct (to_uint_head p) as (c & tl & Hd & Hc).
    exists c, tl. split; [exact Hd | lia].
  - eexists _, _. split; [reflexivity | now left].
Qed.

Lemma scan_once_number fuel c s :
  c = 45 \/ 48 <= c <= 57 ->
  scan_once (S fuel) (c :: s) = scan_number (c :: s).
Proof.
  intros Hc. cbn [scan_once].
  destruct (N.eqb_spec c 34); [lia|].
  destruct (N.eqb_spec c 123); [lia|].
  destruct (N.eqb_spec c 91); [lia|].
  destruct (N.eqb_spec c 110); [lia|].
  destruct (N.eqb_spec c 116); [lia|].
  destruct (N.eqb_spec c 102); [lia|]. reflexivity.
Qed.


(** *** Whitespace and scalars *)

Lemma skip_ws_newline_indent level s : skip_ws (newline_indent level ++ s) = skip_ws s.
Proof.
  unfold newline_indent. cbn [app skip_ws]. change (is_ws 10) with true. cbn iota.
  induction (4 * level)%nat as [|n IH]; [reflexivity|].
  cbn [repeat app skip_ws]. change (is_ws 32) with true. exact IH.
Qed.

Lemma skip_ws_head c s : is_ws c = false -> skip_ws (c :: s) = c :: s.
Proof. intros H. cbn [skip_ws]. now rewrite H. Qed.

Lemma is_ws_cases c : is_ws c = true -> c = 32 \/ c = 9 \/ c = 10 \/ c = 13.
Proof.
  unfold is_ws. intros H.
  repeat (apply orb_true_iff in H as [H|H]); apply N.eqb_eq in H; auto.
Qed.

(** A value never starts with whitespace. *)
Lemma scan_once_not_ws fuel s r : scan_once fuel s = Some r -> skip_ws s = s.
Proof.
  destruct s as [|c s]; [reflexivity|]. intros H.
  destruct (is_ws c) eqn:Hc; [|now apply skip_ws_head].
  destruct fuel; [discriminate H|].
  apply is_ws_cases in Hc as [->|[->|[->| ->]]]; discriminate H.
Qed.

Lemma scan_once_quote fuel s :
  scan_once (S fuel) (34 :: s)
  = match scanstring s with
    | Some (t, rest) => Some (JStr t, rest)
    | None => None
    end.
Proof. reflexivity. Qed.

Lemma scan_once_brace fuel s :
  scan_once (S fuel) (123 :: s)
  = match skip_ws s with
    | [] => None
    | c1 :: s1 =>
        if c1 =? 125 then Some (JObj [], s1)
        else
          match scan_members fuel (c1 :: s1) with
          | Some (pairs, rest) => Some (JObj (dict_of_items pairs), rest)
          | None => None
          end
    end.
Proof. reflexivity. Qed.

Lemma scan_members_quote fuel s :
  scan_members (S fuel) (34 :: s)
  = match scanstring s with
    | None => None
    | Some (key, s1) =>
        match skip_ws s1 with
        | [] => None
        | colon :: s2 =>
            if negb (colon =? 58) then None
            else
              match scan_once fuel (skip_ws s2) with
              | None => None
              | Some (value, s3) =>
                  match skip_ws s3 with
                  | [] => None
                  | c :: s4 =>
                      if c =? 125 then Some ([(key, value)], s4)
                      else if c =? 44 then
                        match scan_members fuel (skip_ws s4) with
                        | Some (pairs, rest) => Some ((key, value) :: pairs, rest)
                        | None => None
                        end
                      else None
                  end
              end
        end
    end.
Proof. reflexivity. Qed.

Lemma uint_digits_well_formed d : well_formed_text (uint_digits d) = true.
Proof. induction d; simpl; auto. Qed.

Lemma str_int_well_formed z : well_formed_text (str_int z) = true.
Proof.
  unfold str_int. destruct (Z.to_int z); simpl; apply uint_digits_well_formed.
Qed.

(** A serialized scalar reads back as the scalar. *)
Lemma scalar_reads_back v rest fuel :
  jsonable_value v = true -> ends_number rest -> (1 <= fuel)%nat ->
  scan_once fuel (concat (fst (iterencode_scalar v)) ++ rest)
  = Some (json_of_sqlval v, rest).
Proof.
  intros Hv Hrest Hfuel. destruct fuel as [|fuel]; [lia|].
  destruct v as [|z|s|b]; cbn [iterencode_scalar fst concat json_of_sqlval];
    rewrite ?app_nil_r.
  - reflexivity.
  - destruct (str_int_head z) as (c & tl & Hz & Hc).
    rewrite Hz. cbn [app]. rewrite (scan_once_number fuel c _ Hc).
    change (c :: tl ++ rest) with ((c :: tl) ++ rest). rewrite <- Hz.
    now apply scan_number_str_int.
  - rewrite encode_str_app, scan_once_quote.
    now rewrite scanstring_escaped.
  - discriminate Hv.
Qed.

Lemma key_text_well_formed k kt :
  jsonable_value k = true -> key_text k = Some kt -> well_formed_text kt = true.
Proof.
  destruct k; simpl; intros Hk [= <-]; try reflexivity; try exact Hk.
  apply str_int_well_formed.
Qed.

Lemma key_text_jsonable k : jsonable_value k = true -> exists kt, key_text k = Some kt.
Proof. destruct k; simpl; eauto. discriminate. Qed.


(** *** Objects *)

Section Members.
Context {K V : Type}.
Variable key_of : K -> option text.
Variable encode_value : nat -> V -> chunks.
Variable to_json : V -> json.

Local Abbreviation good := (good_item key_of encode_value to_json).
Local Abbreviation member := (member_of key_of to_json).

Local Abbreviation items_text level first items :=
  (concat (fst (iterencode_items key_of encode_value level first items))).

Lemma iterencode_items_ok level first items :
  Forall (good level) items ->
  snd (iterencode_items key_of encode_value level first items) = None.
Proof.
  intros Hgood. revert first.
  induction Hgood as [|[k v] items [(kt & Hk & _) [Hv _]] _ IH]; intros first.
  - reflexivity.
  - cbn [iterencode_items]. simpl in Hk, Hv. rewrite Hk.
    destruct (encode_value level v) as [cs e]. simpl in Hv. subst e.
    specialize (IH false).
    now destruct (iterencode_items key_of encode_value level false items).
Qed.

Lemma items_text_cons level first k v items kt :
  key_of k = Some kt -> snd (encode_value level v) = None ->
  items_text level first ((k, v) :: items)
  = (if first then [] else 44 :: newline_indent level)
    ++ encode_str kt ++ py ": " ++ concat (fst (encode_value level v))
    ++ items_text level false items.
Proof.
  intros Hk Hv. cbn [iterencode_items]. rewrite Hk.
  destruct (encode_value level v) as [cs e]. simpl in Hv. subst e.
  destruct (iterencode_items key_of encode_value level false items) as [cs' e'].
  cbn [fst]. destruct first; cbn [app concat];
    rewrite ?concat_app; cbn [concat]; rewrite ?app_nil_r, <- ?app_assoc;
    reflexivity.
Qed.

Lemma ends_number_items level items outer tail :
  Forall (good level) items ->
  ends_number (items_text level false items ++ newline_indent outer ++ 125 :: tail).
Proof.
  intros Hgood. destruct Hgood as [|[k v] items [(kt & Hk & _) [Hv _]] _].
  - simpl. auto.
  - simpl in Hk, Hv. rewrite (items_text_cons level false k v items kt Hk Hv).
    simpl. auto.
Qed.

Lemma scan_members_items level outer items tail fuel :
  Forall (good level) items -> items <> [] ->
  (length (items_text level true items) <= fuel)%nat ->
  scan_members fuel
    (items_text level true items ++ newline_indent outer ++ 125 :: tail)
  = Some (map member items, tail).
Proof.
  intros Hgood. revert fuel.
  induction Hgood as [|[k v] items Hitem Hrest IH]; intros fuel Hne Hlen;
    [contradiction|].
  pose proof Hitem as [(kt & Hk & Hwf) [Hv Hscan]]. simpl in Hk, Hv, Hscan.
  rewrite (items_text_cons level true k v items kt Hk Hv) in Hlen |- *.
  cbn [app] in Hlen |- *. rewrite !length_app in Hlen.
  unfold encode_str in Hlen. cbn [length] in Hlen.
  rewrite length_app in Hlen. cbn [length] in Hlen.
  destruct fuel as [|fuel]; [lia|].
  rewrite <- !app_assoc, encode_str_app, scan_members_quote.
  rewrite (scanstring_escaped kt _ Hwf).
  change (py ": ") with [58; 32]. cbn [app].
  rewrite (skip_ws_head 58) by reflexivity.
  change (negb (58 =? 58)) with false. cbn iota.
  cbn [skip_ws]. change (is_ws 32) with true. cbn iota.
  assert (Hval : scan_once fuel
                   (concat (fst (encode_value level v))
                    ++ items_text level false items
                    ++ newline_indent outer ++ 125 :: tail)
                 = Some (to_json v,
                         items_text level false items
                         ++ newline_indent outer ++ 125 :: tail)).
  { apply Hscan; [now apply ends_number_items | lia]. }
  rewrite (scan_once_not_ws _ _ _ Hval), Hval.
  unfold member_of at 1. cbn [map fst snd]. rewrite Hk. cbn [default from_option].
  destruct items as [|[k' v'] items'].
  - cbn [iterencode_items fst concat app].
    rewrite (skip_ws_newline_indent outer (125 :: tail)).
    rewrite (skip_ws_head 125) by reflexivity. reflexivity.
  - inversion Hrest as [|? ? [(kt' & Hk' & Hwf') [Hv' _]] _]; subst.
    simpl in Hk', Hv'.
    assert (Hstart : exists body,
               items_text level true ((k', v') :: items') = 34 :: body).
    { rewrite (items_text_cons level true k' v' items' kt' Hk' Hv').
      unfold encode_str. cbn [app]. eauto. }
    destruct Hstart as (body & Hbody).
    assert (Hsplit : items_text level false ((k', v') :: items')
                     = 44 :: newline_indent level
                       ++ items_text level true ((k', v') :: items')).
    { rewrite (items_text_cons level false k' v' items' kt' Hk' Hv').
      rewrite (items_text_cons level true k' v' items' kt' Hk' Hv').
      reflexivity. }
    rewrite Hsplit in Hlen |- *. cbn [app length] in Hlen |- *.
    rewrite !length_app in Hlen.
    rewrite (skip_ws_head 44) by reflexivity.
    change (44 =? 125) with false. change (44 =? 44) with true. cbn iota.
    rewrite <- app_assoc, skip_ws_newline_indent.
    rewrite Hbody. cbn [app]. rewrite (skip_ws_head 34) by reflexivity.
    change (34 :: body ++ newline_indent outer ++ 125 :: tail)
      with ((34 :: body) ++ newline_indent outer ++ 125 :: tail).
    rewrite <- Hbody.
    rewrite IH; [reflexivity | discriminate | lia].
Qed.

Local Abbreviation dict_text level dct :=
  (concat (fst (iterencode_dict key_of encode_value level dct))).

Lemma iterencode_dict_ok level dct :
  Forall (good (S level)) dct ->
  snd (iterencode_dict key_of encode_value level dct) = None.
Proof.
  intros Hgood. unfold iterencode_dict. destruct dct as [|item dct]; [reflexivity|].
  pose proof (iterencode_items_ok (S level) true (item :: dct) Hgood) as Hok.
  destruct (iterencode_items key_of encode_value (S level) true (item :: dct))
    as [cs e]. simpl in Hok. now subst e.
Qed.

Lemma dict_text_nonempty level item dct :
  Forall (good (S level)) (item :: dct) ->
  dict_text level (item :: dct)
  = 123 :: newline_indent (S level)
    ++ items_text (S level) true (item :: dct)
    ++ newline_indent level ++ [125].
Proof.
  intros Hgood. unfold iterencode_dict.
  pose proof (iterencode_items_ok (S level) true (item :: dct) Hgood) as Hok.
  destruct (iterencode_items key_of encode_value (S level) true (item :: dct))
    as [cs e]. simpl in Hok. subst e. cbn [fst concat].
  change (py "{") with [123]. cbn [app].
  rewrite concat_app. cbn [concat]. change (py "}") with [125].
  now rewrite app_nil_r.
Qed.

(** A serialized dictionary scans back as the object of its members. *)
Lemma scan_once_dict level dct tail fuel :
  Forall (good (S level)) dct ->
  (length (dict_text level dct) <= fuel)%nat ->
  scan_once fuel (dict_text level dct ++ tail)
  = Some (JObj (dict_of_items (map member dct)), tail).
Proof.
  intros Hgood Hlen. destruct dct as [|item dct].
  - destruct fuel as [|fuel]; [simpl in Hlen; lia | reflexivity].
  - rewrite (dict_text_nonempty level item dct Hgood) in Hlen |- *.
    cbn [app length] in Hlen |- *. rewrite !length_app in Hlen.
    destruct fuel as [|fuel]; [lia|].
    rewrite scan_once_brace.
    rewrite <- !app_assoc, skip_ws_newline_indent. cbn [app].
    pose proof (scan_members_items (S level) level (item :: dct) tail fuel
                  Hgood ltac:(discriminate) ltac:(lia)) as Hm.
    assert (Hstart : exists body,
               items_text (S level) true (item :: dct) = 34 :: body).
    { destruct item as [k v].
      inversion Hgood as [|? ? [(kt & Hk & _) [Hv _]] _]; subst.
      simpl in Hk, Hv.
      rewrite (items_text_cons (S level) true k v dct kt Hk Hv).
      unfold encode_str. cbn [app]. eauto. }
    destruct Hstart as (body & Hbody).
    rewrite Hbody in Hm |- *. cbn [app] in Hm |- *.
    rewrite (skip_ws_head 34) by reflexivity.
    change (34 =? 125) with false. cbn iota.
    now rewrite Hm.
Qed.
End Members.


(** *** Rows and datasets *)

Lemma scalar_text_nonempty v :
  jsonable_value v = true ->
  (1 <= length (concat (fst (iterencode_scalar v))))%nat.
Proof.
  destruct v as [|z|s|b]; cbn [iterencode_scalar fst concat]; intros Hv;
    rewrite ?app_nil_r.
  - simpl. lia.
  - destruct (str_int_head z) as (c & tl & -> & _). simpl. lia.
  - unfold encode_str. simpl. lia.
  - discriminate.
Qed.

Lemma scalar_good level (cv : text * sqlval) :
  well_formed_text (fst cv) && jsonable_value (snd cv) = true ->
  good_item Some (fun _ => iterencode_scalar) json_of_sqlval level cv.
Proof.
  intros H. apply andb_true_iff in H as [Hc Hv]. split; [eauto|].
  split.
  - destruct (snd cv); try reflexivity. discriminate Hv.
  - intros rest fuel Hrest Hlen. apply scalar_reads_back; try assumption.
    pose proof (scalar_text_nonempty (snd cv) Hv). lia.
Qed.

Lemma row_good_items level r :
  jsonable_row r = true ->
  Forall (good_item Some (fun _ => iterencode_scalar) json_of_sqlval level) r.
Proof.
  unfold jsonable_row. intros H. apply Forall_forall. intros cv Hin.
  apply scalar_good. rewrite forallb_forall in H. apply H.
  now apply list_elem_of_In.
Qed.

Lemma row_members r :
  NoDup (map fst r) ->
  JObj (dict_of_items (map (member_of Some json_of_sqlval) r)) = json_of_row r.
Proof.
  intros Hnd. unfold json_of_row. f_equal.
  rewrite dict_of_items_NoDup; [reflexivity|].
  rewrite map_map. exact Hnd.
Qed.

Lemma row_reads_back level r :
  jsonable_row r = true -> NoDup (map fst r) ->
  reads_back iterencode_row json_of_row level r.
Proof.
  intros Hr Hnd. unfold iterencode_row. split.
  - apply iterencode_dict_ok with (to_json := json_of_sqlval).
    now apply row_good_items.
  - intros rest fuel _ Hlen.
    rewrite (scan_once_dict Some (fun _ => iterencode_scalar) json_of_sqlval
               level r rest fuel (row_good_items (S level) r Hr) Hlen).
    now rewrite row_members.
Qed.

Lemma dataset_good_items data :
  jsonable data = true ->
  Forall (fun kr => NoDup (map fst (snd kr))) data ->
  Forall (good_item key_text iterencode_row json_of_row 1) data.
Proof.
  unfold jsonable. intros H Hrows. rewrite forallb_forall in H.
  apply Forall_forall. intros [k r] Hin.
  rewrite Forall_forall in Hrows.
  specialize (H (k, r) (proj1 (list_elem_of_In _ _) Hin)).
  apply andb_true_iff in H as [Hk Hr]. simpl in Hk, Hr.
  split.
  - destruct (key_text_jsonable k Hk) as (kt & Hkt).
    exists kt. split; [exact Hkt|]. now apply (key_text_well_formed k).
  - apply row_reads_back; [exact Hr | exact (Hrows (k, r) Hin)].
Qed.

Lemma iterencode_jsonable data :
  jsonable data = true ->
  Forall (fun kr => NoDup (map fst (snd kr))) data ->
  snd (iterencode data) = None.
Proof.
  intros Hj Hrows. unfold iterencode.
  apply iterencode_dict_ok with (to_json := json_of_row).
  now apply dataset_good_items.
Qed.

(** The complete serialization parses back to the dataset with its keys
    in text form. *)
Lemma loads_dumps data :
  jsonable data = true -> distinct_keys data ->
  loads (dumps data) = Some (json_of_dataset data).
Proof.
  intros Hj [Hkeys Hrows].
  pose proof (scan_once_dict key_text iterencode_row json_of_row 0 data []
                (S (length (dumps data)))
                (dataset_good_items data Hj Hrows)) as Hscan.
  fold (iterencode data) in Hscan. fold (dumps data) in Hscan.
  rewrite app_nil_r in Hscan. specialize (Hscan ltac:(lia)).
  unfold loads. rewrite (scan_once_not_ws _ _ _ Hscan), Hscan. simpl.
  unfold json_of_dataset. do 2 f_equal.
  apply dict_of_items_NoDup. rewrite map_map. exact Hkeys.
Qed.

(** X17: for a dataset whose keys and cells are [None], [int] or [str]
    and whose keys stay distinct as member names, [save_stats_to_json]
    succeeds when the file system does not fail, and leaves a file whose
    text parses back to the in-memory mapping with its keys in text
    form. *)
Theorem artifact_round_trip data path w :
  fault w = NoFault ->
  jsonable data = true ->
  distinct_keys data ->
  exists w',
    save_stats_to_json data path w = (Ok tt, w')
    /\ files w' !! path = Some (dumps data)
    /\ loads (dumps data) = Some (json_of_dataset data).
Proof.
  intros Hn Hj Hd.
  destruct (save_stats_to_json_complete data path w Hn
              (iterencode_jsonable data Hj (proj2 Hd))) as (w' & Hsave & Hf & _).
  exists w'. split; [exact Hsave|]. split.
  - rewrite Hf. apply lookup_insert_eq.
  - now apply loads_dumps.
Qed.


(** ** The statements at sample inputs *)

Lemma chat_extraction_fails_on_rows_witness :
  get_submission_chats (db_path sample_development)
    (sample_world (chats_table one_chat) None NoFault)
  = (Raise (KeyError (py "SubmissionChatID")),
     log (Print (MsgErrorQuerying (KeyError (py "SubmissionChatID"))))
       (log (Select (db_path sample_development) chats_query)
          (sample_world (chats_table one_chat) None NoFault))).
Proof.
  apply (chat_extraction_fails_on_rows (db_path sample_development)
           (sample_world (chats_table one_chat) None NoFault)
           (chats_table one_chat)
           (default [] (fetchall (chats_table one_chat) chats_query))).
  - vm_compute. reflexivity.
  - vm_compute. reflexivity.
  - vm_compute. discriminate.
Defined.

(** The whole run on a table with one chat: exit code 3, no artifact. *)
Example one_chat_run_exits_3 :
  let r := run unit_truthy unit_dumps idle_engine sample_development
             (sample_world (chats_table one_chat) None NoFault) in
  fst r = 3%Z /\ files (snd r) = ∅.
Proof. vm_compute. split; reflexivity. Qed.

Lemma missing_query_exits_1_witness :
  fst (run unit_truthy unit_dumps idle_engine sample_missing_query
         (sample_world (chats_table one_chat) None NoFault)) = 1%Z.
Proof.
  destruct (missing_query_exits_1 unit_truthy unit_dumps idle_engine
              sample_missing_query
              (sample_world (chats_table one_chat) None NoFault)
              eq_refl eq_refl) as [Hrun _].
  now rewrite Hrun.
Defined.

(** C4 (as stated) fails: a status code that is present but 0 is left
    out of the diagnostic message. *)
Lemma zero_status_code_not_reported :
  let r := run unit_truthy unit_dumps (timeout_engine (Some 0%Z))
             sample_production
             (sample_world (chats_table one_chat) None NoFault) in
  fst r = 2%Z
  /\ last (trace (snd r))
     = Some (Print (MsgQueryError (py "Error executing query: timeout")))
  /\ ~ contains (str_int 0) (py "Error executing query: timeout").
Proof.
  split; [vm_compute; reflexivity|]. split; [vm_compute; reflexivity|].
  intros Hc. pose proof (contains_In _ _ 48 Hc (or_introl eq_refl)) as Hin.
  vm_compute in Hin. intuition discriminate.
Qed.

Lemma failed_query_exits_2_witness :
  fst (run unit_truthy unit_dumps (timeout_engine (Some 504%Z)) sample_production
         (sample_world (chats_table one_chat) None NoFault)) = 2%Z
  /\ contains (py "timeout")
       (error_message unit_truthy unit_dumps
          (fst (timeout_engine (Some 504%Z) (request_of sample_production) ∅)))
  /\ contains (py "504")
       (error_message unit_truthy unit_dumps
          (fst (timeout_engine (Some 504%Z) (request_of sample_production) ∅))).
Proof.
  destruct (failed_query_exits_2 unit_truthy unit_dumps
              (timeout_engine (Some 504%Z)) sample_production
              (sample_world (chats_table one_chat) None NoFault)
              _ _ eq_refl eq_refl eq_refl eq_refl)
    as (Hrun & _ & _ & Herr & Hcode).
  split; [now rewrite Hrun|]. split.
  - apply Herr. reflexivity.
  - apply (Hcode 504%Z); [reflexivity | discriminate].
Defined.

Lemma empty_results_write_empty_object_witness :
  fst (run unit_truthy unit_dumps idle_engine sample_production
         (sample_world (chats_table []) (Some (py "previous")) NoFault)) = 0%Z
  /\ files (snd (run unit_truthy unit_dumps idle_engine sample_production
                   (sample_world (chats_table []) (Some (py "previous")) NoFault)))
     !! stats_path sample_production = Some (py "{}").
Proof.
  destruct (empty_results_write_empty_object unit_truthy unit_dumps idle_engine
              sample_production
              (sample_world (chats_table []) (Some (py "previous")) NoFault)
              (fst (idle_engine (request_of sample_production) ∅))
              {[ db_path sample_production := chats_table [] ]}
              (chats_table []) [])
    as [Hcode Hfiles].
  - right. repeat split; reflexivity.
  - vm_compute. reflexivity.
  - reflexivity.
  - vm_compute. reflexivity.
  - reflexivity.
  - split; [exact Hcode|]. rewrite Hfiles. apply lookup_insert_eq.
Defined.

Lemma dev_mode_skips_query_witness :
  exists more,
    trace (snd (run unit_truthy unit_dumps (timeout_engine None) sample_development
                  (sample_world (chats_table []) None NoFault)))
    = [ Print (MsgParams sample_development); Print MsgDevMode;
        Print (MsgProcessing (db_path sample_development));
        Select (db_path sample_development) chats_query ] ++ more
    /\ forallb (fun e => negb (is_engine_call e)) more = true.
Proof.
  destruct (dev_mode_skips_query unit_truthy unit_dumps (timeout_engine None)
              sample_development
              (sample_world (chats_table []) None NoFault) eq_refl)
    as (more & Ht & Hq & _).
  exists more. split; [exact Ht | exact Hq].
Defined.

Lemma execute_query_returns_success_flag_witness :
  fst (execute_query unit_truthy unit_dumps (timeout_engine (Some 504%Z))
         sample_production (sample_world (chats_table []) None NoFault))
  = Ok false
  /\ execute_query unit_truthy unit_dumps idle_engine sample_missing_query
       (sample_world (chats_table []) None NoFault)
     = (Ok false, sample_world (chats_table []) None NoFault).
Proof.
  split.
  - destruct (proj2 (execute_query_returns_success_flag unit_truthy unit_dumps
                       (timeout_engine (Some 504%Z)) sample_production
                       (sample_world (chats_table []) None NoFault)) eq_refl)
      as (shown & Hrun).
    now rewrite Hrun.
  - apply (proj1 (execute_query_returns_success_flag unit_truthy unit_dumps
                    idle_engine sample_missing_query
                    (sample_world (chats_table []) None NoFault))).
    reflexivity.
Defined.

Lemma messages_keyed_by_position_witness :
  fst (get_chat_messages (db_path sample_development)
         (sample_world (messages_table two_senders) None NoFault))
  = Ok [ (VText (py "0"), [(py "SenderID", VInt 1001)]);
         (VText (py "1"), [(py "SenderID", VText (py "u-17"))]) ].
Proof.
  destruct (messages_keyed_by_position (db_path sample_development)
              (sample_world (messages_table two_senders) None NoFault)
              (messages_table two_senders)
              (default [] (fetchall (messages_table two_senders) messages_query)))
    as (Hrun & _).
  - vm_compute. reflexivity.
  - vm_compute. reflexivity.
  - rewrite Hrun. vm_compute. reflexivity.
Defined.

Lemma artifact_round_trip_witness :
  exists w',
    save_stats_to_json dataset_plain (stats_path sample_development)
      (sample_world (chats_table []) (Some (py "previous")) NoFault) = (Ok tt, w')
    /\ files w' !! stats_path sample_development = Some (dumps dataset_plain)
    /\ loads (dumps dataset_plain) = Some (json_of_dataset dataset_plain).
Proof.
  apply (artifact_round_trip dataset_plain (stats_path sample_development)
           (sample_world (chats_table []) (Some (py "previous")) NoFault)).
  - reflexivity.
  - vm_compute. reflexivity.
  - split.
    + vm_compute. repeat constructor; rewrite ?list_elem_of_In; simpl;
        intuition discriminate.
    + repeat constructor; rewrite ?list_elem_of_In; simpl; intuition discriminate.
Defined.

Lemma shared_keys_last_row_wins_except_chat_witness :
  (exists d,
     fst (extract BySubmission (db_path sample_development)
            (sample_world (submissions_table two_submissions_one_id) None NoFault))
     = Ok d
     /\ dict_get (VInt 41) d
        = Some [ (py "SubmissionID", VInt 41); (py "UserID", VInt 8);
                 (py "SubmissionDate", VText (py "2024-05-03"));
                 (py "SubmissionReference", VText (py "ref-b")) ])
  /\ fst (extract ByChat (db_path sample_development)
            (sample_world (chats_table two_chats_one_id) None NoFault))
     = Raise (KeyError (py "SubmissionChatID")).
Proof.
  split.
  - destruct (proj1 (shared_keys_last_row_wins_except_chat
                       (db_path sample_development)
                       (sample_world (submissions_table two_submissions_one_id)
                          None NoFault)
                       (submissions_table two_submissions_one_id) eq_refl)
                BySubmission
                (default [] (fetchall (submissions_table two_submissions_one_id)
                               submissions_query)))
      as (d & Hrun & Hget).
    + discriminate.
    + vm_compute. repeat constructor; rewrite ?list_elem_of_In; simpl;
        intuition discriminate.
    + vm_compute. reflexivity.
    + vm_compute. reflexivity.
    + exists d. split; [now rewrite Hrun|]. rewrite Hget. vm_compute. reflexivity.
  - rewrite (proj2 (shared_keys_last_row_wins_except_chat
                      (db_path sample_development)
                      (sample_world (chats_table two_chats_one_id) None NoFault)
                      (chats_table two_chats_one_id) eq_refl)
               (default [] (fetchall (chats_table two_chats_one_id) chats_query))).
    + reflexivity.
    + vm_compute. reflexivity.
    + vm_compute. discriminate.
Defined.

(** * Further properties *)

(** ** Reading the table *)






(** ** Failing queries and missing keys *)

Lemma sql_fetchall_refused db q w :
  (dbs w !! db = None
   \/ exists t, dbs w !! db = Some t /\ fetchall t q = None) ->
  exists msg,
    sql_fetchall db q w
    = (Raise (SqliteError msg), log (Select db q) (connect db w)).
Proof.
  unfold sql_fetchall. intros [->|(t & -> & ->)]; eauto.
Qed.

Lemma reporting_bind_refused {B} db q (k : list row -> M B) w
    (body := (rows <- sql_fetchall db q ;; k rows)) :
  (dbs w !! db = None
   \/ exists t, dbs w !! db = Some t /\ fetchall t q = None) ->
  exists msg,
    reporting body w
    = (Raise (SqliteError msg),
       log (Print (MsgSqliteError (SqliteError msg)))
         (log (Select db q) (connect db w))).
Proof.
  intros Href. destruct (sql_fetchall_refused db q w Href) as (msg & Hq).
  exists msg. apply reporting_sqlite. subst body.
  now rewrite (bind_raise _ _ _ _ _ Hq).
Qed.

(** X2: when the database has no [results] table, or no column of the
    table answers to a name the strategy selects (in any case of the
    letters), the extraction raises the [sqlite3.Error] unchanged after
    printing it once as an SQLite error (not as a generic one). Nothing
    else happens, except that connecting creates the database file,
    empty, when nothing exists at its path. *)
Theorem refused_query_is_reported_and_reraised s db w :
  (dbs w !! db = None
   \/ exists t, dbs w !! db = Some t /\ fetchall t (strategy_query s) = None) ->
  exists msg,
    extract s db w
    = (Raise (SqliteError msg),
       log (Print (MsgSqliteError (SqliteError msg)))
         (log (Select db (strategy_query s)) (connect db w))).
Proof.
  intros Href. rewrite extract_unfold. now apply reporting_bind_refused.
Qed.

(** X3: [get_chat_messages] raises the [sqlite3.Error] unchanged, after
    printing it once as an SQLite error, when the database has no
    [results] table or no column of the table answers to [SenderID];
    [get_data] does so when the table is missing (it selects every
    column there is, so no column can be missing). In both, connecting
    creates the database file, empty, when nothing exists at its
    path. *)
Theorem refused_sample_and_dump db w :
  ((dbs w !! db = None
    \/ exists t, dbs w !! db = Some t /\ fetchall t messages_query = None) ->
   exists msg,
     get_chat_messages db w
     = (Raise (SqliteError msg),
        log (Print (MsgSqliteError (SqliteError msg)))
          (log (Select db messages_query) (connect db w))))
  /\ (dbs w !! db = None ->
      exists msg,
        get_data db w
        = (Raise (SqliteError msg),
           log (Print (MsgSqliteError (SqliteError msg)))
             (log (Select db users_query) (connect db w)))).
Proof.
  split.
  - intros Href. unfold get_chat_messages. now apply reporting_bind_refused.
  - intros Hnone. unfold get_data. apply reporting_bind_refused. now left.
Qed.


(** ** The submission strategy always keys its rows *)

Lemma dict_set_length {K V} `{EqDecision K} (k : K) (v : V) d :
  (length (dict_set k v d) <= S (length d))%nat.
Proof.
  induction d as [|[k' v'] d IH]; simpl; [lia|].
  destruct (decide (k = k')); simpl; lia.
Qed.

Lemma collect_by_length key rows d0 w d w' :
  for_each rows
    (fun d r =>
       let row_dict := dict_of_items r in
       key <- getitem row_dict key ;;
       ret (dict_set key row_dict d)) d0 w = (Ok d, w') ->
  (length d <= length d0 + length rows)%nat.
Proof.
  revert d0 w. induction rows as [|r rows IH]; intros d0 w; simpl.
  - intros [= <- _]. lia.
  - unfold bind at 1. unfold bind at 1. unfold getitem.
    destruct (dict_get key (dict_of_items r)) as [kv|]; simpl; [|discriminate].
    intros Hrun. apply IH in Hrun.
    pose proof (dict_set_length kv (dict_of_items r) d0). lia.
Qed.

Lemma last_with_key_is_Some key k rows :
  is_Some (last_with_key key k rows)
  <-> exists r, In r rows /\ dict_get key (dict_of_items r) = Some k.
Proof.
  induction rows as [|r rows IH]; simpl.
  - split; [intros [? ?]; discriminate | intros (? & [] & _)].
  - destruct (last_with_key key k rows) as [found|].
    + split; [|eauto]. intros _.
      destruct (proj1 IH ltac:(eauto)) as (r' & Hin & Hk). eauto.
    + destruct (decide (dict_get key (dict_of_items r) = Some k)) as [Hk|Hk].
      * split; eauto.
      * split; [intros [? ?]; discriminate|].
        intros (r' & [<-|Hin] & Hk'); [contradiction|].
        destruct (proj2 IH ltac:(eauto)) as [? ?]. discriminate.
Qed.

Lemma column_index_lt c cols i :
  column_index c cols = Some i -> (i < length cols)%nat.
Proof.
  revert i. induction cols as [|c' cols IH]; intros i; simpl; [discriminate|].
  destruct (same_name c c'); [intros [= <-]; lia|].
  destruct (column_index c cols) as [j|]; [|discriminate].
  intros [= <-]. specialize (IH j eq_refl). lia.
Qed.

(** The declared name of a column that answers is a name of the table. *)
Lemma declared_name_has_column t c :
  knows_column t c = true -> has_column t (declared_name t c) = true.
Proof.
  unfold knows_column, declared_name, has_column.
  destruct (column_index c (columns t)) as [i|] eqn:E; [|discriminate].
  intros _. apply bool_decide_eq_true, list_elem_of_In, nth_In.
  now apply column_index_lt in E.
Qed.

Lemma submission_row_lacks_key t rows r :
  has_column t (py "SubmissionID") = false ->
  fetchall t submissions_query = Some rows -> In r rows ->
  dict_get (py "SubmissionID") (dict_of_items r) = None.
Proof.
  intros Hcol Hf Hin. apply dict_get_None. rewrite dict_of_items_keys.
  rewrite (fetchall_row_columns _ _ _ _ Hf Hin).
  apply fetchall_known in Hf.
  cbn [selected sel_columns submissions_query forallb] in Hf.
  apply andb_prop in Hf as [H1 Hf]. apply andb_prop in Hf as [H2 Hf].
  apply andb_prop in Hf as [H3 Hf]. apply andb_prop in Hf as [H4 _].
  pose proof (declared_name_has_column t _ H1) as Hd.
  apply declared_name_same_name in H2, H3, H4.
  cbn [selected sel_columns submissions_query map result_name].
  intros [E|[E|[E|[E|[]]]]]; rewrite E in *.
  - congruence.
  - vm_compute in H2. discriminate.
  - vm_compute in H3. discriminate.
  - vm_compute in H4. discriminate.
Qed.

(** X5: [get_submissions], whenever its query is answered. On a table
    that declares the key column under exactly the name [SubmissionID]
    it succeeds: the keys of the mapping are exactly the [SubmissionID]
    values of the rows, so it has at most as many entries as there are
    rows. On a table that declares the column in another case of the
    letters the rows carry the declared name: the extraction returns the
    empty mapping on no rows and raises [KeyError('SubmissionID')] on
    the first row otherwise. *)
Theorem get_submissions_keys_every_row db w t rows :
  dbs w !! db = Some t ->
  distinct_columns t ->
  fetchall t submissions_query = Some rows ->
  if has_column t (py "SubmissionID")
  then
    exists d,
      get_submissions db w = (Ok d, log (Select db submissions_query) w)
      /\ (length d <= length rows)%nat
      /\ forall k, is_Some (dict_get k d)
           <-> exists r, In r rows
                         /\ dict_get (py "SubmissionID") (dict_of_items r) = Some k
  else
    get_submissions db w
    = match rows with
      | [] => (Ok [], log (Select db submissions_query) w)
      | _ :: _ =>
          (Raise (KeyError (py "SubmissionID")),
           log (Print (MsgErrorQuerying (KeyError (py "SubmissionID"))))
             (log (Select db submissions_query) w))
      end.
Proof.
  intros Hdb Hnd Hf.
  pose proof (sql_fetchall_rows _ _ _ _ _ Hdb Hf) as Hq.
  destruct (has_column t (py "SubmissionID")) eqn:Hcol.
  - assert (Hkeys : forall r, In r rows ->
              is_Some (dict_get (py "SubmissionID") (dict_of_items r))).
    { intros r. apply (rows_carry_declared_key BySubmission t rows r);
        [discriminate | exact Hnd | exact Hcol | exact Hf]. }
    destruct (collect_by_last_wins (py "SubmissionID") rows
                (log (Select db submissions_query) w) Hkeys) as (d & Hrun & Hget).
    exists d. split; [|split].
    + unfold get_submissions. apply reporting_ok.
      now rewrite (bind_ok _ _ _ _ _ Hq).
    + unfold collect_by in Hrun. apply collect_by_length in Hrun.
      simpl in Hrun. lia.
    + intros k. rewrite Hget. apply last_with_key_is_Some.
  - unfold get_submissions. destruct rows as [|r rows].
    + apply reporting_ok. now rewrite (bind_ok _ _ _ _ _ Hq).
    + apply reporting_key_error. rewrite (bind_ok _ _ _ _ _ Hq).
      apply collect_by_missing_key.
      apply (submission_row_lacks_key t (r :: rows)); [exact Hcol | exact Hf|].
      now left.
Qed.

(** ** Only exceptions are raised below the driver *)

Lemma raises_ret {A} (a : A) : raises_exceptions (ret a).
Proof. intros w e w' H. discriminate H. Qed.

Lemma raises_raise {A} e : is_exception e = true -> raises_exceptions (@raise A e).
Proof. intros He w e' w' [= <- _]. exact He. Qed.

Lemma raises_print m : raises_exceptions (print m).
Proof. intros w e w' H. discriminate H. Qed.

Lemma raises_bind {A B} (m : M A) (k : A -> M B) :
  raises_exceptions m -> (forall a, raises_exceptions (k a)) ->
  raises_exceptions (bind m k).
Proof.
  intros Hm Hk w e w'. unfold bind.
  destruct (m w) as [[a|e0] w1] eqn:E.
  - apply Hk.
  - intros [= <- _]. exact (Hm _ _ _ E).
Qed.

Lemma raises_for_each {A S} (l : list A) (body : S -> A -> M S) s :
  (forall s x, raises_exceptions (body s x)) -> raises_exceptions (for_each l body s).
Proof.
  intros Hb. revert s. induction l as [|x l IH]; intros s; simpl.
  - apply raises_ret.
  - apply raises_bind; [apply Hb | exact IH].
Qed.

(** Handlers that print and raise the exception they caught again. *)
Lemma raises_try_reraise {A} (body : M A) clauses :
  raises_exceptions body ->
  Forall (fun c => forall e, is_exception e = true -> raises_exceptions (snd c e))
         clauses ->
  raises_exceptions (try_except body clauses).
Proof.
  intros Hb Hc w e w'. unfold try_except.
  destruct (body w) as [[a|e0] w1] eqn:E; [discriminate|].
  pose proof (Hb _ _ _ E) as He0. clear E. revert w1.
  induction Hc as [|[catches handler] clauses Hh _ IH]; intros w1; simpl.
  - intros [= <- _]. exact He0.
  - destruct (catches e0); [apply (Hh e0 He0) | apply IH].
Qed.

Lemma raises_reporting {A} (body : M A) :
  raises_exceptions body -> raises_exceptions (reporting body).
Proof.
  intros Hb. apply raises_try_reraise; [exact Hb|].
  repeat constructor; intros e He; simpl;
    (apply raises_bind; [apply raises_print | intros _; now apply raises_raise]).
Qed.

Lemma raises_sql_fetchall db q : raises_exceptions (sql_fetchall db q).
Proof.
  intros w e w'. unfold sql_fetchall.
  destruct (dbs w !! db) as [t|]; [destruct (fetchall t q)|];
    intros [= <- _]; reflexivity.
Qed.

Lemma raises_getitem d k : raises_exceptions (getitem d k).
Proof.
  unfold getitem. destruct (dict_get k d);
    [apply raises_ret | now apply raises_raise].
Qed.

Lemma raises_collect_by key rows : raises_exceptions (collect_by key rows).
Proof.
  apply raises_for_each. intros d r.
  apply raises_bind; [apply raises_getitem | intros k; apply raises_ret].
Qed.

Lemma raises_mkdir_parents path : raises_exceptions (mkdir_parents path).
Proof.
  intros w e w'. unfold mkdir_parents.
  destruct (fault w); intros [= <- _]; reflexivity.
Qed.

Lemma raises_open_write path : raises_exceptions (open_write path).
Proof.
  intros w e w'. unfold open_write.
  destruct (fault w); intros [= <- _]; reflexivity.
Qed.

Lemma raises_write path chunk : raises_exceptions (write path chunk).
Proof.
  intros w e w'. unfold write.
  destruct (fault w) as [| | |room [|d]|[|d]|];
    try destruct (length chunk <=? room)%nat; intros [= <- _]; reflexivity.
Qed.

Lemma raises_close path : raises_exceptions (close path).
Proof.
  intros w e w'. unfold close.
  destruct (fault w); intros [= <- _]; reflexivity.
Qed.

Lemma raises_with_open_write {A} path (body : M A) :
  raises_exceptions body -> raises_exceptions (with_open_write path body).
Proof.
  intros Hb. unfold with_open_write.
  apply raises_bind; [apply raises_open_write | intros _].
  intros w e w'. specialize (Hb w).
  destruct (body w) as [r w1].
  pose proof (raises_close path w1) as Hc.
  destruct (close path w1) as [[[]|e2] w2].
  - intros [= -> <-]. now apply (Hb e w1).
  - intros [= <- <-]. now apply (Hc e2 w2).
Qed.

Section EncoderErrors.
Context {K V : Type}.
Variable key_of : K -> option text.
Variable encode_value : nat -> V -> chunks.
Hypothesis value_errors :
  forall level v e, snd (encode_value level v) = Some e -> is_exception e = true.

Lemma iterencode_items_error level first items e :
  snd (iterencode_items key_of encode_value level first items) = Some e ->
  is_exception e = true.
Proof.
  revert first. induction items as [|[k v] items IH]; intros first; simpl.
  - discriminate.
  - destruct (key_of k); [|now intros [= <-]].
    destruct (encode_value level v) as [cs [e'|]] eqn:Ev.
    + intros [= <-]. apply (value_errors level v). now rewrite Ev.
    + specialize (IH false).
      now destruct (iterencode_items key_of encode_value level false items).
Qed.

Lemma iterencode_dict_error level dct e :
  snd (iterencode_dict key_of encode_value level dct) = Some e ->
  is_exception e = true.
Proof.
  unfold iterencode_dict. destruct dct as [|item dct]; [discriminate|].
  pose proof (iterencode_items_error (S level) true (item :: dct)) as H.
  destruct (iterencode_items key_of encode_value (S level) true (item :: dct))
    as [cs [e'|]]; simpl in *; [|discriminate].
  intros [= <-]. now apply H.
Qed.
End EncoderErrors.

Lemma iterencode_error data e :
  snd (iterencode data) = Some e -> is_exception e = true.
Proof.
  apply iterencode_dict_error. intros level r e'.
  apply iterencode_dict_error. intros _ v e''.
  destruct v; simpl; try discriminate. now intros [= <-].
Qed.

Lemma raises_json_dump data path : raises_exceptions (json_dump data path).
Proof.
  unfold json_dump. pose proof (iterencode_error data) as He.
  destruct (iterencode data) as [cs raised]. simpl in He.
  apply raises_bind.
  - apply raises_for_each. intros _ chunk. apply raises_write.
  - intros _. destruct raised as [e|]; [|apply raises_ret].
    apply raises_raise. now apply He.
Qed.

Lemma raises_save_stats_to_json data path :
  raises_exceptions (save_stats_to_json data path).
Proof.
  apply raises_try_reraise.
  - apply raises_bind; [apply raises_mkdir_parents | intros _].
    apply raises_bind;
      [apply raises_with_open_write, raises_json_dump
      | intros _; apply raises_print].
  - repeat constructor; intros e He; simpl.
    apply raises_bind; [apply raises_print | intros _; now apply raises_raise].
Qed.

Lemma raises_process_results params : raises_exceptions (process_results params).
Proof.
  apply raises_bind.
  - apply raises_reporting, raises_bind;
      [apply raises_sql_fetchall | intros rows; apply raises_collect_by].
  - intros chats. destruct chats;
      (apply raises_bind; [apply raises_print | intros _];
       apply raises_save_stats_to_json).
Qed.

(** ** Runs that end well *)

Lemma get_submission_chats_ok db w chats w' :
  get_submission_chats db w = (Ok chats, w') ->
  (exists t, dbs w !! db = Some t /\ fetchall t chats_query = Some [])
  /\ chats = [] /\ w' = log (Select db chats_query) w.
Proof.
  intros Hrun.
  destruct (dbs w !! db) as [t|] eqn:Hdb.
  - destruct (fetchall t chats_query) as [[|r rows]|] eqn:Hf.
    + rewrite (get_submission_chats_empty db w t Hdb Hf) in Hrun.
      injection Hrun as <- <-. eauto.
    + rewrite (get_submission_chats_rows db w t r rows Hdb Hf) in Hrun.
      discriminate.
    + destruct (reporting_bind_refused db chats_query
                  (collect_by (py "SubmissionChatID")) w) as (msg & Hr);
        [right; eauto|].
      unfold get_submission_chats in Hrun. rewrite Hr in Hrun. discriminate.
  - destruct (reporting_bind_refused db chats_query
                (collect_by (py "SubmissionChatID")) w) as (msg & Hr);
      [now left|].
    unfold get_submission_chats in Hrun. rewrite Hr in Hrun. discriminate.
Qed.

Lemma process_results_ok params w w' :
  process_results params w = (Ok tt, w') ->
  files w' = <[stats_path params := py "{}"]> (files w).
Proof.
  unfold process_results. intros Hrun.
  destruct (get_submission_chats (db_path params) w) as [[chats|e] w1] eqn:E.
  - rewrite (bind_ok _ _ _ _ _ E) in Hrun.
    apply get_submission_chats_ok in E as (_ & -> & ->).
    unfold bind at 1, print at 1 in Hrun.
    destruct (save_stats_to_json_outcome [] (stats_path params)
                (log (Print MsgNoneFound)
                   (log (Select (db_path params) chats_query) w)))
      as (r & w2 & k & Hsave & Hcases).
    rewrite Hsave in Hrun. injection Hrun as -> ->.
    destruct Hcases as [(_ & _ & Hf)|[(e & He & _)|(e & He & _)]];
      [|discriminate He ..].
    rewrite Hf. reflexivity.
  - rewrite (bind_raise _ _ _ _ _ E) in Hrun. discriminate.
Qed.

(** ** Files other than the artifact *)

#[local] Instance files_elsewhere_kept_preorder db path :
  PreOrder (files_elsewhere_kept db path).
Proof.
  split; [intros w p _; now left | intros w1 w2 w3 H1 H2 p Hp].
  destruct (H1 p Hp) as [E1|(Hdb1 & Hn1 & Hs1)],
           (H2 p Hp) as [E2|(Hdb2 & Hn2 & Hs2)].
  - left. congruence.
  - right. rewrite <- E1. now split.
  - right. rewrite E2. now split.
  - congruence.
Qed.

#[local] Instance files_elsewhere_kept_observing db path :
  Observing (files_elsewhere_kept db path).
Proof. split; intros; intros p _; now left. Qed.












(** ** Whole runs *)

(** How the chat extraction can end: with the empty mapping, on a table
    that answers its query with no rows, or with an exception it has
    printed. *)
Lemma get_submission_chats_cases db w :
  (exists t, dbs w !! db = Some t /\ fetchall t chats_query = Some []
             /\ get_submission_chats db w
                = (Ok [], log (Select db chats_query) w))
  \/ (exists e m,
        get_submission_chats db w
        = (Raise e, log (Print m) (log (Select db chats_query) (connect db w)))).
Proof.
  destruct (dbs w !! db) as [t|] eqn:Hdb.
  - destruct (fetchall t chats_query) as [[|r rows]|] eqn:Hf.
    + left. exists t. split; [reflexivity|]. split; [exact Hf|].
      exact (get_submission_chats_empty db w t Hdb Hf).
    + right. rewrite (get_submission_chats_rows db w t r rows Hdb Hf).
      rewrite (connect_known db w t Hdb). eauto.
    + right.
      destruct (reporting_bind_refused db chats_query
                  (collect_by (py "SubmissionChatID")) w) as (msg & Hr);
        [right; eauto|].
      unfold get_submission_chats. rewrite Hr. eauto.
  - right.
    destruct (reporting_bind_refused db chats_query
                (collect_by (py "SubmissionChatID")) w) as (msg & Hr);
      [now left|].
    unfold get_submission_chats. rewrite Hr. eauto.
Qed.

(** The writer begins with the directory. *)
Lemma save_stats_to_json_starts data path w :
  exists more,
    trace (snd (save_stats_to_json data path w))
    = trace w ++ MkdirParents path :: more.
Proof.
  unfold save_stats_to_json. rewrite try_except_bind_first.
  set (w1 := log (MkdirParents path) w).
  assert (Hidle : engine_idle w1
            (snd (match mkdir_parents path w with
                  | (Ok a, w1) =>
                      try_except
                        (with_open_write path (json_dump data path) ;;
                         print (MsgSaved path))
                        [ (is_exception,
                           fun e => print (MsgErrorSaving e) ;; raise e) ] w1
                  | (Raise e, w1) =>
                      dispatch
                        [ (is_exception,
                           fun e => print (MsgErrorSaving e) ;; @raise unit e) ]
                        e w1
                  end))).
  { assert (Hh : Forall (fun c : (exn -> bool) * (exn -> M unit) =>
                           forall e, steady engine_idle (snd c e))
                   [ (is_exception,
                      fun e => print (MsgErrorSaving e) ;; @raise unit e) ]).
    { constructor; [|constructor]. intros e. simpl.
      apply steady_bind; [apply _ | | intros _; apply steady_raise; apply _].
      apply steady_print; apply _. }
    unfold mkdir_parents. fold w1.
    destruct (fault w).
    2: { apply (steady_dispatch engine_idle _ _ Hh). }
    all: apply (steady_try_except engine_idle); [|exact Hh];
      (apply steady_bind;
       [apply _ | apply idle_with_open_write, idle_json_dump | intros _];
       apply steady_print; apply _). }
  destruct Hidle as (more & Ht & _). exists more.
  rewrite Ht. subst w1. simpl. now rewrite <- app_assoc.
Qed.

Section Runs.
Context {payload : Type}.
Variable payload_truthy : payload -> bool.
Variable payload_dumps : payload -> text.
Variable engine :
  engine_request -> gmap text table -> QueryResult payload * gmap text table.

Local Abbreviation worker := (main payload_truthy payload_dumps engine).

(** The three ways a run can go, with the world in which extraction
    starts. *)
Lemma run_cases raw w :
  (dev_mode raw = false /\ validate_production_mode raw = false
   /\ exists m,
        worker raw w = (Raise (SystemExit 1), log (Print m) w))
  \/ (dev_mode raw = false /\ validate_production_mode raw = true
      /\ success (fst (engine (request_of raw) (dbs w))) = false
      /\ exists w2 m1 m2,
           worker raw w = (Raise (SystemExit 2), w2)
           /\ files w2 = files w
           /\ trace w2
              = trace w ++ [Print m1; Print m2; EngineCall (request_of raw)]
                ++ [Print (MsgQueryError
                             (error_message payload_truthy payload_dumps
                                (fst (engine (request_of raw) (dbs w)))))])
  \/ ((dev_mode raw = true
       \/ (validate_production_mode raw = true
           /\ success (fst (engine (request_of raw) (dbs w))) = true))
      /\ exists w1 before,
           files w1 = files w /\ fault w1 = fault w
           /\ trace w1 = trace w ++ before
           /\ List.filter is_file_event before = []
           /\ List.filter is_select before = []
           /\ worker raw w = top_level (process_results raw) w1).
Proof.
  destruct (dev_mode raw) eqn:Hd.
  - right. right. split; [now left|].
    exists (log (Print (MsgProcessing (db_path raw)))
              (log (Print MsgDevMode) (log (Print (MsgParams raw)) w))),
           [Print (MsgParams raw); Print MsgDevMode;
            Print (MsgProcessing (db_path raw))].
    rewrite (main_dev_mode _ _ _ raw w Hd).
    repeat split. simpl. now rewrite <- !app_assoc.
  - destruct (validate_production_mode raw) eqn:Hv.
    + destruct (engine (request_of raw) (dbs w)) as [outcome dbs'] eqn:He.
      rewrite (main_production _ _ _ raw w outcome dbs' Hd Hv He). cbv zeta.
      cbn [fst].
      destruct (success outcome) eqn:Hs.
      * right. right. split; [now right|].
        exists (log (Print (MsgQueryDone (db_path raw)))
                  (set_dbs dbs'
                     (log (EngineCall (request_of raw))
                        (log (Print (MsgExecuting (query raw)))
                           (log (Print (MsgParams raw)) w))))),
               [Print (MsgParams raw); Print (MsgExecuting (query raw));
                EngineCall (request_of raw);
                Print (MsgQueryDone (db_path raw))].
        repeat split. simpl. now rewrite <- !app_assoc.
      * right. left. split; [reflexivity|]. split; [reflexivity|].
        split; [reflexivity|].
        eexists _, (MsgParams raw), (MsgExecuting (query raw)).
        split; [reflexivity|]. split; [reflexivity|].
        simpl. now rewrite <- !app_assoc.
    + left. rewrite (main_invalid _ _ _ raw w Hd Hv). repeat split. eauto.
Qed.



(** X7: a run that ends with status 0 has written exactly the empty
    object: the artifact is [{}], whatever the database holds (an
    extraction that finds rows fails on its missing key column). *)
Theorem successful_run_writes_empty_object raw w :
  fst (run payload_truthy payload_dumps engine raw w) = 0%Z ->
  files (snd (run payload_truthy payload_dumps engine raw w))
  = <[stats_path raw := py "{}"]> (files w).
Proof.
  rewrite run_main. cbn [fst snd].
  destruct (run_cases raw w)
    as [(_ & _ & m & ->)
       |[(_ & _ & _ & w2 & m1 & m2 & -> & _)
        |(_ & w1 & before & Hf & _ & _ & _ & _ & ->)]];
    [discriminate ..|].
  destruct (process_results raw w1) as [[[]|e] w'] eqn:E.
  - rewrite (top_level_ok _ _ _ E). intros _. cbn [snd].
    rewrite <- Hf. now apply process_results_ok.
  - rewrite (top_level_raise _ _ _ _ E)
      by exact (raises_process_results raw _ _ _ E).
    discriminate.
Qed.


(** C3 (amended): a run that ends with status 3 either has not reached
    the writer or has. If it has not (a data-access error), no
    operation on the artifact has been attempted and the artifact keeps
    its prior content; the only file that may appear is the database
    file, created empty by the connection when nothing existed at its
    path. If it has (a failure of the writer), the files are as they
    were when the directory or the opening failed; once the artifact has
    been opened it has been truncated, and the failing run leaves it
    holding a proper prefix of the new serialization [{}]: writing is
    not all-or-nothing. The same holds of the writer on any dataset:
    after a failure the file is as it was, or holds some prefix, cut
    anywhere, of the text the encoder produced. *)
Theorem failed_run_leaves_prior_or_prefix :
  (forall raw w,
     let w' := snd (run payload_truthy payload_dumps engine raw w) in
     fst (run payload_truthy payload_dumps engine raw w) = 3%Z ->
     exists more,
       trace w' = trace w ++ more
       /\ ((List.filter is_file_event more = []
            /\ (files w' = files w
                \/ files w !! db_path raw = None
                   /\ files w' = <[db_path raw := []]> (files w)))
           \/ (In (MkdirParents (stats_path raw)) more
               /\ (files w' = files w
                   /\ (fault w = MkdirFault \/ fault w = OpenFault)
                   \/ exists k,
                        (k < length (py "{}"))%nat
                        /\ files w'
                           = <[stats_path raw := take k (py "{}")]> (files w)))))
  /\ (forall data path w e w',
        save_stats_to_json data path w = (Raise e, w') ->
        files w' = files w /\ (fault w = MkdirFault \/ fault w = OpenFault)
        \/ exists k, files w' = <[path := take k (dumps data)]> (files w)).
Proof.
  split.
  - intros raw w. cbv zeta. rewrite run_main. cbn [fst snd].
    destruct (run_cases raw w)
      as [(_ & _ & m & ->)
         |[(_ & _ & _ & w2 & m1 & m2 & -> & _)
          |(_ & w1 & before & Hf & Hfault & Ht & Hfe & _ & ->)]];
      [discriminate ..|].
    destruct (get_submission_chats_cases (db_path raw) w1)
      as [(t & Hdb & Hrows & Hget)|(e & m & Hget)].
    + (* extraction succeeds, with the empty mapping *)
      set (w3 := log (Print MsgNoneFound)
                   (log (Select (db_path raw) chats_query) w1)).
      destruct (save_stats_to_json_exact [] (stats_path raw) w3)
        as (r & w4 & Hsave & Hcase).
      destruct (save_stats_to_json_starts [] (stats_path raw) w3)
        as (written & Htw).
      rewrite Hsave in Htw. cbn [snd] in Htw.
      assert (Hp : process_results raw w1 = (r, w4)).
      { unfold process_results. rewrite (bind_ok _ _ _ _ _ Hget). exact Hsave. }
      change (fault w3) with (fault w1) in Hcase.
      change (files w3) with (files w1) in Hcase.
      rewrite Hfault, Hf in Hcase.
      change (concat (fst (iterencode []))) with (py "{}") in Hcase.
      change (encoded []) with (@Ok unit tt) in Hcase.
      destruct r as [[]|e]; [now rewrite (top_level_ok _ _ _ Hp)|].
      rewrite (top_level_raise _ _ _ _ Hp)
        by exact (raises_process_results raw _ _ _ Hp).
      intros _. cbn [snd]. change (files (log _ w4)) with (files w4).
      exists (before ++ [Select (db_path raw) chats_query; Print MsgNoneFound]
              ++ MkdirParents (stats_path raw) :: written
              ++ [Print (MsgWorkerError e)]).
      split.
      { simpl. rewrite Htw. subst w3. simpl. rewrite Ht.
        now rewrite <- !app_assoc. }
      right. split.
      { apply in_or_app. right. right. right. now left. }
      destruct (fault w) as [| | |room delay|delay|] eqn:Hfw;
        destruct Hcase as [Hr Hfiles]; try discriminate.
      * left. split; [exact Hfiles | now left].
      * left. split; [exact Hfiles | now right].
      * destruct (Nat.leb_spec (length (py "{}")) room) as [Hfit|Hover];
          [discriminate|].
        right. exists room. split; [exact Hover | exact Hfiles].
      * right. exists 0%nat. split; [simpl; lia | exact Hfiles].
    + (* extraction fails *)
      assert (Hp : process_results raw w1
                   = (Raise e,
                      log (Print m)
                        (log (Select (db_path raw) chats_query)
                           (connect (db_path raw) w1)))).
      { unfold process_results. now rewrite (bind_raise _ _ _ _ _ Hget). }
      rewrite (top_level_raise _ _ _ _ Hp)
        by exact (raises_process_results raw _ _ _ Hp).
      intros _. cbn [snd].
      exists (before ++ [Select (db_path raw) chats_query; Print m;
                         Print (MsgWorkerError e)]).
      split.
      { simpl. rewrite <- !app_assoc. simpl.
        destruct (connect_cases (db_path raw) w1) as [-> | (_ & _ & _ & ->)];
          simpl; now rewrite Ht, <- !app_assoc. }
      left. split.
      * now rewrite List.filter_app, Hfe.
      * simpl.
        destruct (connect_cases (db_path raw) w1) as [-> | (_ & Hn & _ & ->)].
        -- now left.
        -- right. simpl. rewrite <- Hf. now split.
  - intros data path w e w' Hsave.
    destruct (save_stats_to_json_outcome data path w)
      as (r & w1 & k & Hrun & Hcases).
    rewrite Hsave in Hrun. injection Hrun as <- <-.
    destruct Hcases as [(Hr & _)|[(e' & _ & Hf & Hfault)|(e' & _ & Hf & _)]].
    + discriminate Hr.
    + now left.
    + right. now exists k.
Qed.

(** X9: a run calls the engine at most once, and not at all in
    development mode or with an invalid configuration. *)
Theorem engine_called_at_most_once raw w :
  exists more,
    trace (snd (run payload_truthy payload_dumps engine raw w)) = trace w ++ more
    /\ (length (List.filter is_engine_call more) <= 1)%nat
    /\ (dev_mode raw = true \/ validate_production_mode raw = false ->
        List.filter is_engine_call more = []).
Proof.
  rewrite run_main. cbn [snd].
  assert (Hquiet : forall w1 more1,
            trace w1 = trace w ++ more1 ->
            exists more,
              trace (snd (top_level (process_results raw) w1)) = trace w ++ more
              /\ List.filter is_engine_call more
                 = List.filter is_engine_call more1).
  { intros w1 more1 H1.
    destruct (top_level_process_results_starts raw w1) as (more2 & Ht & Hq & _).
    exists (more1 ++ Select (db_path raw) chats_query :: more2).
    split; [rewrite Ht; simpl; rewrite H1; now rewrite <- !app_assoc|].
    rewrite List.filter_app. simpl.
    replace (List.filter is_engine_call more2) with (@nil event);
      [now rewrite app_nil_r|].
    symmetry. clear -Hq. induction more2 as [|e more2 IH]; [reflexivity|].
    simpl in *. apply andb_prop in Hq as [He Hq].
    destruct (is_engine_call e); [discriminate | now apply IH]. }
  destruct (dev_mode raw) eqn:Hd.
  - rewrite (main_dev_mode _ _ _ raw w Hd).
    match goal with
    | |- context [top_level _ ?w1] =>
        eassert (H1 : trace w1 = trace w ++ _)
          by (simpl; rewrite <- !app_assoc; reflexivity);
        destruct (Hquiet _ _ H1) as (more & Ht & Hf)
    end.
    exists more. rewrite Ht, Hf. simpl. split; [reflexivity|]. split; [lia|].
    reflexivity.
  - destruct (validate_production_mode raw) eqn:Hv.
    + destruct (engine (request_of raw) (dbs w)) as [outcome dbs'] eqn:He.
      rewrite (main_production _ _ _ raw w outcome dbs' Hd Hv He). cbv zeta.
      destruct (success outcome).
      * match goal with
        | |- context [top_level _ ?w1] =>
            eassert (H1 : trace w1 = trace w ++ _)
              by (simpl; rewrite <- !app_assoc; reflexivity);
            destruct (Hquiet _ _ H1) as (more & Ht & Hf)
        end.
        exists more. rewrite Ht, Hf. simpl. split; [reflexivity|].
        split; [lia | intros [?|?]; discriminate].
      * eexists. cbn [snd]. simpl. rewrite <- !app_assoc. split; [reflexivity|].
        simpl. split; [lia | intros [?|?]; discriminate].
    + rewrite (main_invalid _ _ _ raw w Hd Hv). eexists. cbn [snd]. simpl.
      split; [reflexivity|]. simpl. split; [lia | reflexivity].
Qed.
End Runs.

(** ** A table with one record per user *)




(** ** A run on a database the chat query cannot read *)

Section UnreadableDatabase.
Context {payload : Type}.
Variable payload_truthy : payload -> bool.
Variable payload_dumps : payload -> text.
Variable engine :
  engine_request -> gmap text table -> QueryResult payload * gmap text table.

Lemma connect_log db e w : connect db (log e w) = log e (connect db w).
Proof.
  unfold connect. cbn [dbs files fault log].
  destruct (dbs w !! db); [reflexivity|].
  destruct (files w !! db); [reflexivity|].
  now destruct (fault w).
Qed.

(** X11: in development mode, when the database has no [results] table
    or no column of the table answers to one of the three names the
    chat query selects, the run exits with status 3 after reporting the
    SQLite error twice (once by the extraction, once by the driver). No
    operation on the artifact is attempted; the files are as they were,
    except that connecting creates the database file, empty, when
    nothing exists at its path. *)
Theorem unreadable_database_exits_3 raw w :
  dev_mode raw = true ->
  (dbs w !! db_path raw = None
   \/ exists t, dbs w !! db_path raw = Some t /\ fetchall t chats_query = None) ->
  exists msg,
    run payload_truthy payload_dumps engine raw w
    = (3%Z,
       log (Print (MsgWorkerError (SqliteError msg)))
         (log (Print (MsgSqliteError (SqliteError msg)))
            (log (Select (db_path raw) chats_query)
               (log (Print (MsgProcessing (db_path raw)))
                  (log (Print MsgDevMode)
                     (log (Print (MsgParams raw))
                        (connect (db_path raw) w)))))))
    /\ files (snd (run payload_truthy payload_dumps engine raw w))
       = files (connect (db_path raw) w).
Proof.
  intros Hd Href. rewrite run_main, (main_dev_mode _ _ _ raw w Hd).
  set (w1 := log (Print (MsgProcessing (db_path raw))) _).
  destruct (reporting_bind_refused (db_path raw) chats_query
              (collect_by (py "SubmissionChatID")) w1 Href) as (msg & Hr).
  exists msg.
  assert (Hp : process_results raw w1
               = (Raise (SqliteError msg),
                  log (Print (MsgSqliteError (SqliteError msg)))
                    (log (Select (db_path raw) chats_query)
                       (connect (db_path raw) w1)))).
  { unfold process_results. now apply bind_raise. }
  rewrite (top_level_raise _ _ _ _ Hp eq_refl). subst w1.
  rewrite !connect_log. now split.
Qed.
End UnreadableDatabase.

(** ** What [json.dump] refuses *)

Section EncoderRefusals.
Context {K V : Type}.
Variable key_of : K -> option text.
Variable encode_value : nat -> V -> chunks.
Variable bad_key : K -> bool.
Variable bad_value : V -> bool.
Hypothesis key_refused : forall k, key_of k = None <-> bad_key k = true.
Hypothesis value_refused :
  forall level v,
    match snd (encode_value level v) with
    | None => bad_value v = false
    | Some e => bad_value v = true /\ exists msg, e = TypeError msg
    end.

Local Abbreviation refused items :=
  (existsb (fun kv => bad_key (fst kv) || bad_value (snd kv)) items).

Lemma iterencode_items_refusal level first items :
  match snd (iterencode_items key_of encode_value level first items) with
  | None => refused items = false
  | Some e => refused items = true /\ exists msg, e = TypeError msg
  end.
Proof.
  revert first. induction items as [|[k v] items IH]; intros first;
    cbn [iterencode_items existsb fst snd]; [reflexivity|].
  destruct (key_of k) as [kt|] eqn:Hk.
  - assert (Hbk : bad_key k = false).
    { destruct (bad_key k) eqn:Hb; [|reflexivity].
      apply key_refused in Hb. congruence. }
    rewrite Hbk. cbn [orb].
    pose proof (value_refused level v) as Hv.
    destruct (encode_value level v) as [cs [e|]]; cbn [snd] in *.
    + destruct Hv as [-> Hmsg]. now split.
    + rewrite Hv. cbn [orb]. specialize (IH false).
      now destruct (iterencode_items key_of encode_value level false items).
  - rewrite (proj1 (key_refused k) Hk). cbn [snd orb]. split; eauto.
Qed.

Lemma iterencode_dict_refusal level dct :
  match snd (iterencode_dict key_of encode_value level dct) with
  | None => refused dct = false
  | Some e => refused dct = true /\ exists msg, e = TypeError msg
  end.
Proof.
  unfold iterencode_dict. destruct dct as [|item dct]; [reflexivity|].
  pose proof (iterencode_items_refusal (S level) true (item :: dct)) as H.
  now destruct (iterencode_items key_of encode_value (S level) true (item :: dct))
    as [cs [e|]].
Qed.
End EncoderRefusals.

Lemma iterencode_refusal data :
  match snd (iterencode data) with
  | None => holds_bytes data = false
  | Some e => holds_bytes data = true /\ exists msg, e = TypeError msg
  end.
Proof.
  unfold iterencode, holds_bytes.
  apply (iterencode_dict_refusal key_text iterencode_row is_blob
           (fun r => existsb (fun cv => is_blob (snd cv)) r)).
  - intros k. destruct k; simpl; split; congruence.
  - intros level r. unfold iterencode_row.
    apply (iterencode_dict_refusal Some (fun _ => iterencode_scalar)
             (fun _ => false) is_blob).
    + intros k. split; discriminate.
    + intros _ v. destruct v; simpl; eauto.
Qed.

(** X12: when the file system does not fail, [save_stats_to_json]
    succeeds exactly on the datasets that hold no [bytes] value, as a
    key or as a cell; on the others it raises the [TypeError] of
    [json.dump]. *)
Theorem save_succeeds_unless_bytes data path w :
  fault w = NoFault ->
  if holds_bytes data
  then exists msg, fst (save_stats_to_json data path w) = Raise (TypeError msg)
  else fst (save_stats_to_json data path w) = Ok tt.
Proof.
  intros Hn. pose proof (iterencode_refusal data) as Href.
  destruct (save_stats_to_json_outcome data path w) as (r & w' & k & -> & Hcases).
  cbn [fst].
  destruct Hcases as [(-> & Hnone & _)|[(e & _ & _ & [Hx|Hx])|(e & -> & _ & Hx)]];
    try congruence.
  - rewrite Hnone in Href. now rewrite Href.
  - destruct (Hx Hn) as [Hsome _]. rewrite Hsome in Href.
    destruct Href as [-> (msg & ->)]. eauto.
Qed.

(** ** The artifact is ASCII *)

Lemma hex_digit_ascii n : n < 16 -> ascii_char (hex_digit n) = true.
Proof.
  intros Hn. unfold hex_digit, ascii_char.
  destruct (N.ltb_spec n 10); apply orb_true_iff; right;
    apply andb_true_iff; split; apply N.leb_le; lia.
Qed.

Lemma hex4_ascii n : ascii_text (hex4 n) = true.
Proof.
  unfold hex4, ascii_text. cbn [forallb].
  now rewrite !hex_digit_ascii by apply nibble_lt.
Qed.

Lemma ascii_text_app s1 s2 :
  ascii_text (s1 ++ s2) = ascii_text s1 && ascii_text s2.
Proof. apply forallb_app. Qed.

Lemma escape_char_ascii c : ascii_text (escape_char c) = true.
Proof.
  unfold escape_char.
  repeat (match goal with
          | |- context [if ?b then _ else _] => destruct b eqn:?
          end; try reflexivity).
  - unfold ascii_text. cbn [forallb]. unfold ascii_char.
    match goal with H : _ && _ = true |- _ => rewrite H end.
    now rewrite orb_true_r.
  - change (ascii_text ([92; 117] ++ hex4 c) = true).
    now rewrite ascii_text_app, hex4_ascii.
  - cbv zeta.
    match goal with
    | |- ascii_text ((92 :: 117 :: hex4 ?a) ++ 92 :: 117 :: hex4 ?b) = true =>
        change (ascii_text (([92; 117] ++ hex4 a) ++ [92; 117] ++ hex4 b) = true)
    end.
    now rewrite !ascii_text_app, !hex4_ascii.
Qed.

Lemma encode_str_ascii s : ascii_text (encode_str s) = true.
Proof.
  unfold encode_str. change (ascii_text ([34] ++ flat_map escape_char s ++ [34]) = true).
  rewrite !ascii_text_app. cbn [andb]. rewrite andb_true_r.
  induction s as [|c s IH]; [reflexivity|]. cbn [flat_map].
  now rewrite ascii_text_app, escape_char_ascii.
Qed.

Lemma uint_digits_ascii d : ascii_text (uint_digits d) = true.
Proof. induction d; simpl; auto. Qed.

Lemma str_int_ascii z : ascii_text (str_int z) = true.
Proof.
  unfold str_int. destruct (Z.to_int z); [|change (ascii_text ([45] ++ uint_digits d) = true);
    rewrite ascii_text_app]; now rewrite uint_digits_ascii.
Qed.

Lemma newline_indent_ascii level : ascii_text (newline_indent level) = true.
Proof.
  unfold newline_indent. generalize (4 * level)%nat as n. intros n.
  change (ascii_text ([10] ++ repeat 32 n) = true). rewrite ascii_text_app.
  cbn [andb]. induction n; [reflexivity | exact IHn].
Qed.

Section EncoderAscii.
Context {K V : Type}.
Variable key_of : K -> option text.
Variable encode_value : nat -> V -> chunks.
Hypothesis values_ascii :
  forall level v, forallb ascii_text (fst (encode_value level v)) = true.

Lemma iterencode_items_ascii level first items :
  forallb ascii_text (fst (iterencode_items key_of encode_value level first items))
  = true.
Proof.
  revert first. induction items as [|[k v] items IH]; intros first;
    cbn [iterencode_items]; [reflexivity|].
  destruct (key_of k) as [kt|]; [|reflexivity]. cbv zeta.
  pose proof (values_ascii level v) as Hv. specialize (IH false).
  assert (Hhead : forallb ascii_text
                    ((if first then [] else [44 :: newline_indent level])
                     ++ [encode_str kt; py ": "]) = true).
  { rewrite forallb_app. cbn [forallb]. rewrite encode_str_ascii.
    destruct first; [reflexivity|]. cbn [forallb].
    change (ascii_text ([44] ++ newline_indent level) && true && true = true).
    now rewrite ascii_text_app, newline_indent_ascii. }
  destruct (encode_value level v) as [cs [e|]]; cbn [fst] in *.
  - rewrite forallb_app. apply andb_true_iff. now split.
  - destruct (iterencode_items key_of encode_value level false items) as [cs' e'].
    cbn [fst] in *.
    rewrite forallb_app. apply andb_true_iff. split; [exact Hhead|].
    rewrite forallb_app. apply andb_true_iff. now split.
Qed.

Lemma iterencode_dict_ascii level dct :
  forallb ascii_text (fst (iterencode_dict key_of encode_value level dct)) = true.
Proof.
  unfold iterencode_dict. destruct dct as [|item dct]; [reflexivity|].
  pose proof (iterencode_items_ascii (S level) true (item :: dct)) as H.
  destruct (iterencode_items key_of encode_value (S level) true (item :: dct))
    as [cs [e|]]; cbn [fst forallb] in *;
    rewrite newline_indent_ascii; cbn [andb].
  - exact H.
  - rewrite forallb_app, H. cbn [forallb]. now rewrite newline_indent_ascii.
Qed.
End EncoderAscii.

Lemma iterencode_ascii data : forallb ascii_text (fst (iterencode data)) = true.
Proof.
  apply iterencode_dict_ascii. intros level r.
  apply iterencode_dict_ascii. intros _ v.
  destruct v; cbn [iterencode_scalar fst forallb]; try reflexivity.
  - now rewrite str_int_ascii.
  - now rewrite encode_str_ascii.
Qed.

Lemma concat_ascii (cs : list text) :
  forallb ascii_text cs = true -> ascii_text (concat cs) = true.
Proof.
  induction cs as [|c cs IH]; intros H; [reflexivity|].
  cbn [forallb] in H. apply andb_true_iff in H as [Hc Hcs].
  cbn [concat]. now rewrite ascii_text_app, Hc, IH.
Qed.

(** A prefix of ASCII text, cut anywhere, is ASCII. *)
Lemma take_ascii k (s : text) :
  ascii_text s = true -> ascii_text (take k s) = true.
Proof.
  revert k. induction s as [|c s IH]; intros [|k] H; try reflexivity.
  cbn [ascii_text forallb] in H. apply andb_true_iff in H as [Hc Hs].
  cbn [take ascii_text forallb]. rewrite Hc. now apply IH.
Qed.

(** X13: whatever the dataset holds and however the save ends, the
    artifact afterwards is either the file that was there before,
    untouched, or plain ASCII: printable characters and newlines only,
    every other character of a key or a cell written as an escape. *)
Theorem artifact_is_ascii data path w content :
  files (snd (save_stats_to_json data path w)) !! path = Some content ->
  files w !! path = Some content \/ ascii_text content = true.
Proof.
  destruct (save_stats_to_json_outcome data path w) as (r & w' & k & -> & Hcases).
  cbn [snd]. pose proof (iterencode_ascii data) as Hascii.
  destruct Hcases as [(_ & _ & ->)|[(e & _ & -> & _)|(e & _ & -> & _)]].
  - rewrite lookup_insert_eq. intros [= <-]. right. now apply concat_ascii.
  - now left.
  - rewrite lookup_insert_eq. intros [= <-]. right.
    now apply take_ascii, concat_ascii.
Qed.

(** ** Reading back keys that collide *)

(** X14: for a dataset without [bytes], the complete artifact text
    always parses, also when two keys are written under the same member
    name (as the integer 1 and the text '1' are): the parsed object is
    the one built by assigning each entry to its member name in order,
    so of colliding entries the later one is kept. *)
Theorem colliding_keys_read_back_merged data :
  jsonable data = true ->
  Forall (fun kr => NoDup (map fst (snd kr))) data ->
  loads (dumps data)
  = Some (JObj (dict_of_items
                  (map (fun kr => (key_name (fst kr), json_of_row (snd kr))) data))).
Proof.
  intros Hj Hrows.
  pose proof (scan_once_dict key_text iterencode_row json_of_row 0 data []
                (S (length (dumps data)))
                (dataset_good_items data Hj Hrows)) as Hscan.
  fold (iterencode data) in Hscan. fold (dumps data) in Hscan.
  rewrite app_nil_r in Hscan. specialize (Hscan ltac:(lia)).
  unfold loads. now rewrite (scan_once_not_ws _ _ _ Hscan), Hscan.
Qed.

(** ** What the writer reports *)

Lemma bind_ok_inv {A B} (m : M A) (k : A -> M B) w b w' :
  bind m k w = (Ok b, w') ->
  exists a w1, m w = (Ok a, w1) /\ k a w1 = (Ok b, w').
Proof.
  unfold bind. destruct (m w) as [[a|e] w1]; [eauto | discriminate].
Qed.

(** X15: [save_stats_to_json] ends by reporting its outcome: after a
    success the last event is the print of the saved path, and after a
    failure it is the print of the error, which is an [Exception] and is
    the one raised again. *)
Theorem save_reports_its_outcome data path w :
  match save_stats_to_json data path w with
  | (Ok _, w') => last (trace w') = Some (Print (MsgSaved path))
  | (Raise e, w') =>
      last (trace w') = Some (Print (MsgErrorSaving e))
      /\ is_exception e = true
  end.
Proof.
  unfold save_stats_to_json, try_except.
  set (body := bind (mkdir_parents path) _).
  assert (Hbody : raises_exceptions body).
  { apply raises_bind; [apply raises_mkdir_parents | intros _].
    apply raises_bind;
      [apply raises_with_open_write, raises_json_dump
      | intros _; apply raises_print]. }
  destruct (body w) as [[[]|e] w1] eqn:E.
  - subst body.
    apply bind_ok_inv in E as (? & w2 & _ & E).
    apply bind_ok_inv in E as (? & w3 & _ & E).
    injection E as <-. simpl. apply last_snoc.
  - pose proof (Hbody _ _ _ E) as He. simpl. rewrite He.
    unfold bind, print, raise. simpl. split; [apply last_snoc | exact He].
Qed.

(** ** When the active pipeline succeeds *)

(** X16: when the file system does not fail, [process_results]
    succeeds exactly on a database whose [results] table answers the
    chat query with no rows. *)
Theorem process_results_succeeds_iff_no_rows params w :
  fault w = NoFault ->
  fst (process_results params w) = Ok tt
  <-> exists t, dbs w !! db_path params = Some t
                /\ fetchall t chats_query = Some [].
Proof.
  intros Hn. unfold process_results. split.
  - destruct (get_submission_chats (db_path params) w) as [[chats|e] w1] eqn:E.
    + intros _. now apply get_submission_chats_ok in E as (Ht & _).
    + rewrite (bind_raise _ _ _ _ _ E). discriminate.
  - intros (t & Hdb & Hf).
    rewrite (bind_ok _ _ _ _ _ (get_submission_chats_empty _ _ _ Hdb Hf)).
    unfold bind at 1, print at 1.
    destruct (save_stats_to_json_complete [] (stats_path params)
                (log (Print MsgNoneFound)
                   (log (Select (db_path params) chats_query) w)) Hn eq_refl)
      as (w' & -> & _).
    reflexivity.
Qed.

(** ** The further properties at sample inputs *)


Lemma refused_query_is_reported_and_reraised_witness :
  exists msg,
    fst (extract ByChat (db_path sample_development)
           (sample_world (messages_table two_senders) None NoFault))
    = Raise (SqliteError msg).
Proof.
  destruct (refused_query_is_reported_and_reraised ByChat
              (db_path sample_development)
              (sample_world (messages_table two_senders) None NoFault))
    as (msg & Hrun).
  - right. exists (messages_table two_senders). split; vm_compute; reflexivity.
  - exists msg. now rewrite Hrun.
Defined.


Lemma get_submissions_keys_every_row_witness :
  (exists d,
     fst (get_submissions (db_path sample_development)
            (sample_world (submissions_table two_submissions_one_id) None NoFault))
     = Ok d
     /\ (length d <= 2)%nat
     /\ is_Some (dict_get (VInt 41) d))
  /\ fst (get_submissions (db_path sample_development)
            (sample_world (lowercase_submissions_table two_submissions_one_id)
               None NoFault))
     = Raise (KeyError (py "SubmissionID")).
Proof.
  split.
  - pose proof (get_submissions_keys_every_row (db_path sample_development)
                  (sample_world (submissions_table two_submissions_one_id)
                     None NoFault)
                  (submissions_table two_submissions_one_id)
                  (default [] (fetchall (submissions_table two_submissions_one_id)
                                 submissions_query))) as H.
    assert (Hc : has_column (submissions_table two_submissions_one_id)
                   (py "SubmissionID") = true) by (vm_compute; reflexivity).
    rewrite Hc in H. destruct H as (d & Hrun & Hlen & Hkeys).
    + vm_compute. reflexivity.
    + vm_compute. repeat constructor; rewrite ?list_elem_of_In; simpl;
        intuition discriminate.
    + vm_compute. reflexivity.
    + exists d. split; [now rewrite Hrun|]. split; [exact Hlen|].
      apply Hkeys. eexists. split; [left; reflexivity|]. vm_compute. reflexivity.
  - pose proof (get_submissions_keys_every_row (db_path sample_development)
                  (sample_world (lowercase_submissions_table two_submissions_one_id)
                     None NoFault)
                  (lowercase_submissions_table two_submissions_one_id)
                  (default [] (fetchall
                                 (lowercase_submissions_table two_submissions_one_id)
                                 submissions_query))) as H.
    assert (Hc : has_column (lowercase_submissions_table two_submissions_one_id)
                   (py "SubmissionID") = false) by (vm_compute; reflexivity).
    rewrite Hc in H. rewrite H.
    + vm_compute. reflexivity.
    + vm_compute. reflexivity.
    + vm_compute. repeat constructor; rewrite ?list_elem_of_In; simpl;
        intuition discriminate.
    + vm_compute. reflexivity.
Defined.

Lemma successful_run_writes_empty_object_witness :
  files (snd (run unit_truthy unit_dumps idle_engine sample_development
                (sample_world (chats_table []) (Some (py "previous")) NoFault)))
  !! stats_path sample_development = Some (py "{}").
Proof.
  rewrite (successful_run_writes_empty_object unit_truthy unit_dumps idle_engine
             sample_development
             (sample_world (chats_table []) (Some (py "previous")) NoFault)).
  - apply lookup_insert_eq.
  - vm_compute. reflexivity.
Defined.



Lemma unreadable_database_exits_3_witness :
  fst (run unit_truthy unit_dumps idle_engine sample_development no_database)
  = 3%Z
  /\ files (snd (run unit_truthy unit_dumps idle_engine sample_development
                   no_database))
     = <[db_path sample_development := []]> (files no_database).
Proof.
  destruct (unreadable_database_exits_3 unit_truthy unit_dumps idle_engine
              sample_development no_database eq_refl) as (msg & Hrun & Hfiles).
  - left. reflexivity.
  - rewrite Hfiles, Hrun. split; reflexivity.
Defined.

(** C3 (as stated) fails: the device takes one character and refuses
    the next when the buffered file is closed; the artifact that held
    [previous] is left holding the first character of [{}], which is
    neither its prior content nor the complete serialization. *)
Lemma write_failure_leaves_partial_artifact :
  let w := sample_world (chats_table []) (Some (py "previous")) (WriteFault 1 1) in
  let r := run unit_truthy unit_dumps idle_engine sample_development w in
  fst r = 3%Z
  /\ files w !! stats_path sample_development = Some (py "previous")
  /\ files (snd r) !! stats_path sample_development = Some (py "{")
  /\ dumps [] = py "{}".
Proof. vm_compute. repeat split; reflexivity. Qed.

(** The writer on a dataset of one entry, with a device that takes
    three characters: the file is left holding the first three
    characters of the text, cut inside the indentation. *)
Example three_characters_taken :
  let r := save_stats_to_json [ (VText (py "a"), [ (py "x", VInt 1) ]) ]
             (stats_path sample_development)
             (sample_world (chats_table []) (Some (py "previous"))
                (WriteFault 3 6)) in
  fst r = Raise (OSError (py "write"))
  /\ files (snd r) !! stats_path sample_development = Some [123; 10; 32].
Proof. vm_compute. split; reflexivity. Qed.

(** The message sample on a table that declares [senderid] in lower
    case: the query is answered, and the row carries the declared
    name. *)
Example lowercase_sender_is_read :
  fst (get_chat_messages (db_path sample_development)
         (sample_world {| columns := [py "senderid"]; records := [[VInt 5]] |}
            None NoFault))
  = Ok [ (VText (py "0"), [ (py "senderid", VInt 5) ]) ].
Proof. vm_compute. reflexivity. Qed.

Lemma failed_run_leaves_prior_or_prefix_witness :
  files (snd (run unit_truthy unit_dumps idle_engine sample_development
                (sample_world (chats_table one_chat) (Some (py "previous"))
                   NoFault)))
  !! stats_path sample_development = Some (py "previous").
Proof.
  destruct (proj1 (failed_run_leaves_prior_or_prefix unit_truthy unit_dumps
                     idle_engine)
              sample_development
              (sample_world (chats_table one_chat) (Some (py "previous")) NoFault))
    as (more & _ & [(_ & [Hf|[Hn Hf]])|(_ & [(Hf & _)|(k & Hk & Hf)])]).
  - vm_compute. reflexivity.
  - rewrite Hf. reflexivity.
  - rewrite Hf. vm_compute. reflexivity.
  - rewrite Hf. reflexivity.
  - apply (f_equal (fun m => m !! stats_path sample_development)) in Hf.
    rewrite lookup_insert_eq in Hf. rewrite Hf.
    vm_compute in Hf. destruct k as [|[|k]]; [discriminate Hf ..|].
    simpl in Hk. lia.
Defined.

Lemma save_succeeds_unless_bytes_witness :
  (exists msg,
     fst (save_stats_to_json dataset_with_blob (stats_path sample_development)
            (sample_world (chats_table []) None NoFault))
     = Raise (TypeError msg))
  /\ fst (save_stats_to_json dataset_plain (stats_path sample_development)
            (sample_world (chats_table []) None NoFault))
     = Ok tt.
Proof.
  split.
  - exact (save_succeeds_unless_bytes dataset_with_blob
             (stats_path sample_development)
             (sample_world (chats_table []) None NoFault) eq_refl).
  - exact (save_succeeds_unless_bytes dataset_plain
             (stats_path sample_development)
             (sample_world (chats_table []) None NoFault) eq_refl).
Defined.

Lemma artifact_is_ascii_witness :
  ascii_text (dumps dataset_plain) = true
  /\ ascii_text [233; 34; 128512; 10] = false.
Proof.
  split; [|reflexivity].
  destruct (artifact_is_ascii dataset_plain (stats_path sample_development)
              (sample_world (chats_table []) (Some (py "previous")) NoFault)
              (dumps dataset_plain)) as [Hold|Hascii].
  - vm_compute. reflexivity.
  - vm_compute in Hold. discriminate Hold.
  - exact Hascii.
Defined.

Lemma colliding_keys_read_back_merged_witness :
  loads (dumps dataset_colliding)
  = Some (JObj [ (py "1", JObj [ (py "Source", JStr (py "b")) ]) ]).
Proof.
  rewrite (colliding_keys_read_back_merged dataset_colliding).
  - vm_compute. reflexivity.
  - vm_compute. reflexivity.
  - repeat constructor; rewrite ?list_elem_of_In; simpl; intuition discriminate.
Defined.

Lemma process_results_succeeds_iff_no_rows_witness :
  fst (process_results sample_development
         (sample_world (chats_table []) None NoFault)) = Ok tt
  /\ fst (process_results sample_development
            (sample_world (chats_table one_chat) None NoFault)) <> Ok tt.
Proof.
  split.
  - apply (proj2 (process_results_succeeds_iff_no_rows sample_development
                    (sample_world (chats_table []) None NoFault) eq_refl)).
    exists (chats_table []). split; vm_compute; reflexivity.
  - intros Hok.
    apply (proj1 (process_results_succeeds_iff_no_rows sample_development
                    (sample_world (chats_table one_chat) None NoFault) eq_refl))
      in Hok as (t & Hdb & Hf).
    vm_compute in Hdb. injection Hdb as <-. vm_compute in Hf. discriminate Hf.
Defined.
